(** * Background jobs of the e-commerce backend: order processing and report generation

    A shallow embedding of [apps/orders/tasks.py], [apps/reports/tasks.py],
    [ReportViewSet.cancel] ([apps/reports/views.py]), the report admin actions
    ([apps/reports/admin.py]) and [ReportCreateSerializer.create]
    ([apps/reports/serializers.py]), together with the part of the Celery
    run time these functions are written against (task messages, automatic
    retries, chains, revocation).

    Conventions of the embedding:
    - database tables are finite maps from primary key to row ([gmap]), except
      the tables that are only appended to or scanned, which are lists of rows;
    - the world carries its database connection: the backend ([postgresql],
      the backend of [config/settings/production.py], or [sqlite]) and
      whether the connection is in autocommit mode, as it is whenever no
      [transaction.atomic()] block is open. The backends differ where the
      code depends on it: [select_for_update()] and the width of integer
      columns;
    - money ([DecimalField] with two decimal places) is an integer number of
      hundredths; instants ([DateTimeField]) are integers;
    - a Python function that reads and writes the database and may raise is a
      function [S -> Outcome A * S]; effects persist when an exception
      propagates, except inside [transaction.atomic()], which rolls back;
    - [logger] calls have no effect on the modelled state and are left out. *)

From stdpp Require Import base gmap list strings sorting pretty.
From Stdlib Require Import ZArith Lia.

Set Warnings "-register-all".

#[local] Open Scope Z_scope.

(** ** Python values, exceptions and outcomes *)

(** JSON-like values: task arguments, task results, report summaries and
    the cells handed to [csv.writer]. [VFloat n d] is [float(x)] for the
    exact number [x = n / d]; the rounding to a binary float is not
    modelled. [VDecimal c] is a [Decimal] of [c] hundredths (in a CSV cell,
    where [csv.writer] writes [str(x)], its text); [VDate t] is the text of
    the instant [t] rendered by [strftime]. *)
Inductive Value : Type :=
| VNone
| VBool (b : bool)
| VInt (z : Z)
| VStr (s : string)
| VFloat (n d : Z)
| VDecimal (cents : Z)
| VDate (t : Z)
| VList (vs : list Value)
| VDict (kvs : list (string * Value)).

(** Lookup [d[k]] in a dict literal. *)
Fixpoint dict_get (k : string) (kvs : list (string * Value)) : option Value :=
  match kvs with
  | [] => None
  | (k', v) :: kvs' => if String.eqb k k' then Some v else dict_get k kvs'
  end.

Inductive Exn : Type :=
| DoesNotExist (model : string)
| ValueError (msg : string)
| TypeError (msg : string)
| UnboundLocalError (var : string)
| DatabaseError (msg : string)
| OperationalError (msg : string)
| TransactionManagementError (msg : string)
| DataError (msg : string)
| OverflowError (msg : string)
| SoftTimeLimitExceeded.

(** [str(e)] *)
Definition exn_str (e : Exn) : string :=
  match e with
  | DoesNotExist model => model +:+ " matching query does not exist."
  | ValueError msg => msg
  | TypeError msg => msg
  | UnboundLocalError var =>
      "local variable '" +:+ var +:+ "' referenced before assignment"
  | DatabaseError msg => msg
  | OperationalError msg => msg
  | TransactionManagementError msg => msg
  | DataError msg => msg
  | OverflowError msg => msg
  | SoftTimeLimitExceeded => "SoftTimeLimitExceeded()"
  end.

Inductive Outcome (A : Type) : Type :=
| Return (a : A)
| Raise (e : Exn).
Arguments Return {A} a.
Arguments Raise {A} e.

Definition is_Return {A} (o : Outcome A) : bool :=
  match o with Return _ => true | Raise _ => false end.

(** ** The state-and-exception monad *)

Definition M (S A : Type) : Type := S -> Outcome A * S.

Definition ret {S A} (a : A) : M S A := fun s => (Return a, s).

Definition raise {S A} (e : Exn) : M S A := fun s => (Raise e, s).

Definition bind {S A B} (m : M S A) (k : A -> M S B) : M S B :=
  fun s =>
    match m s with
    | (Return a, s') => k a s'
    | (Raise e, s') => (Raise e, s')
    end.

(** [try: body except Exception as e: handler e] *)
Definition try_except {S A} (body : M S A) (handler : Exn -> M S A) : M S A :=
  fun s =>
    match body s with
    | (Return a, s') => (Return a, s')
    | (Raise e, s') => handler e s'
    end.

Definition get_state {S} : M S S := fun s => (Return s, s).

Definition modify {S} (f : S -> S) : M S unit := fun s => (Return tt, f s).

(** [with transaction.atomic(): body]: when [body] raises, the tables
    selected by [restore] are put back to their state on entry and the
    exception propagates. *)
Definition atomic {S A} (restore : S -> S -> S) (body : M S A) : M S A :=
  fun s =>
    match body s with
    | (Return a, s') => (Return a, s')
    | (Raise e, s') => (Raise e, restore s s')
    end.

Notation "'let!' x ':=' m 'in' k" := (bind m (fun x => k))
  (at level 10, x name, m at level 200, k at level 200, only parsing).
Notation "m '>>' k" := (bind m (fun _ => k))
  (at level 60, right associativity, only parsing).

(** [for x in xs: body x] *)
Fixpoint for_each {S A} (xs : list A) (body : A -> M S unit) : M S unit :=
  match xs with
  | [] => ret tt
  | x :: xs' => body x >> for_each xs' body
  end.

(** ** Data model *)

(** Celery task ids are opaque tokens; a blank [celery_task_id] column is
    [None]. *)
Definition TaskId : Type := N.

(** The rows written by [csv.writer.writerow], in order. *)
Definition CSV : Type := list (list Value).

(** [apps/products/models.py], the columns the jobs read and write. *)
Module Product.
Record t : Type := mk {
  name : string;
  sku : string;
  stock_quantity : Z;
  sales_count : Z
}.

Definition set_stock_quantity (v : Z) (x : t) : t :=
  {| name := name x; sku := sku x; stock_quantity := v;
     sales_count := sales_count x |}.

Definition set_sales_count (v : Z) (x : t) : t :=
  {| name := name x; sku := sku x; stock_quantity := stock_quantity x;
     sales_count := v |}.
End Product.

(** [apps/orders/models.py]. The user of an order is protected by its
    foreign key ([on_delete=PROTECT]) and is stored with the order. *)
Module Order.
Inductive Status : Type :=
| PENDING | PROCESSING | CONFIRMED | SHIPPED | DELIVERED | CANCELLED
| REFUNDED.

#[global] Instance Status_eq_dec : EqDecision Status.
Proof. solve_decision. Defined.

Definition status_str (s : Status) : string :=
  match s with
  | PENDING => "pending" | PROCESSING => "processing"
  | CONFIRMED => "confirmed" | SHIPPED => "shipped"
  | DELIVERED => "delivered" | CANCELLED => "cancelled"
  | REFUNDED => "refunded"
  end.

Record t : Type := mk {
  order_number : string;
  status : Status;
  total : Z;
  email : string;
  user_email : string;
  created_at : Z;
  is_deleted : bool
}.

Definition set_status (v : Status) (x : t) : t :=
  {| order_number := order_number x; status := v; total := total x;
     email := email x; user_email := user_email x;
     created_at := created_at x; is_deleted := is_deleted x |}.
End Order.

Module OrderItem.
Record t : Type := mk {
  order : Z;
  product : Z;
  quantity : Z
}.
End OrderItem.

Module OrderStatusHistory.
Record t : Type := mk {
  order : Z;
  status : Order.Status;
  notes : string
}.
End OrderStatusHistory.

(** [apps/reports/models.py]. [parameters] is the JSON object of the
    request with the keys the generators read; an absent key is [None],
    as with [parameters.get]. Dates are the instants their text denotes. *)
Module Report.
Inductive ReportType : Type :=
| SALES | INVENTORY | CUSTOMERS | ORDERS | ANALYTICS
| OTHER (s : string).

Inductive Status : Type :=
| PENDING | PROCESSING | COMPLETED | FAILED | CANCELLED.

#[global] Instance Status_eq_dec : EqDecision Status.
Proof. solve_decision. Defined.

Record Parameters : Type := mkParameters {
  start_date : option Z;
  end_date : option Z;
  status_filter : option string
}.

Inductive Field : Type :=
| F_status | F_celery_task_id | F_started_at | F_progress
| F_progress_message | F_result_file | F_result_data | F_error_message
| F_retry_count | F_completed_at | F_expires_at.

#[global] Instance Field_eq_dec : EqDecision Field.
Proof. solve_decision. Defined.

Record t : Type := mk {
  user_email : string;
  report_type : ReportType;
  parameters : Parameters;
  status : Status;
  celery_task_id : option TaskId;
  progress : Z;
  progress_message : string;
  result_file : option (string * CSV);
  result_data : Value;
  error_message : string;
  retry_count : Z;
  started_at : option Z;
  completed_at : option Z;
  expires_at : option Z
}.

Definition set_status (v : Status) (x : t) : t :=
  {| user_email := user_email x;
     report_type := report_type x;
     parameters := parameters x;
     status := v;
     celery_task_id := celery_task_id x;
     progress := progress x;
     progress_message := progress_message x;
     result_file := result_file x;
     result_data := result_data x;
     error_message := error_message x;
     retry_count := retry_count x;
     started_at := started_at x;
     completed_at := completed_at x;
     expires_at := expires_at x |}.

Definition set_celery_task_id (v : option TaskId) (x : t) : t :=
  {| user_email := user_email x;
     report_type := report_type x;
     parameters := parameters x;
     status := status x;
     celery_task_id := v;
     progress := progress x;
     progress_message := progress_message x;
     result_file := result_file x;
     result_data := result_data x;
     error_message := error_message x;
     retry_count := retry_count x;
     started_at := started_at x;
     completed_at := completed_at x;
     expires_at := expires_at x |}.

Definition set_progress (v : Z) (x : t) : t :=
  {| user_email := user_email x;
     report_type := report_type x;
     parameters := parameters x;
     status := status x;
     celery_task_id := celery_task_id x;
     progress := v;
     progress_message := progress_message x;
     result_file := result_file x;
     result_data := result_data x;
     error_message := error_message x;
     retry_count := retry_count x;
     started_at := started_at x;
     completed_at := completed_at x;
     expires_at := expires_at x |}.

Definition set_progress_message (v : string) (x : t) : t :=
  {| user_email := user_email x;
     report_type := report_type x;
     parameters := parameters x;
     status := status x;
     celery_task_id := celery_task_id x;
     progress := progress x;
     progress_message := v;
     result_file := result_file x;
     result_data := result_data x;
     error_message := error_message x;
     retry_count := retry_count x;
     started_at := started_at x;
     completed_at := completed_at x;
     expires_at := expires_at x |}.

Definition set_result_file (v : option (string * CSV)) (x : t) : t :=
  {| user_email := user_email x;
     report_type := report_type x;
     parameters := parameters x;
     status := status x;
     celery_task_id := celery_task_id x;
     progress := progress x;
     progress_message := progress_message x;
     result_file := v;
     result_data := result_data x;
     error_message := error_message x;
     retry_count := retry_count x;
     started_at := started_at x;
     completed_at := completed_at x;
     expires_at := expires_at x |}.

Definition set_result_data (v : Value) (x : t) : t :=
  {| user_email := user_email x;
     report_type := report_type x;
     parameters := parameters x;
     status := status x;
     celery_task_id := celery_task_id x;
     progress := progress x;
     progress_message := progress_message x;
     result_file := result_file x;
     result_data := v;
     error_message := error_message x;
     retry_count := retry_count x;
     started_at := started_at x;
     completed_at := completed_at x;
     expires_at := expires_at x |}.

Definition set_error_message (v : string) (x : t) : t :=
  {| user_email := user_email x;
     report_type := report_type x;
     parameters := parameters x;
     status := status x;
     celery_task_id := celery_task_id x;
     progress := progress x;
     progress_message := progress_message x;
     result_file := result_file x;
     result_data := result_data x;
     error_message := v;
     retry_count := retry_count x;
     started_at := started_at x;
     completed_at := completed_at x;
     expires_at := expires_at x |}.

Definition set_retry_count (v : Z) (x : t) : t :=
  {| user_email := user_email x;
     report_type := report_type x;
     parameters := parameters x;
     status := status x;
     celery_task_id := celery_task_id x;
     progress := progress x;
     progress_message := progress_message x;
     result_file := result_file x;
     result_data := result_data x;
     error_message := error_message x;
     retry_count := v;
     started_at := started_at x;
     completed_at := completed_at x;
     expires_at := expires_at x |}.

Definition set_started_at (v : option Z) (x : t) : t :=
  {| user_email := user_email x;
     report_type := report_type x;
     parameters := parameters x;
     status := status x;
     celery_task_id := celery_task_id x;
     progress := progress x;
     progress_message := progress_message x;
     result_file := result_file x;
     result_data := result_data x;
     error_message := error_message x;
     retry_count := retry_count x;
     started_at := v;
     completed_at := completed_at x;
     expires_at := expires_at x |}.

Definition set_completed_at (v : option Z) (x : t) : t :=
  {| user_email := user_email x;
     report_type := report_type x;
     parameters := parameters x;
     status := status x;
     celery_task_id := celery_task_id x;
     progress := progress x;
     progress_message := progress_message x;
     result_file := result_file x;
     result_data := result_data x;
     error_message := error_message x;
     retry_count := retry_count x;
     started_at := started_at x;
     completed_at := v;
     expires_at := expires_at x |}.

Definition set_expires_at (v : option Z) (x : t) : t :=
  {| user_email := user_email x;
     report_type := report_type x;
     parameters := parameters x;
     status := status x;
     celery_task_id := celery_task_id x;
     progress := progress x;
     progress_message := progress_message x;
     result_file := result_file x;
     result_data := result_data x;
     error_message := error_message x;
     retry_count := retry_count x;
     started_at := started_at x;
     completed_at := completed_at x;
     expires_at := v |}.

(** The value of column [f] of [src] written into [dst]. *)
Definition copy_field (f : Field) (src dst : t) : t :=
  match f with
  | F_status => set_status (status src) dst
  | F_celery_task_id => set_celery_task_id (celery_task_id src) dst
  | F_started_at => set_started_at (started_at src) dst
  | F_progress => set_progress (progress src) dst
  | F_progress_message => set_progress_message (progress_message src) dst
  | F_result_file => set_result_file (result_file src) dst
  | F_result_data => set_result_data (result_data src) dst
  | F_error_message => set_error_message (error_message src) dst
  | F_retry_count => set_retry_count (retry_count src) dst
  | F_completed_at => set_completed_at (completed_at src) dst
  | F_expires_at => set_expires_at (expires_at src) dst
  end.

(** [UPDATE reports SET fields = (values of src) WHERE id = ...] on the
    stored row [dst]. *)
Definition copy_fields (fields : list Field) (src dst : t) : t :=
  foldr (fun f => copy_field f src) dst fields.
End Report.

(** ** Celery messages *)

Inductive TaskName : Type :=
| T_process_order
| T_send_order_confirmation
| T_notify_warehouse
| T_generate_report
| T_post_process_report
| T_send_report_notification.

#[global] Instance TaskName_eq_dec : EqDecision TaskName.
Proof. solve_decision. Defined.

(** [task.s(args)] *)
Record Signature : Type := mkSignature {
  sig_task : TaskName;
  sig_args : list Value
}.

(** A task message on the broker: the task to call, the number of retries
    already made ([request.retries]), the delay asked for when it was
    published, and the rest of the chain it heads. *)
Record Message : Type := mkMessage {
  msg_id : TaskId;
  msg_sig : Signature;
  msg_retries : nat;
  msg_countdown : Z;
  msg_chain : list Signature
}.

(** [self.request] of a bound task. *)
Record Request : Type := mkRequest {
  req_id : TaskId;
  req_retries : nat
}.

(** What happened, in order: the writes to report rows, the task states
    published with [update_state], and the worker's handling of each
    message: received or revoked, then succeeded (the task returned and its
    result was kept), dispatched (the worker published the next link of the
    chain of task [task_id] under the id [next_id]), retried or failed. The
    log is a history variable: no modelled function reads it. *)
Inductive Event : Type :=
| Ev_update_state (task_id : TaskId) (state : string) (meta : Value)
| Ev_report_saved (report_id : string) (fields : list Report.Field)
    (row : Report.t)
| Ev_received (m : Message)
| Ev_revoked (task_id : TaskId)
| Ev_succeeded (task_id : TaskId) (result : Value)
| Ev_dispatched (task_id : TaskId) (next_id : TaskId)
| Ev_retry (task_id : TaskId) (e : Exn) (retries : nat) (countdown : Z)
| Ev_failed (task_id : TaskId) (e : Exn).

(** ** The world: database, cache, broker *)

(** The database backend. [sqlite] stands for the backends on which
    [select_for_update()] is a no-op. *)
Inductive Vendor : Type := postgresql | sqlite.

(** [connection.features.has_select_for_update] *)
Definition has_select_for_update (v : Vendor) : bool :=
  match v with postgresql => true | sqlite => false end.

(** [django.db.connection]: its backend and [connection.get_autocommit()],
    which is true outside every [transaction.atomic()] block. *)
Record Connection : Type := mkConnection {
  vendor : Vendor;
  autocommit : bool
}.

Record World : Type := mkWorld {
  connection : Connection;
  products : gmap Z Product.t;
  orders : gmap Z Order.t;
  order_items : list OrderItem.t;
  order_status_history : list OrderStatusHistory.t;
  reports : gmap string Report.t;
  cache : gmap string Value;
  broker : list Message;
  revoked : gset TaskId;
  next_task_id : TaskId;
  clock : nat;
  now : Z;
  trace : list Event
}.

Definition set_connection (v : Connection) (x : World) : World :=
  {| connection := v;
     products := products x;
     orders := orders x;
     order_items := order_items x;
     order_status_history := order_status_history x;
     reports := reports x;
     cache := cache x;
     broker := broker x;
     revoked := revoked x;
     next_task_id := next_task_id x;
     clock := clock x;
     now := now x;
     trace := trace x |}.

Definition set_products (v : gmap Z Product.t) (x : World) : World :=
  {| connection := connection x;
     products := v;
     orders := orders x;
     order_items := order_items x;
     order_status_history := order_status_history x;
     reports := reports x;
     cache := cache x;
     broker := broker x;
     revoked := revoked x;
     next_task_id := next_task_id x;
     clock := clock x;
     now := now x;
     trace := trace x |}.

Definition set_orders (v : gmap Z Order.t) (x : World) : World :=
  {| connection := connection x;
     products := products x;
     orders := v;
     order_items := order_items x;
     order_status_history := order_status_history x;
     reports := reports x;
     cache := cache x;
     broker := broker x;
     revoked := revoked x;
     next_task_id := next_task_id x;
     clock := clock x;
     now := now x;
     trace := trace x |}.

Definition set_order_status_history (v : list OrderStatusHistory.t) (x : World) : World :=
  {| connection := connection x;
     products := products x;
     orders := orders x;
     order_items := order_items x;
     order_status_history := v;
     reports := reports x;
     cache := cache x;
     broker := broker x;
     revoked := revoked x;
     next_task_id := next_task_id x;
     clock := clock x;
     now := now x;
     trace := trace x |}.

Definition set_reports (v : gmap string Report.t) (x : World) : World :=
  {| connection := connection x;
     products := products x;
     orders := orders x;
     order_items := order_items x;
     order_status_history := order_status_history x;
     reports := v;
     cache := cache x;
     broker := broker x;
     revoked := revoked x;
     next_task_id := next_task_id x;
     clock := clock x;
     now := now x;
     trace := trace x |}.

Definition set_cache (v : gmap string Value) (x : World) : World :=
  {| connection := connection x;
     products := products x;
     orders := orders x;
     order_items := order_items x;
     order_status_history := order_status_history x;
     reports := reports x;
     cache := v;
     broker := broker x;
     revoked := revoked x;
     next_task_id := next_task_id x;
     clock := clock x;
     now := now x;
     trace := trace x |}.

Definition set_broker (v : list Message) (x : World) : World :=
  {| connection := connection x;
     products := products x;
     orders := orders x;
     order_items := order_items x;
     order_status_history := order_status_history x;
     reports := reports x;
     cache := cache x;
     broker := v;
     revoked := revoked x;
     next_task_id := next_task_id x;
     clock := clock x;
     now := now x;
     trace := trace x |}.

Definition set_revoked (v : gset TaskId) (x : World) : World :=
  {| connection := connection x;
     products := products x;
     orders := orders x;
     order_items := order_items x;
     order_status_history := order_status_history x;
     reports := reports x;
     cache := cache x;
     broker := broker x;
     revoked := v;
     next_task_id := next_task_id x;
     clock := clock x;
     now := now x;
     trace := trace x |}.

Definition set_next_task_id (v : TaskId) (x : World) : World :=
  {| connection := connection x;
     products := products x;
     orders := orders x;
     order_items := order_items x;
     order_status_history := order_status_history x;
     reports := reports x;
     cache := cache x;
     broker := broker x;
     revoked := revoked x;
     next_task_id := v;
     clock := clock x;
     now := now x;
     trace := trace x |}.

Definition set_clock (v : nat) (x : World) : World :=
  {| connection := connection x;
     products := products x;
     orders := orders x;
     order_items := order_items x;
     order_status_history := order_status_history x;
     reports := reports x;
     cache := cache x;
     broker := broker x;
     revoked := revoked x;
     next_task_id := next_task_id x;
     clock := v;
     now := now x;
     trace := trace x |}.

Definition set_trace (v : list Event) (x : World) : World :=
  {| connection := connection x;
     products := products x;
     orders := orders x;
     order_items := order_items x;
     order_status_history := order_status_history x;
     reports := reports x;
     cache := cache x;
     broker := broker x;
     revoked := revoked x;
     next_task_id := next_task_id x;
     clock := clock x;
     now := now x;
     trace := v |}.

(** The business records: what the order handlers read and write. *)
Definition business (w : World)
  : gmap Z Product.t * gmap Z Order.t * list OrderItem.t
    * list OrderStatusHistory.t :=
  (products w, orders w, order_items w, order_status_history w).

(** The database tables, as put back by a rolled-back transaction. *)
Definition rollback (s s' : World) : World :=
  set_products (products s)
    (set_orders (orders s)
       (set_order_status_history (order_status_history s)
          (set_reports (reports s) s'))).

(** [with transaction.atomic(): body]: the connection leaves autocommit
    mode for the time of the block; when [body] raises, the tables are
    rolled back. *)
Definition transaction_atomic {A} (body : M World A) : M World A :=
  fun w =>
    match atomic rollback body
            (set_connection (mkConnection (vendor (connection w)) false) w) with
    | (o, w') => (o, set_connection (connection w) w')
    end.

Definition log (ev : Event) : M World unit :=
  modify (fun w => set_trace (trace w ++ [ev]) w).

(** The error, if any, with which the backend refuses the value [z] for
    an [IntegerField] column: a 32-bit [integer] on PostgreSQL, a 64-bit
    [INTEGER] on SQLite. Django does not validate the value when a model
    instance is saved. *)
Definition integer_error (v : Vendor) (z : Z) : option Exn :=
  match v with
  | postgresql =>
      if (-2147483648 <=? z) && (z <=? 2147483647) then None
      else Some (DataError "integer out of range")
  | sqlite =>
      if (-9223372036854775808 <=? z) && (z <=? 9223372036854775807) then None
      else Some (OverflowError "Python int too large to convert to SQLite INTEGER")
  end.

(** The first such error among the values written by one statement. *)
Fixpoint integers_error (v : Vendor) (zs : list Z) : option Exn :=
  match zs with
  | [] => None
  | z :: zs' =>
      match integer_error v z with
      | Some e => Some e
      | None => integers_error v zs'
      end
  end.

(** [json.dumps(value)] with the default encoder, as a [JSONField] without
    [encoder] calls it: a [Decimal] is refused. *)
Fixpoint json_serializable (v : Value) : bool :=
  match v with
  | VNone | VBool _ | VInt _ | VStr _ | VFloat _ _ | VDate _ => true
  | VDecimal _ => false
  | VList vs => forallb json_serializable vs
  | VDict kvs => forallb (fun kv => json_serializable kv.2) kvs
  end.

(** ** Celery and ORM primitives *)

(** [self.update_state(state=..., meta=...)] *)
Definition update_state (self : Request) (state : string) (meta : Value)
  : M World unit :=
  log (Ev_update_state (req_id self) state meta).

(** Publishing a message: Celery gives it a fresh id and appends it to the
    queue. *)
Definition publish (s : Signature) (chain : list Signature) : M World TaskId :=
  fun w =>
    let tid := next_task_id w in
    (Return tid,
     set_broker (broker w ++ [mkMessage tid s 0 0 chain])
       (set_next_task_id (N.succ tid) w)).

(** [task.delay(args)] *)
Definition delay (t : TaskName) (args : list Value) : M World TaskId :=
  publish (mkSignature t args) [].

(** [chain(s1, s2, ...).apply_async()]: the first link is published and
    carries the remaining links. *)
Definition chain_apply_async (links : list Signature) : M World unit :=
  match links with
  | [] => ret tt
  | s :: rest => publish s rest >> ret tt
  end.

(** [Order.objects.get(id=order_id)], also with [prefetch_related]. *)
Definition Order_get (order_id : Z) : M World Order.t :=
  fun w =>
    match orders w !! order_id with
    | Some o => (Return o, w)
    | None => (Raise (DoesNotExist "Order"), w)
    end.

(** Evaluating a queryset built with [select_for_update()]: on a backend
    that has [SELECT ... FOR UPDATE], Django refuses the query while the
    connection is in autocommit mode; elsewhere the call changes nothing.
    The row locks themselves are not modelled, the worker below runs one
    task at a time. *)
Definition refuses_select_for_update (w : World) : bool :=
  has_select_for_update (vendor (connection w)) && autocommit (connection w).

Definition not_in_transaction : Exn :=
  TransactionManagementError
    "select_for_update cannot be used outside of a transaction.".

Definition select_for_update : M World unit :=
  fun w =>
    if refuses_select_for_update w
    then (Raise not_in_transaction, w)
    else (Return tt, w).

(** [Order.objects.select_for_update().get(id=order_id)] *)
Definition Order_select_for_update_get (order_id : Z) : M World Order.t :=
  select_for_update >> Order_get order_id.

(** [order.items.select_related('product')], evaluated: the line items of
    the order joined with their products. The rows are fetched when the
    loop over the queryset starts, and every row carries its own [Product]
    instance holding the column values read at that moment. *)
Definition order_lines (order_id : Z) (w : World)
  : list (OrderItem.t * Product.t) :=
  omap (fun item : OrderItem.t =>
          if decide (OrderItem.order item = order_id)
          then (fun p => (item, p)) <$> products w !! OrderItem.product item
          else None)
       (order_items w).

Definition order_items_select_related_product (order_id : Z)
  : M World (list (OrderItem.t * Product.t)) :=
  fun w => (Return (order_lines order_id w), w).

(** [product.save(update_fields=['stock_quantity', 'sales_count'])] for the
    instance [product] with primary key [pk]. *)
Definition Product_save_stock (pk : Z) (product : Product.t) : M World unit :=
  fun w =>
    match integers_error (vendor (connection w))
            [Product.stock_quantity product; Product.sales_count product] with
    | Some e => (Raise e, w)
    | None =>
        match products w !! pk with
        | Some row =>
            (Return tt,
             set_products
               (<[pk := Product.set_stock_quantity (Product.stock_quantity product)
                          (Product.set_sales_count (Product.sales_count product)
                             row)]>
                  (products w)) w)
        | None =>
            (Raise (DatabaseError
                      "Save with update_fields did not affect any rows."),
             w)
        end
    end.

(** [order.save(update_fields=['status'])] *)
Definition Order_save_status (pk : Z) (order : Order.t) : M World unit :=
  fun w =>
    match orders w !! pk with
    | Some row =>
        (Return tt,
         set_orders (<[pk := Order.set_status (Order.status order) row]> (orders w)) w)
    | None =>
        (Raise (DatabaseError "Save with update_fields did not affect any rows."),
         w)
    end.

(** [OrderStatusHistory.objects.create(...)] *)
Definition OrderStatusHistory_create (row : OrderStatusHistory.t) : M World unit :=
  modify (fun w => set_order_status_history (order_status_history w ++ [row]) w).

Definition cache_delete (key : string) : M World unit :=
  modify (fun w => set_cache (delete key (cache w)) w).

Definition cache_set (key : string) (v : Value) : M World unit :=
  modify (fun w => set_cache (<[key := v]> (cache w)) w).

(** ** [apps/orders/tasks.py] *)

(** [x in [PROCESSING, SHIPPED, DELIVERED]] *)
Definition already_processed (s : Order.Status) : bool :=
  match s with
  | Order.PROCESSING | Order.SHIPPED | Order.DELIVERED => true
  | _ => false
  end.

Definition order_not_found : Value :=
  VDict [("status", VStr "error"); ("message", VStr "Order not found")].

Definition order_skipped : Value :=
  VDict [("status", VStr "skipped"); ("message", VStr "Order already processed")].

Definition process_order (self : Request) (order_id : Z) : M World Value :=
  try_except
    (let! found :=
       try_except
         (let! order := Order_select_for_update_get order_id in ret (Some order))
         (fun e => match e with
                   | DoesNotExist _ => ret None
                   | _ => raise e
                   end) in
     match found with
     | None => ret order_not_found
     | Some order =>
         if already_processed (Order.status order) then ret order_skipped
         else
           update_state self "PROCESSING" (VDict [("step", VStr "validating")]) >>
           transaction_atomic
             (let! rows := order_items_select_related_product order_id in
              for_each rows
                (fun '(item, product) =>
                   if Product.stock_quantity product <? OrderItem.quantity item
                   then raise (ValueError
                                 ("Insufficient stock for " +:+ Product.name product))
                   else ret tt) >>
              update_state self "PROCESSING"
                (VDict [("step", VStr "updating_inventory")]) >>
              let! rows := order_items_select_related_product order_id in
              for_each rows
                (fun '(item, product) =>
                   let product :=
                     Product.set_stock_quantity
                       (Product.stock_quantity product - OrderItem.quantity item)
                       product in
                   let product :=
                     Product.set_sales_count
                       (Product.sales_count product + OrderItem.quantity item)
                       product in
                   Product_save_stock (OrderItem.product item) product) >>
              update_state self "PROCESSING"
                (VDict [("step", VStr "updating_order")]) >>
              let order := Order.set_status Order.PROCESSING order in
              Order_save_status order_id order >>
              OrderStatusHistory_create
                (OrderStatusHistory.mk order_id Order.PROCESSING
                   "Order processing started")) >>
           cache_delete "featured_products" >>
           chain_apply_async
             [mkSignature T_send_order_confirmation [VInt order_id];
              mkSignature T_notify_warehouse [VInt order_id]] >>
           ret (VDict [("status", VStr "success");
                       ("order_id", VInt order_id);
                       ("order_number", VStr (Order.order_number order))])
     end)
    (fun e => raise e).

Definition send_order_confirmation (self : Request) (order_id : Z)
  : M World Value :=
  try_except
    (let! order := Order_get order_id in
     cache_set ("order_email_sent_" +:+ pretty order_id) (VBool true) >>
     ret (VDict [("status", VStr "success");
                 ("email", VStr (Order.email order))]))
    (fun e => match e with
              | DoesNotExist _ => ret order_not_found
              | _ => raise e
              end).

Definition notify_warehouse (order_id : Z) : M World Value :=
  try_except
    (let! order := Order_get order_id in
     ret (VDict [("status", VStr "success");
                 ("order_number", VStr (Order.order_number order))]))
    (fun e => ret (VDict [("status", VStr "error");
                          ("message", VStr (exn_str e))])).

(** ** [apps/reports/tasks.py] *)

(** What a report generator returns: [{'summary': ..., 'csv_content': ...}]. *)
Record HandlerResult : Type := mkHandlerResult {
  summary : Value;
  csv_content : option CSV
}.

(** The surroundings of the report generators.
    - [faults n] is the exception, if any, with which the [n]-th query of
      business data made by a report generator fails (a lost connection,
      or the soft time limit hitting while the query runs). Such a failure
      is the failure of that query alone: the statements that follow are
      run. Reads and writes of the report row fail only as the model of
      the ORM says: a refused [select_for_update()], a missing row, a
      value the column does not take.
    - The tables and summaries of the inventory, customer, order and
      analytics reports are computed from the database by the four
      functions below; the properties in this file hold whatever they
      return, so they are kept abstract. The sales report is modelled in
      full. *)
Record Environment : Type := mkEnvironment {
  faults : nat -> option Exn;
  inventory_result : World -> HandlerResult;
  customers_result : World -> HandlerResult;
  orders_result : Report.Parameters -> World -> HandlerResult;
  analytics_result : Report.Parameters -> World -> HandlerResult
}.

(** The local state of one run of [generate_report]: the world and the
    variable [report], unbound until the row has been fetched. The
    generators receive this same object as their [report] argument. *)
Record Frame : Type := mkFrame {
  world : World;
  report : option (string * Report.t)
}.

Definition lift {A} (m : M World A) : M Frame A :=
  fun f =>
    match m (world f) with
    | (o, w') => (o, mkFrame w' (report f))
    end.

(** Running a task body that has local state. *)
Definition run_frame {A} (m : M Frame A) : M World A :=
  fun w =>
    match m (mkFrame w None) with
    | (o, f) => (o, world f)
    end.

(** [report = ...] *)
Definition bind_report (pk : string) (r : Report.t) : M Frame unit :=
  fun f => (Return tt, mkFrame (world f) (Some (pk, r))).

(** Reading the variable [report]. *)
Definition the_report : M Frame (string * Report.t) :=
  fun f =>
    match report f with
    | Some x => (Return x, f)
    | None => (Raise (UnboundLocalError "report"), f)
    end.

(** [report.attr = v] *)
Definition set_attr (upd : Report.t -> Report.t) : M Frame unit :=
  fun f =>
    match report f with
    | Some (pk, r) => (Return tt, mkFrame (world f) (Some (pk, upd r)))
    | None => (Raise (UnboundLocalError "report"), f)
    end.

(** [Report.objects.get(id=report_id)], also with [select_related('user')]. *)
Definition Report_get (report_id : string) : M World Report.t :=
  fun w =>
    match reports w !! report_id with
    | Some r => (Return r, w)
    | None => (Raise (DoesNotExist "Report"), w)
    end.

(** [Report.objects.select_for_update().get(id=report_id)] *)
Definition Report_select_for_update_get (report_id : string)
  : M World Report.t :=
  select_for_update >> Report_get report_id.

(** The integer columns among [fields], with the values [obj] holds for
    them. *)
Definition integer_columns (fields : list Report.Field) (obj : Report.t)
  : list Z :=
  omap (fun f => match f with
                 | Report.F_progress => Some (Report.progress obj)
                 | Report.F_retry_count => Some (Report.retry_count obj)
                 | _ => None
                 end) fields.

(** The error, if any, with which writing the columns [fields] of [obj]
    fails: [result_data] has to be serialised to JSON when the statement
    is prepared; the integer columns have to fit when it is executed. *)
Definition write_error (v : Vendor) (fields : list Report.Field)
    (obj : Report.t) : option Exn :=
  if existsb (fun f => match f with Report.F_result_data => true | _ => false end)
       fields
     && negb (json_serializable (Report.result_data obj))
  then Some (TypeError "Object of type Decimal is not JSON serializable")
  else integers_error v (integer_columns fields obj).

(** [obj.save(update_fields=fields)] for the instance [obj] with primary
    key [pk]: an [UPDATE] of these columns, which fails when it matches no
    row. *)
Definition Report_save_update_fields (pk : string) (obj : Report.t)
    (fields : list Report.Field) : M World unit :=
  fun w =>
    match write_error (vendor (connection w)) fields obj with
    | Some e => (Raise e, w)
    | None =>
        match reports w !! pk with
        | Some row =>
            let row' := Report.copy_fields fields obj row in
            (Return tt,
             set_trace (trace w ++ [Ev_report_saved pk fields row'])
               (set_reports (<[pk := row']> (reports w)) w))
        | None =>
            (Raise (DatabaseError
                      "Save with update_fields did not affect any rows."),
             w)
        end
    end.

Definition all_fields : list Report.Field :=
  [Report.F_status; Report.F_celery_task_id; Report.F_started_at;
   Report.F_progress; Report.F_progress_message; Report.F_result_file;
   Report.F_result_data; Report.F_error_message; Report.F_retry_count;
   Report.F_completed_at; Report.F_expires_at].

(** [obj.save()]: every column is written from the instance. *)
Definition Report_save (pk : string) (obj : Report.t) : M World unit :=
  fun w =>
    match write_error (vendor (connection w)) all_fields obj with
    | Some e => (Raise e, w)
    | None =>
        (Return tt,
         set_trace (trace w ++ [Ev_report_saved pk all_fields obj])
           (set_reports (<[pk := obj]> (reports w)) w))
    end.

(** [report.save(update_fields=fields)] *)
Definition save_update_fields (fields : list Report.Field) : M Frame unit :=
  let! x := the_report in
  lift (Report_save_update_fields x.1 x.2 fields).

(** [report.save()] *)
Definition save : M Frame unit :=
  let! x := the_report in
  lift (Report_save x.1 x.2).

Definition progress_meta (percent : Z) (message : string) : Value :=
  VDict [("progress", VInt percent); ("message", VStr message)].

(** [timezone.now()] *)
Definition timezone_now : M World Z := fun w => (Return (now w), w).

Definition days (n : Z) : Z := n * 86400.

(** The rows of
    [Order.objects.filter(created_at__gte=s, created_at__lte=e, is_deleted=False)]
    in the default ordering of [Order], latest first. *)
Definition in_range (s e : Z) (o : Order.t) : bool :=
  (s <=? Order.created_at o) && (Order.created_at o <=? e)
  && negb (Order.is_deleted o).

Definition latest_first (a b : Z * Order.t) : Prop :=
  Order.created_at b.2 <= Order.created_at a.2.

#[global] Instance latest_first_dec (a b : Z * Order.t)
  : Decision (latest_first a b).
Proof. unfold latest_first. apply _. Defined.

Definition orders_in_range (s e : Z) (w : World) : list (Z * Order.t) :=
  merge_sort latest_first
    (filter (fun kv : Z * Order.t => in_range s e kv.2 = true)
            (map_to_list (orders w))).

(** Building the filter: a [None] bound is refused. *)
Definition Order_filter (start_date end_date : option Z) : M World (Z * Z) :=
  match start_date, end_date with
  | Some s, Some e => ret (s, e)
  | _, _ => raise (ValueError "Cannot use None as a query value")
  end.

(** [Sum('total')] over the rows. *)
Definition sum_total (rows : list (Z * Order.t)) : Z :=
  foldr (fun kv acc => Order.total kv.2 + acc) 0 rows.

Definition sales_header : list Value :=
  [VStr "Order Number"; VStr "Date"; VStr "Customer"; VStr "Total";
   VStr "Status"].

Definition sales_row (order : Order.t) : list Value :=
  [VStr (Order.order_number order);
   VDate (Order.created_at order);
   VStr (Order.user_email order);
   VDecimal (Order.total order);
   VStr (Order.status_str (Order.status order))].

Definition type_str (t : Report.ReportType) : string :=
  match t with
  | Report.SALES => "sales"
  | Report.INVENTORY => "inventory"
  | Report.CUSTOMERS => "customers"
  | Report.ORDERS => "orders"
  | Report.ANALYTICS => "analytics"
  | Report.OTHER s => s
  end.

Section Jobs.

Variable env : Environment.

(** A query of business data by a report generator. *)
Definition db_query : M World unit :=
  fun w =>
    match faults env (clock w) with
    | Some e => (Raise e, set_clock (S (clock w)) w)
    | None => (Return tt, set_clock (S (clock w)) w)
    end.

(** The progress milestone of the generators that also store it in the
    row: [task.update_state(...)], [report.progress = percent],
    [report.progress_message = message], [report.save(update_fields=...)]. *)
Definition report_progress (task : Request) (percent : Z) (message : string)
  : M Frame unit :=
  lift (update_state task "PROGRESS" (progress_meta percent message)) >>
  set_attr (Report.set_progress percent) >>
  set_attr (Report.set_progress_message message) >>
  save_update_fields [Report.F_progress; Report.F_progress_message].

Definition _generate_sales_report (task : Request)
    (parameters : Report.Parameters) : M Frame HandlerResult :=
  report_progress task 30 "Fetching sales data" >>
  let start_date := Report.start_date parameters in
  let end_date := Report.end_date parameters in
  let! range := lift (Order_filter start_date end_date) in
  report_progress task 50 "Calculating metrics" >>
  (* orders.aggregate(Count('id'), Sum('total'), Avg('total')) *)
  lift db_query >>
  let! w := lift get_state in
  let matched := orders_in_range range.1 range.2 w in
  let total_orders := Z.of_nat (length matched) in
  let total_revenue := sum_total matched in
  report_progress task 70 "Generating CSV" >>
  (* for order in orders.select_related('user')[:1000] *)
  lift db_query >>
  let! w := lift get_state in
  let rows :=
    (fun kv : Z * Order.t => sales_row kv.2)
      <$> take 1000 (orders_in_range range.1 range.2 w) in
  report_progress task 90 "Finalizing report" >>
  ret {| summary :=
           VDict [("total_orders", VInt total_orders);
                  ("total_revenue", VFloat total_revenue 100);
                  ("average_order_value",
                   if total_orders =? 0 then VFloat 0 1
                   else VFloat total_revenue (100 * total_orders));
                  ("period",
                   VStr (pretty range.1 +:+ " to " +:+ pretty range.2))];
         csv_content := Some (sales_header :: rows) |}.

Definition _generate_inventory_report (task : Request)
    (parameters : Report.Parameters) : M Frame HandlerResult :=
  lift (update_state task "PROGRESS" (progress_meta 30 "Fetching inventory data")) >>
  set_attr (Report.set_progress 30) >>
  save_update_fields [Report.F_progress] >>
  lift (update_state task "PROGRESS" (progress_meta 70 "Generating CSV")) >>
  set_attr (Report.set_progress 70) >>
  save_update_fields [Report.F_progress] >>
  (* for product in products.select_related('category') *)
  lift db_query >>
  let! w := lift get_state in
  (* products.count() *)
  lift db_query >>
  ret (inventory_result env w).

Definition _generate_customers_report (task : Request)
    (parameters : Report.Parameters) : M Frame HandlerResult :=
  lift (update_state task "PROGRESS" (progress_meta 30 "Fetching customer data")) >>
  lift (update_state task "PROGRESS" (progress_meta 70 "Generating CSV")) >>
  (* for customer in customers *)
  lift db_query >>
  let! w := lift get_state in
  (* customers.count(), customers.filter(order_count__gt=0).count() *)
  lift db_query >>
  lift db_query >>
  ret (customers_result env w).

Definition _generate_orders_report (task : Request)
    (parameters : Report.Parameters) : M Frame HandlerResult :=
  lift (update_state task "PROGRESS" (progress_meta 30 "Fetching order data")) >>
  let start_date := Report.start_date parameters in
  let end_date := Report.end_date parameters in
  let! range := lift (Order_filter start_date end_date) in
  lift (update_state task "PROGRESS" (progress_meta 70 "Generating CSV")) >>
  (* for order in orders.select_related('user').prefetch_related('items') *)
  lift db_query >>
  let! w := lift get_state in
  (* orders.count(), then the status breakdown *)
  lift db_query >>
  lift db_query >>
  ret (orders_result env parameters w).

Definition _generate_analytics_report (task : Request)
    (parameters : Report.Parameters) : M Frame HandlerResult :=
  lift (update_state task "PROGRESS" (progress_meta 20 "Collecting analytics")) >>
  let start_date := Report.start_date parameters in
  let end_date := Report.end_date parameters in
  let! range := lift (Order_filter start_date end_date) in
  lift (update_state task "PROGRESS" (progress_meta 50 "Analyzing products")) >>
  lift (update_state task "PROGRESS" (progress_meta 80 "Generating report")) >>
  (* for day in daily_sales *)
  lift db_query >>
  let! w := lift get_state in
  (* list(top_products) *)
  lift db_query >>
  ret (analytics_result env parameters w).

(** The [if report_type == ...: result = ...] ladder of [generate_report]. *)
Definition generate_by_type (self : Request) (report_type : Report.ReportType)
    (parameters : Report.Parameters) : M Frame HandlerResult :=
  match report_type with
  | Report.SALES => _generate_sales_report self parameters
  | Report.INVENTORY => _generate_inventory_report self parameters
  | Report.CUSTOMERS => _generate_customers_report self parameters
  | Report.ORDERS => _generate_orders_report self parameters
  | Report.ANALYTICS => _generate_analytics_report self parameters
  | Report.OTHER s => raise (ValueError ("Unknown report type: " +:+ s))
  end.

Definition generate_report (self : Request) (report_id : string)
  : M Frame Value :=
  try_except
    (let! r := lift (Report_select_for_update_get report_id) in
     bind_report report_id r >>
     set_attr (Report.set_status Report.PROCESSING) >>
     set_attr (Report.set_celery_task_id (Some (req_id self))) >>
     let! t := lift timezone_now in
     set_attr (Report.set_started_at (Some t)) >>
     save_update_fields
       [Report.F_status; Report.F_celery_task_id; Report.F_started_at] >>
     report_progress self 10 "Initializing report generation" >>
     let! x := the_report in
     let report_type := Report.report_type x.2 in
     let parameters := Report.parameters x.2 in
     let! result := generate_by_type self report_type parameters in
     set_attr (Report.set_result_data (summary result)) >>
     set_attr (Report.set_progress 100) >>
     set_attr (Report.set_progress_message "Report completed") >>
     set_attr (Report.set_status Report.COMPLETED) >>
     let! t := lift timezone_now in
     set_attr (Report.set_completed_at (Some t)) >>
     let! t := lift timezone_now in
     set_attr (Report.set_expires_at (Some (t + days 30))) >>
     match csv_content result with
     | Some csv =>
         let filename := type_str report_type +:+ "_" +:+ report_id +:+ ".csv" in
         set_attr (Report.set_result_file (Some (filename, csv)))
     | None => ret tt
     end >>
     save >>
     lift (chain_apply_async
             [mkSignature T_post_process_report [VStr report_id];
              mkSignature T_send_report_notification [VStr report_id]]) >>
     ret (VDict [("status", VStr "success");
                 ("report_id", VStr report_id);
                 ("summary", summary result)]))
    (fun e =>
       match e with
       | SoftTimeLimitExceeded =>
           set_attr (Report.set_status Report.FAILED) >>
           set_attr (Report.set_error_message "Report generation timed out") >>
           save_update_fields [Report.F_status; Report.F_error_message] >>
           raise e
       | _ =>
           set_attr (Report.set_status Report.FAILED) >>
           set_attr (Report.set_error_message (exn_str e)) >>
           set_attr (fun r => Report.set_retry_count (Report.retry_count r + 1) r) >>
           save_update_fields
             [Report.F_status; Report.F_error_message; Report.F_retry_count] >>
           raise e
       end).

Definition post_process_report (self : Request) (report_id : string)
  : M World Value :=
  try_except
    (let! r := Report_get report_id in
     ret (VDict [("status", VStr "success"); ("report_id", VStr report_id)]))
    (fun e => raise e).

Definition send_report_notification (report_id : string) : M World Value :=
  try_except
    (let! r := Report_get report_id in
     ret (VDict [("status", VStr "success");
                 ("sent_to", VStr (Report.user_email r))]))
    (fun e => raise e).

End Jobs.

(** ** [apps/reports/views.py], [admin.py] and [serializers.py] *)

(** [current_app.control.revoke(task_id, terminate=True)]: workers discard
    the message with this id when they receive it. *)
Definition revoke (task_id : TaskId) : M World unit :=
  modify (fun w => set_revoked ({[task_id]} ∪ revoked w) w).

Inductive Response : Type :=
| HTTP_200_OK (body : Value)
| HTTP_400_BAD_REQUEST (body : Value).

(** [x in [PENDING, PROCESSING]] *)
Definition cancellable (s : Report.Status) : bool :=
  match s with
  | Report.PENDING | Report.PROCESSING => true
  | _ => false
  end.

Definition report_status_str (s : Report.Status) : string :=
  match s with
  | Report.PENDING => "pending"
  | Report.PROCESSING => "processing"
  | Report.COMPLETED => "completed"
  | Report.FAILED => "failed"
  | Report.CANCELLED => "cancelled"
  end.

Module ReportViewSet.

(** [self.get_object()]: a missing report is a 404, raised. *)
Definition get_object (pk : string) : M World Report.t := Report_get pk.

Definition cancel (pk : string) : M World Response :=
  let! report := get_object pk in
  if negb (cancellable (Report.status report))
  then ret (HTTP_400_BAD_REQUEST
              (VDict [("error",
                       VStr ("Cannot cancel report with status: "
                             +:+ report_status_str (Report.status report)))]))
  else
    match Report.celery_task_id report with
    | Some task_id => revoke task_id
    | None => ret tt
    end >>
    let report := Report.set_status Report.CANCELLED report in
    Report_save_update_fields pk report [Report.F_status] >>
    ret (HTTP_200_OK
           (VDict [("message", VStr "Report generation cancelled");
                   ("status", VStr (report_status_str (Report.status report)))])).

End ReportViewSet.

Module ReportAdmin.

(** The rows of [queryset.filter(...)], fetched when the loop starts;
    [queryset] is the selection made in the admin list. *)
Definition selected (queryset : list string) (keep : Report.t -> bool)
  : M World (list (string * Report.t)) :=
  fun w =>
    (Return
       (omap (fun pk =>
                match reports w !! pk with
                | Some r => if keep r then Some (pk, r) else None
                | None => None
                end)
             queryset),
     w).

Definition cancel_reports (queryset : list string) : M World Z :=
  let! rows := selected queryset (fun r => cancellable (Report.status r)) in
  for_each rows
    (fun '(pk, report) =>
       match Report.celery_task_id report with
       | Some task_id => revoke task_id
       | None => ret tt
       end >>
       let report := Report.set_status Report.CANCELLED report in
       Report_save_update_fields pk report [Report.F_status]) >>
  ret (Z.of_nat (length rows)).

Definition retry_failed_reports (queryset : list string) : M World Z :=
  let! rows :=
    selected queryset
      (fun r => bool_decide (Report.status r = Report.FAILED)) in
  for_each rows
    (fun '(pk, report) =>
       let report := Report.set_status Report.PENDING report in
       let report := Report.set_error_message "" report in
       Report_save_update_fields pk report
         [Report.F_status; Report.F_error_message] >>
       delay T_generate_report [VStr pk] >>
       ret tt) >>
  ret (Z.of_nat (length rows)).

End ReportAdmin.

Module ReportCreateSerializer.

(** A new row with the defaults of the model. *)
Definition new_report (user_email : string) (report_type : Report.ReportType)
    (parameters : Report.Parameters) : Report.t :=
  {| Report.user_email := user_email;
     Report.report_type := report_type;
     Report.parameters := parameters;
     Report.status := Report.PENDING;
     Report.celery_task_id := None;
     Report.progress := 0;
     Report.progress_message := "";
     Report.result_file := None;
     Report.result_data := VDict [];
     Report.error_message := "";
     Report.retry_count := 0;
     Report.started_at := None;
     Report.completed_at := None;
     Report.expires_at := None |}.

(** [create]: [pk] is the UUID drawn for the row. Urgent reports go to
    another queue; queues are not told apart here. *)
Definition create (pk : string) (user_email : string)
    (report_type : Report.ReportType) (parameters : Report.Parameters)
  : M World Report.t :=
  let report := new_report user_email report_type parameters in
  modify (fun w => set_reports (<[pk := report]> (reports w)) w) >>
  delay T_generate_report [VStr pk] >>
  ret report.

End ReportCreateSerializer.

(** The Python name of a task function and of its parameter. *)
Definition task_function (t : TaskName) : string :=
  match t with
  | T_process_order => "process_order"
  | T_send_order_confirmation => "send_order_confirmation"
  | T_notify_warehouse => "notify_warehouse"
  | T_generate_report => "generate_report"
  | T_post_process_report => "post_process_report"
  | T_send_report_notification => "send_report_notification"
  end.

Definition task_parameter (t : TaskName) : string :=
  match t with
  | T_process_order | T_send_order_confirmation | T_notify_warehouse =>
      "order_id"
  | T_generate_report | T_post_process_report | T_send_report_notification =>
      "report_id"
  end.

(** ** The worker *)

(** The retry options of a task decorator: [autoretry_for=(Exception,)]
    with [retry_kwargs={'max_retries': ..., 'countdown': ...}];
    [retry_backoff] is Celery's option for exponential delays, which no
    decorator in these modules sets. *)
Record RetryPolicy : Type := mkRetryPolicy {
  max_retries : nat;
  countdown : Z;
  retry_backoff : bool
}.

Definition retry_backoff_max : Z := 600.

Definition autoretry (t : TaskName) : option RetryPolicy :=
  match t with
  | T_process_order => Some (mkRetryPolicy 3 5 false)
  | T_send_order_confirmation => Some (mkRetryPolicy 5 10 false)
  | T_notify_warehouse => None
  | T_generate_report => Some (mkRetryPolicy 3 60 false)
  | T_post_process_report => None
  | T_send_report_notification => Some (mkRetryPolicy 5 30 false)
  end.

(** The delay Celery asks for when it retries a task that has already been
    retried [retries] times (jitter left out). *)
Definition retry_countdown (p : RetryPolicy) (retries : nat) : Z :=
  if retry_backoff p
  then Z.min (2 ^ Z.of_nat retries) retry_backoff_max
  else countdown p.

Section Worker.

Variable env : Environment.

(** [task.apply_async] checks the positional arguments against the
    signature of the task before it publishes a message ([Task.typing]),
    as the call of the task itself does. Each task of the two modules
    takes exactly one argument besides [self]. *)
Definition accepts (t : TaskName) (args : list Value) : bool :=
  (length args =? 1)%nat.

(** The [TypeError] of a call that [accepts] refuses. *)
Definition arguments_error (t : TaskName) (args : list Value) : Exn :=
  match args with
  | [] =>
      TypeError (task_function t
                 +:+ "() missing 1 required positional argument: '"
                 +:+ task_parameter t +:+ "'")
  | _ =>
      TypeError (task_function t +:+ "() takes 1 positional argument but "
                 +:+ pretty (length args) +:+ " were given")
  end.

(** Calling the task of a message with its positional arguments. The
    messages of the two modules carry the key of the row to look up; a
    call with a value of another kind, which no code of the modules
    sends, is modelled as raising [TypeError]. *)
Definition run_task (m : Message) : M World Value :=
  let self := mkRequest (msg_id m) (msg_retries m) in
  match sig_task (msg_sig m), sig_args (msg_sig m) with
  | T_process_order, [VInt order_id] => process_order self order_id
  | T_send_order_confirmation, [VInt order_id] =>
      send_order_confirmation self order_id
  | T_notify_warehouse, [VInt order_id] => notify_warehouse order_id
  | T_generate_report, [VStr report_id] =>
      run_frame (generate_report env self report_id)
  | T_post_process_report, [VStr report_id] =>
      post_process_report self report_id
  | T_send_report_notification, [VStr report_id] =>
      send_report_notification report_id
  | t, args =>
      if accepts t args
      then raise (TypeError "unexpected argument")
      else raise (arguments_error t args)
  end.

(** What the worker does with the outcome of a task:
    - on return, the result is kept and the next link of the chain, if
      any, is sent with the result put in front of its arguments, both in
      this one step (the log lists the success first); when the task of
      the link does not accept these arguments, sending it raises
      [TypeError] in the worker: no message is published, the result is
      dropped and the task that returned is recorded as failed;
    - on an exception of a task with [autoretry_for], the message is
      published again while [request.retries < max_retries];
    - otherwise the task has failed and its chain is dropped. *)
Definition settle (m : Message) (o : Outcome Value) : M World unit :=
  match o with
  | Return v =>
      match msg_chain m with
      | [] => log (Ev_succeeded (msg_id m) v)
      | next :: rest =>
          let args := v :: sig_args next in
          if accepts (sig_task next) args
          then
            log (Ev_succeeded (msg_id m) v) >>
            let! tid := publish (mkSignature (sig_task next) args) rest in
            log (Ev_dispatched (msg_id m) tid)
          else
            log (Ev_failed (msg_id m) (arguments_error (sig_task next) args))
      end
  | Raise e =>
      match autoretry (sig_task (msg_sig m)) with
      | Some p =>
          if (msg_retries m <? max_retries p)%nat
          then
            let delay := retry_countdown p (msg_retries m) in
            log (Ev_retry (msg_id m) e (S (msg_retries m)) delay) >>
            modify (fun w =>
                      set_broker
                        (broker w ++
                           [mkMessage (msg_id m) (msg_sig m)
                              (S (msg_retries m)) delay (msg_chain m)])
                        w)
          else log (Ev_failed (msg_id m) e)
      | None => log (Ev_failed (msg_id m) e)
      end
  end.

(** One turn of the worker: take the first message off the queue and
    handle it. *)
Definition worker_step (w : World) : World :=
  match broker w with
  | [] => w
  | m :: rest =>
      let w := set_broker rest w in
      if decide (msg_id m ∈ revoked w)
      then (log (Ev_revoked (msg_id m)) w).2
      else
        match (log (Ev_received m) >> run_task m) w with
        | (o, w') => (settle m o w').2
        end
  end.

Definition run_worker (n : nat) (w : World) : World :=
  Nat.iter n worker_step w.

End Worker.

(** ** Reading the log *)

Definition writes_status (fields : list Report.Field) : bool :=
  existsb (fun f => match f with Report.F_status => true | _ => false end) fields.

Definition writes_progress (fields : list Report.Field) : bool :=
  existsb (fun f => match f with Report.F_progress => true | _ => false end) fields.

(** The statuses written to the row of report [pk], in order. *)
Definition status_writes (pk : string) (tr : list Event) : list Report.Status :=
  omap (fun ev =>
          match ev with
          | Ev_report_saved pk' fields row =>
              if String.eqb pk' pk && writes_status fields
              then Some (Report.status row) else None
          | _ => None
          end) tr.

(** The progress values written to the row of report [pk], in order. *)
Definition progress_writes (pk : string) (tr : list Event) : list Z :=
  omap (fun ev =>
          match ev with
          | Ev_report_saved pk' fields row =>
              if String.eqb pk' pk && writes_progress fields
              then Some (Report.progress row) else None
          | _ => None
          end) tr.

(** The retries asked for task [tid]: the retry number and the delay. *)
Definition retries_of (tid : TaskId) (tr : list Event) : list (nat * Z) :=
  omap (fun ev =>
          match ev with
          | Ev_retry tid' _ n delay =>
              if N.eqb tid' tid then Some (n, delay) else None
          | _ => None
          end) tr.

(** The messages the worker started to run, in order. *)
Definition received (tr : list Event) : list Message :=
  omap (fun ev => match ev with Ev_received m => Some m | _ => None end) tr.

(** The status changes made by a sequence of writes to a row whose status
    was [s]: each write paired with the status it replaces. *)
Fixpoint transitions (s : Report.Status) (writes : list Report.Status)
  : list (Report.Status * Report.Status) :=
  match writes with
  | [] => []
  | s' :: rest => (s, s') :: transitions s' rest
  end.

(** The events written by the worker itself, as opposed to those written
    by the task bodies. *)
Definition worker_events (tr : list Event) : list Event :=
  omap (fun ev =>
          match ev with
          | Ev_update_state _ _ _ | Ev_report_saved _ _ _ => None
          | _ => Some ev
          end) tr.

(** ** Vocabulary of the properties *)

(** [hoare P m Q]: run from a state satisfying [P], [m] ends with an
    outcome and a state related by [Q]. Every [m] terminates, being a
    function. *)
Definition hoare {S A} (P : S -> Prop) (m : M S A)
    (Q : Outcome A -> S -> Prop) : Prop :=
  forall s, P s -> Q (m s).1 (m s).2.

(** The columns of a report row that no job writes. *)
Definition static (r : Report.t)
  : string * Report.ReportType * Report.Parameters :=
  (Report.user_email r, Report.report_type r, Report.parameters r).

(** The part of the world that a run of [generate_report] leaves alone,
    whatever its outcome. *)
Definition outside (w : World)
  : Connection * gmap Z Product.t * gmap Z Order.t * list OrderItem.t
    * list OrderStatusHistory.t * gmap string Value * gset TaskId * Z :=
  (connection w, products w, orders w, order_items w, order_status_history w,
   cache w, revoked w, now w).

(** All events of the log that write a report row write row [pk]. *)
Definition saves_only (pk : string) (tr : list Event) : Prop :=
  Forall (fun ev => match ev with
                    | Ev_report_saved pk' _ _ => pk' = pk
                    | _ => True
                    end) tr.

(** The state of a run of [generate_report] on report [pk] between its
    first progress milestone and the end of the generator: [w] is the
    world and [r] the row when the run started, [q] the progress held by
    the instance. *)
Inductive running (w : World) (pk : string) (r : Report.t) (q : Z)
    (f : Frame) : Prop :=
| Running (obj row : Report.t) (evs : list Event) (ps : list Z)
    (Hobj : report f = Some (pk, obj))
    (Hobj_static : static obj = static r)
    (Hobj_retry : Report.retry_count obj = Report.retry_count r)
    (Hobj_progress : Report.progress obj = q)
    (Hrows : reports (world f) = <[pk := row]> (reports w))
    (Hrow_static : static row = static r)
    (Hrow_retry : Report.retry_count row = Report.retry_count r)
    (Houtside : outside (world f) = outside w)
    (Hbroker : broker (world f) = broker w)
    (Hnext : next_task_id (world f) = next_task_id w)
    (Htrace : trace (world f) = trace w ++ evs)
    (Hworker : worker_events evs = [])
    (Hsaves : saves_only pk evs)
    (Hstatus : status_writes pk evs = [Report.PROCESSING])
    (Hprogress : progress_writes pk evs = 10 :: ps)
    (Hsorted : StronglySorted Z.le (10 :: ps))
    (Hbound : Forall (fun p => p <= q) (10 :: ps)).

(** A generator that raises whenever it is called, as with an unknown
    report type or a database that refuses every query, and not because
    of the time limit. *)
Definition always_throws (env : Environment) (report_type : Report.ReportType)
    (parameters : Report.Parameters) : Prop :=
  forall self f,
    exists e f',
      generate_by_type env self report_type parameters f = (Raise e, f')
      /\ e <> SoftTimeLimitExceeded.

(** [isinstance(e, SoftTimeLimitExceeded)] *)
Definition is_timeout (e : Exn) : bool :=
  match e with SoftTimeLimitExceeded => true | _ => false end.

(** The value returned by a completed [generate_report]. *)
Definition report_success (pk : string) (result : HandlerResult) : Value :=
  VDict [("status", VStr "success"); ("report_id", VStr pk);
         ("summary", summary result)].

(** The message published by [generate_report] for its follow-up chain. *)
Definition report_chain (tid : TaskId) (pk : string) : Message :=
  mkMessage tid (mkSignature T_post_process_report [VStr pk]) 0 0
    [mkSignature T_send_report_notification [VStr pk]].

(** The message published by [process_order] for its follow-up chain. *)
Definition order_chain (tid : TaskId) (order_id : Z) : Message :=
  mkMessage tid (mkSignature T_send_order_confirmation [VInt order_id]) 0 0
    [mkSignature T_notify_warehouse [VInt order_id]].

(** [v['status']] of a task result. *)
Definition result_status (v : Value) : option Value :=
  match v with VDict kvs => dict_get "status" kvs | _ => None end.

Definition is_success (v : Value) : bool :=
  match result_status v with
  | Some (VStr s) => String.eqb s "success"
  | _ => false
  end.

(** The state in which a report generator ends, whatever its outcome. *)
Definition generated (w : World) (pk : string) (r : Report.t) {A}
    (o : Outcome A) (f : Frame) : Prop :=
  exists q, q <= 90 /\ running w pk r q f.

(** What the transaction of [process_order] keeps of the world [w] it
    started in: the queue, the supply of task ids and the revoked tasks;
    and what it adds to the log are task events. *)
Definition unpublished (w s : World) : Prop :=
  broker s = broker w /\ next_task_id s = next_task_id w
  /\ revoked s = revoked w
  /\ exists tevs, trace s = trace w ++ tevs /\ worker_events tevs = [].

(** The state after the transaction of [process_order] on [order_id]. *)
Definition transaction_done (order_id : Z) (w : World) (o : Outcome unit)
    (s : World) : Prop :=
  unpublished w s /\
  match o with
  | Return _ =>
      exists o', orders s !! order_id = Some o'
                 /\ Order.status o' = Order.PROCESSING
  | Raise _ => True
  end.

(** The queue after [process_order] on [order_id] started in [w]: the
    follow-up chain is on it exactly when the task returned success, and
    then the order has been moved to processing. *)
Definition order_outcome (order_id : Z) (w : World) (o : Outcome Value)
    (s : World) : Prop :=
  match o with
  | Return v =>
      if is_success v
      then broker s = broker w ++ [order_chain (next_task_id w) order_id]
           /\ exists o', orders s !! order_id = Some o'
                         /\ Order.status o' = Order.PROCESSING
      else broker s = broker w
  | Raise _ => broker s = broker w
  end.

(** ** The world at rest *)

(** Everything but the queue and the log: what a turn of the worker leaves
    alone when the task it runs fails before its first write. *)
Definition at_rest (w : World)
  : Connection * gmap Z Product.t * gmap Z Order.t * list OrderItem.t
    * list OrderStatusHistory.t * gmap string Report.t * gmap string Value
    * gset TaskId * TaskId * nat * Z :=
  (connection w, products w, orders w, order_items w, order_status_history w,
   reports w, cache w, revoked w, next_task_id w, clock w, now w).

(** The tasks the worker gave up on, with the exception of the last
    attempt. *)
Definition failures (tr : list Event) : list (TaskId * Exn) :=
  omap (fun ev => match ev with Ev_failed tid e => Some (tid, e) | _ => None end)
       tr.

(** The tasks that returned and whose result was kept, with the result. *)
Definition successes (tr : list Event) : list (TaskId * Value) :=
  omap (fun ev => match ev with Ev_succeeded tid v => Some (tid, v) | _ => None end)
       tr.

(** ** The end of an attempt of [generate_report] *)

(** The exception, if any, that reaches the handlers of [generate_report]
    in an attempt on row [r] whose generator ended with [oh]: the one the
    generator raised, or the one with which the final [report.save()]
    fails. *)
Definition attempt_error (v : Vendor) (r : Report.t)
    (oh : Outcome HandlerResult) : option Exn :=
  match oh with
  | Return result =>
      write_error v all_fields
        (Report.set_result_data (summary result) (Report.set_progress 100 r))
  | Raise e => Some e
  end.

(** How an attempt that got past its first write ends: [o] is what the
    task returns or raises, [w'] the world, [r'] the row and [evs] the
    events of the attempt.
    - With no exception the report is completed and the follow-up chain is
      published.
    - On the time limit the row is marked failed.
    - On another exception the handler adds one to [retry_count] and marks
      the row failed; when the database refuses the new count, the save
      of the handler raises in its turn and the row stays as the last
      progress milestone left it: processing. *)
Definition ending (w : World) (pk : string) (r : Report.t)
    (oh : Outcome HandlerResult) (o : Outcome Value) (w' : World)
    (r' : Report.t) (evs : list Event) : Prop :=
  match attempt_error (vendor (connection w)) r oh with
  | None =>
      match oh with
      | Return result =>
          o = Return (report_success pk result) /\
          Report.status r' = Report.COMPLETED /\
          Report.progress r' = 100 /\
          Report.result_data r' = summary result /\
          Report.retry_count r' = Report.retry_count r /\
          (forall csv,
             csv_content result = Some csv ->
             Report.result_file r'
             = Some (type_str (Report.report_type r) +:+ "_" +:+ pk +:+ ".csv",
                     csv)) /\
          status_writes pk evs = [Report.PROCESSING; Report.COMPLETED] /\
          broker w' = broker w ++ [report_chain (next_task_id w) pk] /\
          next_task_id w' = N.succ (next_task_id w)
      | Raise _ => False
      end
  | Some e =>
      broker w' = broker w /\
      next_task_id w' = next_task_id w /\
      if is_timeout e
      then o = Raise e /\
           Report.status r' = Report.FAILED /\
           Report.retry_count r' = Report.retry_count r /\
           Report.error_message r' = "Report generation timed out" /\
           status_writes pk evs = [Report.PROCESSING; Report.FAILED]
      else
        match integer_error (vendor (connection w)) (Report.retry_count r + 1) with
        | None =>
            o = Raise e /\
            Report.status r' = Report.FAILED /\
            Report.retry_count r' = Report.retry_count r + 1 /\
            Report.error_message r' = exn_str e /\
            status_writes pk evs = [Report.PROCESSING; Report.FAILED]
        | Some e' =>
            o = Raise e' /\
            Report.retry_count r' = Report.retry_count r /\
            status_writes pk evs = [Report.PROCESSING]
        end
  end.

(** ** What a task does to the queue *)

(** The queue and the log after a task body run in world [w]: the body
    has published nothing, or one message under the next task id; it has
    revoked nothing, and its events are task events. *)
Definition published (w s : World) : Prop :=
  revoked s = revoked w
  /\ (exists tevs, trace s = trace w ++ tevs /\ worker_events tevs = [])
  /\ ((broker s = broker w /\ next_task_id s = next_task_id w)
      \/ exists x, broker s = broker w ++ [x]
                   /\ msg_id x = next_task_id w
                   /\ next_task_id s = N.succ (next_task_id w)).

(** ** Chains in the log *)

(** The tasks the worker is done with: they succeeded, failed for good or
    were revoked. *)
Definition finished (tr : list Event) : list TaskId :=
  omap (fun ev =>
          match ev with
          | Ev_succeeded tid _ | Ev_failed tid _ | Ev_revoked tid => Some tid
          | _ => None
          end) tr.

(** The links the worker sent: the task that returned and the id of the
    message published for the link after it. *)
Definition dispatches (tr : list Event) : list (TaskId * TaskId) :=
  omap (fun ev =>
          match ev with
          | Ev_dispatched tid next_id => Some (tid, next_id)
          | _ => None
          end) tr.

(** Every link was sent after the task before it had succeeded. *)
Definition links_follow_success (tr : list Event) : Prop :=
  forall tr1 tr2 tid next_id,
    tr = tr1 ++ Ev_dispatched tid next_id :: tr2 ->
    tid ∈ (successes tr1).*1.

(** The task ids in use: those of the queued messages and those of the
    finished tasks. *)
Definition tasks (w : World) : list TaskId :=
  (msg_id <$> broker w) ++ finished (trace w).

(** [k] ids from [t] on. *)
Definition fresh_ids (t : TaskId) (k : nat) : list TaskId :=
  (fun i : nat => (t + N.of_nat i)%N) <$> seq 0 k.

(** A queue and a log as Celery keeps them: a task id is in use once,
    queued or finished; ids are handed out in increasing order; and the
    links in the log were sent after a success. An empty log with a queue
    of distinct ids is of this kind. *)
Definition well_formed (w : World) : Prop :=
  NoDup (tasks w)
  /\ Forall (fun t => (t < next_task_id w)%N) (tasks w)
  /\ links_follow_success (trace w).
(** ** Sample worlds *)

Definition no_result : HandlerResult := mkHandlerResult (VDict []) (Some []).

(** Every query answers. *)
Definition online : Environment :=
  mkEnvironment (fun _ => None) (fun _ => no_result) (fun _ => no_result)
    (fun _ _ => no_result) (fun _ _ => no_result).

(** Every query of business data fails with a lost connection. *)
Definition offline : Environment :=
  mkEnvironment
    (fun _ => Some (OperationalError "server closed the connection unexpectedly"))
    (fun _ => no_result) (fun _ => no_result)
    (fun _ _ => no_result) (fun _ _ => no_result).

(** A shop with two products and five orders, on a database without row
    locks, its connection in autocommit mode. Order 1 has two lines for
    the same product, order 3 asks for more than is in stock, order 5 has
    two lines for different products. *)
Definition shop : World :=
  {| connection := mkConnection sqlite true;
     products :=
       <[7 := Product.mk "Widget" "W-7" 10 0]>
         (<[8 := Product.mk "Gadget" "G-8" 2 0]> ∅);
     orders :=
       <[1 := Order.mk "ORD-1" Order.CONFIRMED 7700 "ann@example.com"
                "ann@example.com" 110 false]>
         (<[2 := Order.mk "ORD-2" Order.SHIPPED 1000 "bob@example.com"
                  "bob@example.com" 150 false]>
            (<[3 := Order.mk "ORD-3" Order.CONFIRMED 5500 "ann@example.com"
                     "ann@example.com" 250 false]>
               (<[4 := Order.mk "ORD-4" Order.CANCELLED 900 "bob@example.com"
                        "bob@example.com" 160 true]>
                  (<[5 := Order.mk "ORD-5" Order.CONFIRMED 3200
                           "cy@example.com" "cy@example.com" 170 false]> ∅))));
     order_items :=
       [OrderItem.mk 1 7 3; OrderItem.mk 1 7 4; OrderItem.mk 3 8 5;
        OrderItem.mk 5 7 2; OrderItem.mk 5 8 1];
     order_status_history := [];
     reports := ∅;
     cache := ∅;
     broker := [];
     revoked := ∅;
     next_task_id := 0%N;
     clock := 0%nat;
     now := 1000;
     trace := [] |}.

Definition period : Report.Parameters :=
  Report.mkParameters (Some 100) (Some 200) None.

(** The shop after a sales report for [period] has been requested: the
    row is pending and the task message is on the queue. *)
Definition sales_job : World :=
  (ReportCreateSerializer.create "r1" "ann@example.com" Report.SALES period
     shop).2.

(** Every query answers, and the analytics report has a top product: a
    row of [top_products] as [.values(...).annotate(...)] returns it, its
    [revenue] the [Decimal] of [Sum('total')]. *)
Definition selling : Environment :=
  mkEnvironment (fun _ => None) (fun _ => no_result) (fun _ => no_result)
    (fun _ _ => no_result)
    (fun _ _ =>
       mkHandlerResult
         (VDict [("period", VStr "100 to 200"); ("total_days", VInt 3);
                 ("top_products",
                  VList [VDict [("product__name", VStr "Widget");
                                ("quantity_sold", VInt 9);
                                ("revenue", VDecimal 11100)]]);
                 ("daily_average", VFloat 11900 300)])
         (Some [[VStr "Date"; VStr "Orders"; VStr "Revenue"]])).

(** The shop after an analytics report for [period] has been requested. *)
Definition analytics_job : World :=
  (ReportCreateSerializer.create "r2" "ann@example.com" Report.ANALYTICS period
     shop).2.

(** ** Operations on a report job and the status order *)

(** The operations that write the status of a report: a worker running
    [generate_report] (a first attempt or an automatic retry), the cancel
    endpoint, and the two admin actions. *)
Inductive Operation : Type :=
| Op_worker (self : Request) (pk : string)
| Op_cancel (pk : string)
| Op_admin_cancel (queryset : list string)
| Op_manual_retry (queryset : list string).

Definition perform (env : Environment) (op : Operation) (w : World) : World :=
  match op with
  | Op_worker self pk => (run_frame (generate_report env self pk) w).2
  | Op_cancel pk => (ReportViewSet.cancel pk w).2
  | Op_admin_cancel queryset => (ReportAdmin.cancel_reports queryset w).2
  | Op_manual_retry queryset => (ReportAdmin.retry_failed_reports queryset w).2
  end.

Definition is_worker (op : Operation) : bool :=
  match op with Op_worker _ _ => true | _ => false end.

Definition is_manual_retry (op : Operation) : bool :=
  match op with Op_manual_retry _ => true | _ => false end.

(** pending, then processing, then the terminal states. *)
Definition rank (s : Report.Status) : nat :=
  match s with
  | Report.PENDING => 0
  | Report.PROCESSING => 1
  | Report.COMPLETED | Report.FAILED | Report.CANCELLED => 2
  end.

Definition terminal (s : Report.Status) : bool :=
  match s with
  | Report.COMPLETED | Report.FAILED | Report.CANCELLED => true
  | _ => false
  end.

Definition status_eqb (a b : Report.Status) : bool := bool_decide (a = b).

(** The status order as the specification words it: a write moves the
    status forward along pending, processing, terminal, or leaves it as
    it is; a terminal status is only left from failed to pending, by a
    manual retry. *)
Definition monotonic (op : Operation) (old new : Report.Status) : bool :=
  if terminal old
  then status_eqb new old
       || (is_manual_retry op && status_eqb old Report.FAILED
           && status_eqb new Report.PENDING)
  else (rank old <=? rank new)%nat.

(** The status order with what the code adds to it: a worker that starts
    an attempt writes processing whatever the status of the row. *)
Definition performed (op : Operation) (old new : Report.Status) : bool :=
  monotonic op old new
  || (is_worker op && status_eqb new Report.PROCESSING).

Definition no_timeout {A} (o : Outcome A) : Prop :=
  match o with Raise e => e <> SoftTimeLimitExceeded | Return _ => True end.

Definition fails {A} (o : Outcome A) : Prop :=
  match o with Raise e => e <> SoftTimeLimitExceeded | Return _ => False end.

(** While an admin action started in [w] loops over [rows]: every status
    written so far to row [pk] is [X], and some was written only if [pk]
    is among the rows. *)
Definition writing (w : World) (pk : string) (X : Report.Status)
    (rows : list (string * Report.t)) (s : World) : Prop :=
  exists evs,
    trace s = trace w ++ evs
    /\ Forall (fun s' => s' = X) (status_writes pk evs)
    /\ (status_writes pk evs <> [] -> pk ∈ rows.*1).

(** The message of [process_order.delay(order_id)]. *)
Definition process_order_message (tid : TaskId) (order_id : Z) : Message :=
  mkMessage tid (mkSignature T_process_order [VInt order_id]) 0 0 [].

(** The shop after [process_order.delay(42)], for an order that does not
    exist. *)
Definition lost_order_job : World := (delay T_process_order [VInt 42] shop).2.

(** The shop after [process_order.delay(2)], for the order that has
    already been shipped. *)
Definition shipped_order_job : World := (delay T_process_order [VInt 2] shop).2.

(** The shop after [process_order.delay(5)], for a confirmed order whose
    two lines are in stock. *)
Definition confirmed_order_job : World :=
  (delay T_process_order [VInt 5] shop).2.

(** ** The orders of a period, as the specification counts them *)

(** An order that is not deleted and was created between [s] and [e]. *)
Definition in_period (s e : Z) (o : Order.t) : Prop :=
  s <= Order.created_at o /\ Order.created_at o <= e
  /\ Order.is_deleted o = false.

#[global] Instance in_period_dec (s e : Z) (o : Order.t)
  : Decision (in_period s e o).
Proof. unfold in_period. apply _. Defined.

Definition orders_in_period (s e : Z) (w : World) : gmap Z Order.t :=
  filter (fun kv : Z * Order.t => in_period s e kv.2) (orders w).

(** K, the number of orders of the period. *)
Definition order_count (s e : Z) (w : World) : Z :=
  Z.of_nat (size (orders_in_period s e w)).

(** R, the sum of their totals, in hundredths. *)
Definition revenue (s e : Z) (w : World) : Z :=
  map_fold (fun _ (o : Order.t) acc => Order.total o + acc) 0
           (orders_in_period s e w).

(** A shop with [n] orders, one a day from day 1 on, 25.00 each. *)
Definition busy_shop (n : nat) : World :=
  set_orders
    (list_to_map
       ((fun i : nat =>
           (Z.of_nat i,
            Order.mk ("ORD-" +:+ pretty i) Order.DELIVERED 2500
              "ann@example.com" "ann@example.com" (Z.of_nat i) false))
          <$> seq 1 n))
    shop.

(** A sales report requested over all of them. *)
Definition busy_sales_job (n : nat) : World :=
  (ReportCreateSerializer.create "r1" "ann@example.com" Report.SALES
     (Report.mkParameters (Some 1) (Some (Z.of_nat n)) None)
     (busy_shop n)).2.

(** The summary and the table the sales generator computes in world [w]
    for the period from [s] to [e]. *)
Definition sales_result (s e : Z) (w : World) : HandlerResult :=
  {| summary :=
       VDict [("total_orders", VInt (order_count s e w));
              ("total_revenue", VFloat (revenue s e w) 100);
              ("average_order_value",
               if order_count s e w =? 0 then VFloat 0 1
               else VFloat (revenue s e w) (100 * order_count s e w));
              ("period", VStr (pretty s +:+ " to " +:+ pretty e))];
     csv_content :=
       Some (sales_header
               :: ((fun kv : Z * Order.t => sales_row kv.2)
                     <$> take 1000 (orders_in_range s e w))) |}.

(** [v[k]] for a dict [v]. *)
Definition value_get (k : string) (v : Value) : option Value :=
  match v with VDict kvs => dict_get k kvs | _ => None end.

(** The number of rows of the file stored with a report. *)
Definition result_rows (r : Report.t) : option nat :=
  match Report.result_file r with
  | Some (_, csv) => Some (length csv)
  | None => None
  end.

(** ** Chains on the queue *)

(** Whether the worker publishes a failed message again. *)
Definition will_retry (m : Message) : bool :=
  match autoretry (sig_task (msg_sig m)) with
  | Some p => (msg_retries m <? max_retries p)%nat
  | None => false
  end.

(** The message published for a retry of [m]. *)
Definition retry_message (m : Message) : list Message :=
  match autoretry (sig_task (msg_sig m)) with
  | Some p =>
      [mkMessage (msg_id m) (msg_sig m) (S (msg_retries m))
         (retry_countdown p (msg_retries m)) (msg_chain m)]
  | None => []
  end.

(** The message published for the link after [m] when [m] returned [v]:
    none when [m] is the last link, or when the task of the next link
    does not take the result and its own arguments. *)
Definition next_link (m : Message) (v : Value) (tid : TaskId) : list Message :=
  match msg_chain m with
  | next :: rest =>
      if accepts (sig_task next) (v :: sig_args next)
      then [mkMessage tid (mkSignature (sig_task next) (v :: sig_args next))
              0 0 rest]
      else []
  | [] => []
  end.

(** The same world with its database on PostgreSQL, the connection in
    autocommit mode. *)
Definition on_postgresql (w : World) : World :=
  set_connection (mkConnection postgresql true) w.

(** The message of [generate_report.delay(report_id)]. *)
Definition generate_report_message (tid : TaskId) (pk : string) : Message :=
  mkMessage tid (mkSignature T_generate_report [VStr pk]) 0 0 [].

(** * Properties *)

(** ** Rules for [hoare] *)

Section HoareRules.
Context {S : Type}.
Implicit Types P : S -> Prop.

Lemma hoare_ret {A} P (a : A) (Q : Outcome A -> S -> Prop) :
  (forall s, P s -> Q (Return a) s) -> hoare P (ret a) Q.
Proof. intros H s Hs. by apply H. Qed.

Lemma hoare_raise {A} P e (Q : Outcome A -> S -> Prop) :
  (forall s, P s -> Q (Raise e) s) -> hoare P (raise e) Q.
Proof. intros H s Hs. by apply H. Qed.

Lemma hoare_bind {A B} P (m : M S A) (k : A -> M S B) (R : A -> S -> Prop)
    (Q : Outcome B -> S -> Prop) :
  hoare P m (fun o s => match o with
                        | Return a => R a s
                        | Raise e => Q (Raise e) s
                        end) ->
  (forall a, hoare (R a) (k a) Q) ->
  hoare P (bind m k) Q.
Proof.
  intros Hm Hk s Hs. specialize (Hm s Hs). unfold bind.
  destruct (m s) as [[a|e] s']; simpl in *; [by apply Hk | done].
Qed.

Lemma hoare_consequence {A} P P' (m : M S A) (Q Q' : Outcome A -> S -> Prop) :
  hoare P' m Q' ->
  (forall s, P s -> P' s) ->
  (forall o s, Q' o s -> Q o s) ->
  hoare P m Q.
Proof. intros Hm HP HQ s Hs. apply HQ, Hm, HP, Hs. Qed.

Lemma hoare_try_except {A} P (body : M S A) handler (R : Exn -> S -> Prop)
    (Q : Outcome A -> S -> Prop) :
  hoare P body (fun o s => match o with
                           | Return a => Q (Return a) s
                           | Raise e => R e s
                           end) ->
  (forall e, hoare (R e) (handler e) Q) ->
  hoare P (try_except body handler) Q.
Proof.
  intros Hm Hh s Hs. specialize (Hm s Hs). unfold try_except.
  destruct (body s) as [[a|e] s']; simpl in *; [done | by apply Hh].
Qed.
End HoareRules.

(** ** The log *)

Lemma status_writes_app pk tr1 tr2 :
  status_writes pk (tr1 ++ tr2) = status_writes pk tr1 ++ status_writes pk tr2.
Proof. unfold status_writes. by rewrite omap_app. Qed.

Lemma progress_writes_app pk tr1 tr2 :
  progress_writes pk (tr1 ++ tr2)
  = progress_writes pk tr1 ++ progress_writes pk tr2.
Proof. unfold progress_writes. by rewrite omap_app. Qed.

Lemma worker_events_app tr1 tr2 :
  worker_events (tr1 ++ tr2) = worker_events tr1 ++ worker_events tr2.
Proof. unfold worker_events. by rewrite omap_app. Qed.

Lemma retries_of_app tid tr1 tr2 :
  retries_of tid (tr1 ++ tr2) = retries_of tid tr1 ++ retries_of tid tr2.
Proof. unfold retries_of. by rewrite omap_app. Qed.

Lemma received_app tr1 tr2 :
  received (tr1 ++ tr2) = received tr1 ++ received tr2.
Proof. unfold received. by rewrite omap_app. Qed.

Lemma retries_of_quiet tid tr : worker_events tr = [] -> retries_of tid tr = [].
Proof.
  induction tr as [|ev tr IH]; [done|].
  destruct ev; simpl; try done; intros H; by apply IH.
Qed.

Lemma received_quiet tr : worker_events tr = [] -> received tr = [].
Proof.
  induction tr as [|ev tr IH]; [done|].
  destruct ev; simpl; try done; intros H; by apply IH.
Qed.

Lemma progress_writes_saved pk fields row :
  progress_writes pk [Ev_report_saved pk fields row]
  = if writes_progress fields then [Report.progress row] else [].
Proof. simpl. rewrite String.eqb_refl. simpl. by destruct (writes_progress fields). Qed.

Lemma status_writes_saved pk fields row :
  status_writes pk [Ev_report_saved pk fields row]
  = if writes_status fields then [Report.status row] else [].
Proof. simpl. rewrite String.eqb_refl. simpl. by destruct (writes_status fields). Qed.

Lemma StronglySorted_snoc_le (l : list Z) (q p : Z) :
  StronglySorted Z.le l -> Forall (fun x => x <= q) l -> q <= p ->
  StronglySorted Z.le (l ++ [p]) /\ Forall (fun x => x <= p) (l ++ [p]).
Proof.
  intros Hs Hb Hqp. split.
  - apply StronglySorted_app_2; [| done | repeat constructor].
    intros x1 x2 Hx1 Hx2. apply list_elem_of_singleton in Hx2 as ->.
    rewrite Forall_forall in Hb. specialize (Hb _ Hx1). simpl in Hb. lia.
  - apply Forall_app. split; [|by repeat constructor].
    eapply Forall_impl; [done|]. simpl. intros; lia.
Qed.

(** ** What the database accepts *)

Lemma integer_error_small v z :
  -2147483648 <= z <= 2147483647 -> integer_error v z = None.
Proof.
  intros Hz. unfold integer_error.
  destruct v;
    (destruct (Z.leb_spec (-2147483648) z), (Z.leb_spec z 2147483647),
       (Z.leb_spec (-9223372036854775808) z),
       (Z.leb_spec z 9223372036854775807); simpl; try done; lia).
Qed.

Lemma write_error_progress v obj :
  10 <= Report.progress obj <= 100 ->
  write_error v [Report.F_progress; Report.F_progress_message] obj = None
  /\ write_error v [Report.F_progress] obj = None.
Proof.
  intros H. unfold write_error. simpl.
  rewrite integer_error_small by lia. done.
Qed.

(** ** One run of [generate_report] *)

Lemma hoare_assoc {S A B C} (P : S -> Prop) (m : M S A) (f : A -> M S B)
    (k : B -> M S C) Q :
  hoare P (bind (bind m f) k) Q -> hoare P (bind m (fun a => bind (f a) k)) Q.
Proof.
  intros H s Hs. specialize (H s Hs). unfold bind in *.
  destruct (m s) as [[a|e] s']; [|done]. by destruct (f a s') as [[b|e] s''].
Qed.

Section Running.
Variables (env : Environment) (w : World) (pk : string) (r : Report.t).

#[local] Abbreviation inv := (running w pk r).

#[local] Abbreviation generated := (generated w pk r).

Lemma running_update_state task st meta q :
  hoare (inv q) (lift (update_state task st meta))
        (fun o f => o = Return tt /\ inv q f).
Proof.
  intros f [obj row evs ps]. split; [done|]. simpl.
  apply (Running _ _ _ _ _ obj row (evs ++ [Ev_update_state (req_id task) st meta]) ps);
    simpl; try done.
  - by rewrite Htrace, app_assoc.
  - by rewrite worker_events_app, Hworker.
  - apply Forall_app. split; [done | by repeat constructor].
  - by rewrite status_writes_app, Hstatus.
  - by rewrite progress_writes_app, Hprogress, app_nil_r.
Qed.

Lemma running_db_query q :
  hoare (inv q) (lift (db_query env)) (fun o f => inv q f).
Proof.
  intros f [obj row evs ps]. unfold lift, db_query.
  destruct (faults env (clock (world f))); simpl;
    by apply (Running _ _ _ _ _ obj row evs ps).
Qed.

Lemma running_Order_filter q s e :
  hoare (inv q) (lift (Order_filter s e)) (fun o f => inv q f).
Proof.
  intros f Hf. unfold lift, Order_filter.
  destruct s, e; simpl; by destruct Hf as [obj row evs ps]; econstructor.
Qed.

Lemma running_get_state q :
  hoare (inv q) (lift get_state) (fun o f => inv q f).
Proof. intros f Hf. simpl. by destruct Hf as [obj row evs ps]; econstructor. Qed.

Lemma running_save_progress fields p q :
  q <= p ->
  (forall v src, Report.progress src = p -> write_error v fields src = None) ->
  writes_status fields = false ->
  writes_progress fields = true ->
  (forall src dst, static (Report.copy_fields fields src dst) = static dst) ->
  (forall src dst, Report.retry_count (Report.copy_fields fields src dst)
                   = Report.retry_count dst) ->
  (forall src dst, Report.progress src = p ->
                   Report.progress (Report.copy_fields fields src dst) = p) ->
  forall f obj row evs ps,
    report f = Some (pk, obj) ->
    static obj = static r ->
    Report.retry_count obj = Report.retry_count r ->
    Report.progress obj = p ->
    reports (world f) = <[pk := row]> (reports w) ->
    static row = static r ->
    Report.retry_count row = Report.retry_count r ->
    outside (world f) = outside w ->
    broker (world f) = broker w ->
    next_task_id (world f) = next_task_id w ->
    trace (world f) = trace w ++ evs ->
    worker_events evs = [] ->
    saves_only pk evs ->
    status_writes pk evs = [Report.PROCESSING] ->
    progress_writes pk evs = 10 :: ps ->
    StronglySorted Z.le (10 :: ps) ->
    Forall (fun x => x <= q) (10 :: ps) ->
    (save_update_fields fields f).1 = Return tt
    /\ inv p (save_update_fields fields f).2.
Proof.
  intros Hqp Hwe Hws Hwp Hst Hrc Hpr f obj row evs ps Hobj Hos Hor Hop Hrows Hrs Hrr
    Hout Hbr Hnx Htr Hwk Hsv Hsw Hpw Hso Hbo.
  unfold save_update_fields, bind, the_report, lift, Report_save_update_fields.
  rewrite Hobj. simpl. rewrite (Hwe _ _ Hop), Hrows, lookup_insert_eq. simpl.
  split; [done|].
  destruct (StronglySorted_snoc_le (10 :: ps) q p Hso Hbo Hqp) as [Hso' Hbo'].
  apply (Running _ _ _ _ _ obj (Report.copy_fields fields obj row)
           (evs ++ [Ev_report_saved pk fields (Report.copy_fields fields obj row)])
           (ps ++ [p])); simpl; try done.
  - by rewrite insert_insert_eq.
  - by rewrite Hst.
  - by rewrite Hrc.
  - by rewrite Htr, app_assoc.
  - by rewrite worker_events_app, Hwk.
  - apply Forall_app. split; [done | by repeat constructor].
  - rewrite status_writes_app, Hsw. simpl. rewrite Hws.
    by rewrite andb_false_r.
  - rewrite progress_writes_app, Hpw. simpl. rewrite Hwp, String.eqb_refl.
    simpl. by rewrite Hpr.
Qed.

Lemma running_progress_message_save p msg q :
  q <= p -> p <= 100 ->
  hoare (inv q)
        (set_attr (Report.set_progress p) >>
         set_attr (Report.set_progress_message msg) >>
         save_update_fields [Report.F_progress; Report.F_progress_message])
        (fun o f => o = Return tt /\ inv p f).
Proof.
  intros Hqp Hp f [obj row evs ps].
  assert (10 <= q) by (by inversion Hbound).
  match goal with
  | |- context [bind ?m ?k f] =>
      replace (bind m k f) with
        (save_update_fields [Report.F_progress; Report.F_progress_message]
           (mkFrame (world f)
              (Some (pk, Report.set_progress_message msg
                           (Report.set_progress p obj)))))
        by (unfold bind at 1 2, set_attr; by rewrite Hobj)
  end.
  apply (running_save_progress
           [Report.F_progress; Report.F_progress_message] p q Hqp)
    with (obj := Report.set_progress_message msg (Report.set_progress p obj))
         (row := row) (evs := evs) (ps := ps); try done.
  intros v src Hsrc. apply write_error_progress. lia.
Qed.

Lemma running_progress_save p q :
  q <= p -> p <= 100 ->
  hoare (inv q)
        (set_attr (Report.set_progress p) >>
         save_update_fields [Report.F_progress])
        (fun o f => o = Return tt /\ inv p f).
Proof.
  intros Hqp Hp f [obj row evs ps].
  assert (10 <= q) by (by inversion Hbound).
  match goal with
  | |- context [bind ?m ?k f] =>
      replace (bind m k f) with
        (save_update_fields [Report.F_progress]
           (mkFrame (world f) (Some (pk, Report.set_progress p obj))))
        by (unfold bind at 1, set_attr; by rewrite Hobj)
  end.
  apply (running_save_progress [Report.F_progress] p q Hqp)
    with (obj := Report.set_progress p obj)
         (row := row) (evs := evs) (ps := ps); try done.
  intros v src Hsrc. apply write_error_progress. lia.
Qed.

Lemma running_report_progress task p msg q :
  q <= p -> p <= 100 ->
  hoare (inv q) (report_progress task p msg)
        (fun o f => o = Return tt /\ inv p f).
Proof.
  intros Hqp Hp. unfold report_progress.
  eapply hoare_bind with (R := fun _ => inv q).
  - eapply hoare_consequence; [apply running_update_state | done |].
    by intros o f [-> Hf].
  - intros _. by apply running_progress_message_save.
Qed.

Lemma generated_intro {A} q (o : Outcome A) f :
  q <= 90 -> inv q f -> generated o f.
Proof. intros. by exists q. Qed.

Lemma step_keep {A B} q (m : M Frame A) (k : A -> M Frame B) :
  q <= 90 ->
  hoare (inv q) m (fun _ f => inv q f) ->
  (forall a, hoare (inv q) (k a) generated) ->
  hoare (inv q) (bind m k) generated.
Proof.
  intros Hq Hm Hk. eapply hoare_bind with (R := fun _ => inv q); [|done].
  eapply hoare_consequence; [apply Hm | done |].
  intros [a|e] f Hf; [done | by eapply generated_intro].
Qed.

Lemma step_update_state {B} q task st meta (k : M Frame B) :
  q <= 90 ->
  hoare (inv q) k generated ->
  hoare (inv q) (lift (update_state task st meta) >> k) generated.
Proof.
  intros Hq Hk. apply step_keep; [done | | done].
  eapply hoare_consequence; [apply running_update_state | done |].
  by intros o f [_ Hf].
Qed.

Lemma step_report_progress {B} q task p msg (k : M Frame B) :
  q <= p -> p <= 90 ->
  hoare (inv p) k generated ->
  hoare (inv q) (report_progress task p msg >> k) generated.
Proof.
  intros Hqp Hp Hk. eapply hoare_bind with (R := fun _ => inv p); [|done].
  eapply hoare_consequence; [apply running_report_progress; [exact Hqp | lia] | done |].
  by intros o f [-> Hf].
Qed.

Lemma step_progress_save {B} q p (k : M Frame B) :
  q <= p -> p <= 90 ->
  hoare (inv p) k generated ->
  hoare (inv q)
        (set_attr (Report.set_progress p) >>
         save_update_fields [Report.F_progress] >> k) generated.
Proof.
  intros Hqp Hp Hk. apply hoare_assoc.
  eapply hoare_bind with (R := fun _ => inv p); [|done].
  eapply hoare_consequence; [apply running_progress_save; [exact Hqp | lia] | done |].
  by intros o f [-> Hf].
Qed.

Lemma step_ret {A} q (a : A) : q <= 90 -> hoare (inv q) (ret a) generated.
Proof. intros Hq. apply hoare_ret. intros f Hf. by eapply generated_intro. Qed.

Ltac step :=
  first
    [ apply step_report_progress; [lia | lia |]
    | apply step_update_state; [lia |]
    | apply step_progress_save; [lia | lia |]
    | apply step_keep;
      [lia
      | first [apply running_db_query | apply running_Order_filter
              | apply running_get_state]
      | intros ?]
    | apply step_ret; lia ].

Lemma running_sales task parameters :
  hoare (inv 10) (_generate_sales_report env task parameters) generated.
Proof. unfold _generate_sales_report. repeat step. Qed.

Lemma running_inventory task parameters :
  hoare (inv 10) (_generate_inventory_report env task parameters) generated.
Proof. unfold _generate_inventory_report. repeat step. Qed.

Lemma running_customers task parameters :
  hoare (inv 10) (_generate_customers_report env task parameters) generated.
Proof. unfold _generate_customers_report. repeat step. Qed.

Lemma running_orders task parameters :
  hoare (inv 10) (_generate_orders_report env task parameters) generated.
Proof. unfold _generate_orders_report. repeat step. Qed.

Lemma running_analytics task parameters :
  hoare (inv 10) (_generate_analytics_report env task parameters) generated.
Proof. unfold _generate_analytics_report. repeat step. Qed.

Lemma running_generate_by_type self report_type parameters :
  hoare (inv 10) (generate_by_type env self report_type parameters) generated.
Proof.
  destruct report_type; simpl;
    auto using running_sales, running_inventory, running_customers,
      running_orders, running_analytics.
  apply hoare_raise. intros f Hf. by eapply (generated_intro 10).
Qed.

End Running.

Lemma write_error_start v obj :
  write_error v [Report.F_status; Report.F_celery_task_id; Report.F_started_at]
    obj = None.
Proof. done. Qed.

Lemma write_error_timeout v obj :
  write_error v [Report.F_status; Report.F_error_message] obj = None.
Proof. done. Qed.

Lemma write_error_failure v obj :
  write_error v [Report.F_status; Report.F_error_message; Report.F_retry_count]
    obj
  = integer_error v (Report.retry_count obj).
Proof.
  unfold write_error. simpl. by destruct (integer_error v _).
Qed.

Lemma write_error_all v a b :
  Report.result_data a = Report.result_data b ->
  Report.progress a = Report.progress b ->
  Report.retry_count a = Report.retry_count b ->
  write_error v all_fields a = write_error v all_fields b.
Proof. intros H1 H2 H3. unfold write_error. simpl. by rewrite H1, H2, H3. Qed.

Lemma write_error_milestone v obj :
  10 <= Report.progress obj <= 100 ->
  write_error v [Report.F_progress; Report.F_progress_message] obj = None.
Proof. intros H. by apply write_error_progress. Qed.

Section Attempt.
Variables (env : Environment).

Ltac run :=
  cbv [run_frame generate_report try_except bind lift
       Report_select_for_update_get select_for_update Report_get bind_report
       set_attr timezone_now save_update_fields the_report save Report_save
       Report_save_update_fields report_progress update_state log modify ret
       raise chain_apply_async publish
       world report fst snd].

Ltac close_goals Hrows Htrace Hworker Hprogress Hstatus Hbroker Hnext Hobj_retry :=
  split_and!;
    [done | done | done | by rewrite ?Hrows, ?insert_insert_eq | ..];
  unfold static, outside in *; cbn; try done;
  rewrite ?Htrace, <- ?app_assoc, ?worker_events_app, ?progress_writes_app,
    ?status_writes_app, ?Hworker, ?Hprogress, ?Hstatus, ?Hbroker, ?Hnext;
  try done;
  try (apply Forall_app; split; [done | by repeat constructor]);
  try (by intros ? [= <-]);
  rewrite ?progress_writes_saved, ?status_writes_saved; simpl;
  rewrite ?app_nil_r; try done;
  by rewrite ?Hobj_retry.

Lemma generate_report_attempt self pk w r :
  refuses_select_for_update w = false ->
  reports w !! pk = Some r ->
  exists f2 oh f3 r' evs ps,
    running w pk r 10 f2 /\
    clock (world f2) = clock w /\
    generate_by_type env self (Report.report_type r) (Report.parameters r) f2
    = (oh, f3) /\
    let o := (run_frame (generate_report env self pk) w).1 in
    let w' := (run_frame (generate_report env self pk) w).2 in
    reports w' = <[pk := r']> (reports w) /\
    static r' = static r /\
    outside w' = outside w /\
    trace w' = trace w ++ evs /\
    worker_events evs = [] /\
    saves_only pk evs /\
    progress_writes pk evs = 10 :: ps /\
    StronglySorted Z.le (10 :: ps) /\
    ending w pk r oh o w' r' evs.
Proof.
  intros Hsfu H.
  run. rewrite Hsfu, H. run. rewrite write_error_start, H.
  cbn [reports set_trace set_reports connection].
  rewrite write_error_milestone by (simpl; lia).
  cbn [reports set_trace set_reports connection]. rewrite lookup_insert_eq.
  cbn [world report Report.report_type Report.parameters
       Report.set_progress_message Report.set_progress Report.set_started_at
       Report.set_celery_task_id Report.set_status].
  match goal with
  | |- context [generate_by_type env self _ _ ?f] => set (f2 := f)
  end.
  assert (Hinv : running w pk r 10 f2).
  { eapply (Running _ _ _ _ _ _ _ _ []); subst f2;
      cbn [world report reports set_trace set_reports trace broker
           next_task_id outside products orders order_items
           order_status_history cache revoked now connection].
    1-4: reflexivity.
    { by rewrite insert_insert_eq. }
    { reflexivity. }
    { reflexivity. }
    { reflexivity. }
    { reflexivity. }
    { reflexivity. }
    { by rewrite <- !app_assoc. }
    { reflexivity. }
    { by repeat constructor. }
    { simpl. by rewrite String.eqb_refl. }
    { simpl. by rewrite String.eqb_refl. }
    { repeat constructor. }
    { constructor; [lia | constructor]. } }
  assert (Hclock : clock (world f2) = clock w) by done.
  pose proof (running_generate_by_type env w pk r self (Report.report_type r)
                (Report.parameters r) f2 Hinv) as Hgen.
  destruct (generate_by_type env self (Report.report_type r)
              (Report.parameters r) f2) as [oh [w3 rep3]] eqn:Hrun.
  clearbody f2. exists f2, oh, (mkFrame w3 rep3).
  destruct Hgen as [q [Hq [obj row evs ps]]]. simpl in *. subst rep3.
  destruct (StronglySorted_snoc_le (10 :: ps) q 100 Hsorted Hbound ltac:(lia))
    as [Hso' _].
  assert (Hv : connection w3 = connection w)
    by (unfold outside in Houtside; by injection Houtside).
  assert (Hwe : forall x,
             Report.result_data x
             = match oh with Return result => summary result | Raise _ => VNone end ->
             Report.progress x = 100 ->
             Report.retry_count x = Report.retry_count r ->
             write_error (vendor (connection w)) all_fields x
             = match oh with
               | Return result => attempt_error (vendor (connection w)) r oh
               | Raise _ => write_error (vendor (connection w)) all_fields x
               end).
  { intros x H1 H2 H3. destruct oh as [result|e]; [|done].
    unfold attempt_error. by apply write_error_all. }
  unfold ending.
  destruct oh as [result|e].
  - (* the generator returned *)
    destruct (csv_content result) as [csv|] eqn:Hcsv; run;
      rewrite Hv, Hwe by (cbn; done);
      (destruct (attempt_error _ _ _) as [e|] eqn:Hae;
       [ (* the final save is refused *)
         destruct e; run; rewrite ?Hv, ?write_error_failure, ?write_error_timeout;
         cbn [Report.retry_count Report.set_retry_count Report.set_error_message
              Report.set_status Report.set_result_file Report.set_expires_at
              Report.set_completed_at Report.set_progress_message
              Report.set_progress Report.set_result_data];
         rewrite ?Hobj_retry;
         try (destruct (integer_error _ (Report.retry_count r + 1)) as [e'|]
                eqn:Hie);
         cbn [reports]; rewrite ?Hrows, ?lookup_insert_eq;
         cbn [reports set_trace set_reports trace broker next_task_id is_timeout]
       | (* the report is completed *)
         cbn [reports set_trace set_reports trace broker next_task_id
              set_broker set_next_task_id] ]).
    all: first
           [ eexists _, (evs ++ [_]), (ps ++ [100]);
             close_goals Hrows Htrace Hworker Hprogress Hstatus Hbroker Hnext
               Hobj_retry
           | eexists _, (evs ++ [_]), ps;
             close_goals Hrows Htrace Hworker Hprogress Hstatus Hbroker Hnext
               Hobj_retry
           | eexists _, evs, ps;
             close_goals Hrows Htrace Hworker Hprogress Hstatus Hbroker Hnext
               Hobj_retry
           | idtac ].
  - (* the generator raised *)
    clear Hwe. unfold attempt_error.
    destruct e; run; rewrite ?Hv, ?write_error_failure, ?write_error_timeout;
      cbn [Report.retry_count Report.set_retry_count Report.set_error_message
           Report.set_status];
      rewrite ?Hobj_retry;
      try (destruct (integer_error _ (Report.retry_count r + 1)) as [e'|]
             eqn:Hie);
      cbn [reports]; rewrite ?Hrows, ?lookup_insert_eq;
      cbn [reports set_trace set_reports trace broker next_task_id is_timeout].
    all: first
           [ eexists _, (evs ++ [_]), ps;
             close_goals Hrows Htrace Hworker Hprogress Hstatus Hbroker Hnext
               Hobj_retry
           | eexists _, evs, ps;
             close_goals Hrows Htrace Hworker Hprogress Hstatus Hbroker Hnext
               Hobj_retry ].
Qed.
End Attempt.

(** ** The worker *)

Lemma failures_app tr1 tr2 : failures (tr1 ++ tr2) = failures tr1 ++ failures tr2.
Proof. unfold failures. by rewrite omap_app. Qed.

Lemma successes_app tr1 tr2 :
  successes (tr1 ++ tr2) = successes tr1 ++ successes tr2.
Proof. unfold successes. by rewrite omap_app. Qed.

Lemma failures_quiet tr : worker_events tr = [] -> failures tr = [].
Proof.
  induction tr as [|ev tr IH]; [done|].
  destruct ev; simpl; try done; intros H; by apply IH.
Qed.

Lemma successes_quiet tr : worker_events tr = [] -> successes tr = [].
Proof.
  induction tr as [|ev tr IH]; [done|].
  destruct ev; simpl; try done; intros H; by apply IH.
Qed.

Section WorkerFacts.
Variables (env : Environment).

(** Where the backend refuses [select_for_update()], an attempt of
    [generate_report] ends before its first write: the query raises, the
    handler reads the variable [report], which was never bound, and what
    leaves the task is [UnboundLocalError]. *)
Lemma generate_report_refused self pk w :
  refuses_select_for_update w = true ->
  run_frame (generate_report env self pk) w
  = (Raise (UnboundLocalError "report"), w).
Proof.
  intros H.
  cbv [run_frame generate_report try_except bind lift
       Report_select_for_update_get select_for_update world report].
  by rewrite H.
Qed.

(** The same happens when the report does not exist. *)
Lemma generate_report_missing self pk w :
  reports w !! pk = None ->
  run_frame (generate_report env self pk) w
  = (Raise (UnboundLocalError "report"), w).
Proof.
  intros H.
  cbv [run_frame generate_report try_except bind lift
       Report_select_for_update_get select_for_update Report_get world report].
  destruct (refuses_select_for_update w); [done|]. by rewrite H.
Qed.

(** One turn of the worker on a message that has not been revoked. *)
Lemma worker_step_run w m rest :
  broker w = m :: rest ->
  msg_id m ∉ revoked w ->
  worker_step env w
  = (settle m
       (run_task env m (set_trace (trace w ++ [Ev_received m]) (set_broker rest w))).1
       (run_task env m (set_trace (trace w ++ [Ev_received m]) (set_broker rest w))).2).2.
Proof.
  intros Hq Hrev. unfold worker_step. rewrite Hq. cbn [revoked set_broker].
  rewrite decide_False by done.
  unfold bind, log, modify. cbn [trace set_broker].
  by destruct (run_task env m _).
Qed.

(** One turn of the worker on a report whose generator raises, where the
    database accepts the new retry count. *)
Lemma worker_step_failed_attempt w m rest pk r :
  broker w = m :: rest ->
  msg_sig m = mkSignature T_generate_report [VStr pk] ->
  msg_id m ∉ revoked w ->
  refuses_select_for_update w = false ->
  reports w !! pk = Some r ->
  integer_error (vendor (connection w)) (Report.retry_count r + 1) = None ->
  always_throws env (Report.report_type r) (Report.parameters r) ->
  exists w' r' e evs,
    worker_step env w = w'
    /\ reports w' = <[pk := r']> (reports w)
    /\ static r' = static r
    /\ Report.status r' = Report.FAILED
    /\ Report.retry_count r' = Report.retry_count r + 1
    /\ revoked w' = revoked w
    /\ connection w' = connection w
    /\ worker_events evs = []
    /\ status_writes pk evs = [Report.PROCESSING; Report.FAILED]
    /\ trace w'
       = trace w ++ Ev_received m :: evs
           ++ [if (msg_retries m <? 3)%nat
               then Ev_retry (msg_id m) e (S (msg_retries m)) 60
               else Ev_failed (msg_id m) e]
    /\ broker w'
       = rest ++ (if (msg_retries m <? 3)%nat
                  then [mkMessage (msg_id m) (msg_sig m) (S (msg_retries m))
                          60 (msg_chain m)]
                  else []).
Proof.
  intros Hq Hsig Hrev Hsfu Hr Hie Hthrows.
  rewrite (worker_step_run w m rest Hq Hrev).
  unfold run_task. rewrite Hsig. cbn [sig_task sig_args].
  set (self := mkRequest (msg_id m) (msg_retries m)).
  set (w1 := set_trace _ _).
  destruct (generate_report_attempt env self pk w1 r Hsfu Hr)
    as (f2 & oh & f3 & r' & evs & ps & Hinv & _ & Hrun & Hrows & Hst & Hout
        & Htr & Hwk & Hsv & Hpw & Hso & Hoh).
  destruct (Hthrows self f2) as (e & f' & Hraise & Hne).
  rewrite Hraise in Hrun. injection Hrun as <- <-.
  assert (is_timeout e = false) as Hto by (by destruct e).
  unfold ending, attempt_error in Hoh. rewrite Hto in Hoh.
  change (connection w1) with (connection w) in Hoh. rewrite Hie in Hoh.
  destruct Hoh as (Hbr & Hnx & Ho & Hstatus & Hretry & Herr & Hsw).
  destruct (run_frame (generate_report env self pk) w1) as [o w2].
  simpl in Ho, Hrows, Hout, Htr, Hbr, Hnx. subst o.
  eexists _, r', e, evs. split; [reflexivity|].
  unfold settle. rewrite Hsig. cbn [sig_task autoretry max_retries fst snd].
  unfold retry_countdown. cbn [retry_backoff countdown].
  unfold outside in Hout. subst w1. simpl in *.
  destruct (msg_retries m <? 3)%nat; cbn;
    rewrite ?Htr, ?Hbr, <- ?app_assoc; split_and!; try done.
  all: try (by injection Hout).
  by rewrite app_nil_r.
Qed.

End WorkerFacts.

Section Retries.
Variables (env : Environment).

Lemma worker_step_idle w : broker w = [] -> worker_step env w = w.
Proof. intros H. unfold worker_step. by rewrite H. Qed.

Lemma run_worker_idle n w : broker w = [] -> run_worker env n w = w.
Proof.
  intros H. unfold run_worker.
  induction n as [|n IH]; [done|]. simpl. rewrite IH. by apply worker_step_idle.
Qed.

Lemma run_worker_succ n w :
  run_worker env (S n) w = run_worker env n (worker_step env w).
Proof. unfold run_worker. apply Nat.iter_succ_r. Qed.

Lemma run_worker_add n k w :
  run_worker env (n + k) w = run_worker env n (run_worker env k w).
Proof. unfold run_worker. apply Nat.iter_add. Qed.

(** A report whose generator always raises, on a database that lets the
    task fetch its row and has room for the retry counts, from the attempt
    with [request.retries = 3 - d] on: [d] more retries are made, each
    asked with a delay of 60 seconds, and the last attempt is final. *)
Lemma failed_attempts d : forall w m pk r,
  (msg_retries m + d = 3)%nat ->
  broker w = [m] ->
  msg_sig m = mkSignature T_generate_report [VStr pk] ->
  msg_id m ∉ revoked w ->
  refuses_select_for_update w = false ->
  reports w !! pk = Some r ->
  -2147483648 <= Report.retry_count r ->
  Report.retry_count r + Z.of_nat (S d) <= 2147483647 ->
  always_throws env (Report.report_type r) (Report.parameters r) ->
  exists r',
    reports (run_worker env (S d) w) !! pk = Some r'
    /\ Report.status r' = Report.FAILED
    /\ Report.retry_count r' = Report.retry_count r + Z.of_nat (S d)
    /\ broker (run_worker env (S d) w) = []
    /\ retries_of (msg_id m) (trace (run_worker env (S d) w))
       = retries_of (msg_id m) (trace w)
           ++ ((fun i => (i, 60)) <$> seq (S (msg_retries m)) d)
    /\ length (received (trace (run_worker env (S d) w)))
       = (length (received (trace w)) + S d)%nat.
Proof.
  induction d as [|d IH]; intros w m pk r Hd Hq Hsig Hrev Hsfu Hr Hlo Hhi Hthrows;
    rewrite run_worker_succ;
    destruct (worker_step_failed_attempt env w m [] pk r Hq Hsig Hrev Hsfu Hr
                ltac:(apply integer_error_small; lia) Hthrows)
      as (w1 & r1 & e & evs & -> & Hrows & Hst & Hstatus & Hretry & Hrevoked
          & Hconn & Hwk & Hsw & Htr & Hbr).
  - replace (msg_retries m <? 3)%nat with false in *
      by (symmetry; apply Nat.ltb_ge; lia).
    simpl in Hbr. rewrite run_worker_idle by done.
    exists r1. rewrite Hrows, lookup_insert_eq, Htr.
    rewrite !retries_of_app, !received_app. simpl.
    rewrite retries_of_app, received_app, (retries_of_quiet _ _ Hwk),
      (received_quiet _ Hwk). simpl.
    rewrite !app_nil_r, length_app. simpl. split_and!; try done; lia.
  - replace (msg_retries m <? 3)%nat with true in *
      by (symmetry; apply Nat.ltb_lt; lia).
    simpl in Hbr.
    set (m1 := mkMessage _ _ _ _ _) in Hbr.
    assert (Hr1 : reports w1 !! pk = Some r1)
      by (by rewrite Hrows, lookup_insert_eq).
    assert (Hthrows1 : always_throws env (Report.report_type r1)
                         (Report.parameters r1)).
    { unfold static in Hst. by injection Hst as _ -> ->. }
    destruct (IH w1 m1 pk r1) as (r' & Hr' & Hs' & Hc' & Hb' & Hret' & Hrec');
      [simpl; lia | done | done | by rewrite Hrevoked
      | unfold refuses_select_for_update in *; by rewrite Hconn | done
      | lia | lia | done |].
    exists r'. subst m1. cbn [msg_id msg_retries] in Hret'.
    rewrite Hret', Hrec', Htr.
    rewrite !retries_of_app, !received_app. simpl.
    rewrite retries_of_app, received_app, (retries_of_quiet _ _ Hwk),
      (received_quiet _ Hwk). simpl.
    rewrite N.eqb_refl, !length_app. simpl.
    rewrite <- app_assoc. split_and!; try done; lia.
Qed.

End Retries.

(** ** Attempts that fail before their first write *)

(** A task that raises the same exception whenever it is run, leaving the
    world as it was but for task events in the log. *)
Section Stuck.
Variables (env : Environment) (tid : TaskId) (sg : Signature)
          (p : RetryPolicy) (e : Exn) (I : World -> Prop).

Hypothesis Hpolicy : autoretry (sig_task sg) = Some p.
Hypothesis Hrest : forall w w', at_rest w' = at_rest w -> I w -> I w'.
Hypothesis Hraise :
  forall m w,
    I w -> msg_id m = tid -> msg_sig m = sg ->
    exists w' tevs,
      run_task env m w = (Raise e, w')
      /\ at_rest w' = at_rest w
      /\ broker w' = broker w
      /\ trace w' = trace w ++ tevs
      /\ worker_events tevs = [].

(** One turn on such a message: a retry while some are left, the failure
    otherwise. *)
Lemma stuck_step w m rest :
  broker w = m :: rest -> msg_id m = tid -> msg_sig m = sg ->
  tid ∉ revoked w -> I w ->
  at_rest (worker_step env w) = at_rest w
  /\ broker (worker_step env w)
     = rest ++ (if (msg_retries m <? max_retries p)%nat
                then [mkMessage tid sg (S (msg_retries m))
                        (retry_countdown p (msg_retries m)) (msg_chain m)]
                else [])
  /\ received (trace (worker_step env w)) = received (trace w) ++ [m]
  /\ retries_of tid (trace (worker_step env w))
     = retries_of tid (trace w)
         ++ (if (msg_retries m <? max_retries p)%nat
             then [(S (msg_retries m), retry_countdown p (msg_retries m))]
             else [])
  /\ failures (trace (worker_step env w))
     = failures (trace w)
         ++ (if (msg_retries m <? max_retries p)%nat then [] else [(tid, e)])
  /\ successes (trace (worker_step env w)) = successes (trace w).
Proof.
  intros Hq Hid Hsig Hrev HI.
  rewrite (worker_step_run env w m rest Hq) by (by rewrite Hid).
  destruct (Hraise m (set_trace (trace w ++ [Ev_received m]) (set_broker rest w)))
    as (w' & tevs & -> & Hr & Hb & Ht & Hq'); [|done|done|].
  { by apply (Hrest w). }
  cbn [fst snd]. unfold settle. rewrite Hsig, Hpolicy, Hid.
  cbn [broker trace set_trace set_broker] in Hb, Ht.
  destruct (msg_retries m <? max_retries p)%nat;
    cbv [bind log modify ret fst snd];
    cbn [at_rest connection products orders order_items order_status_history reports
         cache revoked next_task_id clock now broker trace set_trace
         set_broker];
    rewrite ?Hb, ?Ht, <- ?app_assoc, !received_app, !retries_of_app,
      !failures_app, !successes_app, (received_quiet tevs Hq'),
      (retries_of_quiet _ tevs Hq'), (failures_quiet tevs Hq'),
      (successes_quiet tevs Hq');
    simpl; rewrite ?N.eqb_refl, ?app_nil_r; by split_and!.
Qed.

(** The message is retried as long as the policy allows, then given up,
    and nothing but the log has changed. *)
Lemma stuck_attempts d : forall w m,
  (msg_retries m + d = max_retries p)%nat ->
  broker w = [m] -> msg_id m = tid -> msg_sig m = sg ->
  tid ∉ revoked w -> I w ->
  at_rest (run_worker env (S d) w) = at_rest w
  /\ broker (run_worker env (S d) w) = []
  /\ length (received (trace (run_worker env (S d) w)))
     = (length (received (trace w)) + S d)%nat
  /\ retries_of tid (trace (run_worker env (S d) w))
     = retries_of tid (trace w)
         ++ ((fun i => (S i, retry_countdown p i)) <$> seq (msg_retries m) d)
  /\ failures (trace (run_worker env (S d) w)) = failures (trace w) ++ [(tid, e)]
  /\ successes (trace (run_worker env (S d) w)) = successes (trace w).
Proof.
  induction d as [|d IH]; intros w m Hd Hq Hid Hsig Hrev HI;
    destruct (stuck_step w m [] Hq Hid Hsig Hrev HI)
      as (Hr & Hb & Hrc & Hrt & Hf & Hs).
  - assert ((msg_retries m <? max_retries p)%nat = false) as Hlt
      by (apply Nat.ltb_ge; lia).
    rewrite Hlt in *. simpl.
    rewrite Hr, Hb, Hrc, Hrt, Hf, Hs, length_app, app_nil_r. by split_and!.
  - assert ((msg_retries m <? max_retries p)%nat = true) as Hlt
      by (apply Nat.ltb_lt; lia).
    rewrite Hlt in *. rewrite run_worker_succ.
    destruct (IH (worker_step env w)
                (mkMessage tid sg (S (msg_retries m))
                   (retry_countdown p (msg_retries m)) (msg_chain m)))
      as (Hr' & Hb' & Hrc' & Hrt' & Hf' & Hs'); simpl; try done; try lia.
    { assert (revoked (worker_step env w) = revoked w) as ->; [|done].
      unfold at_rest in Hr. by injection Hr. }
    { by apply (Hrest w). }
    simpl in *.
    rewrite Hr', Hb', Hrc', Hrt', Hf', Hs', Hr, Hrc, Hrt, Hf, Hs, length_app,
      app_nil_r, <- app_assoc.
    split_and!; try done. simpl. lia.
Qed.

End Stuck.

(** ** Order processing *)

(** Where the backend refuses [select_for_update()], [process_order]
    raises at its first query, whatever the order id. *)
Lemma process_order_refused self order_id w :
  refuses_select_for_update w = true ->
  process_order self order_id w
  = (Raise (TransactionManagementError
              "select_for_update cannot be used outside of a transaction."),
     w).
Proof.
  intros H.
  cbv [process_order try_except bind Order_select_for_update_get
       select_for_update raise].
  by rewrite H.
Qed.

Lemma process_order_skipped self order_id order w :
  refuses_select_for_update w = false ->
  orders w !! order_id = Some order ->
  already_processed (Order.status order) = true ->
  process_order self order_id w = (Return order_skipped, w).
Proof.
  intros H Ho Hs.
  cbv [process_order try_except bind Order_select_for_update_get
       select_for_update Order_get ret].
  by rewrite H, Ho, Hs.
Qed.

Lemma process_order_not_found self order_id w :
  refuses_select_for_update w = false ->
  orders w !! order_id = None ->
  process_order self order_id w = (Return order_not_found, w).
Proof.
  intros H Ho.
  cbv [process_order try_except bind Order_select_for_update_get
       select_for_update Order_get ret].
  by rewrite H, Ho.
Qed.

Lemma hoare_for_each {S A} (I : S -> Prop) (xs : list A) (body : A -> M S unit) :
  (forall x, hoare I (body x) (fun _ s => I s)) ->
  hoare I (for_each xs body) (fun _ s => I s).
Proof.
  intros Hbody. induction xs as [|x xs IH]; simpl.
  - by apply hoare_ret.
  - eapply hoare_bind with (R := fun _ => I); [|done].
    eapply hoare_consequence; [apply Hbody | done |]. by intros [].
Qed.

Lemma hoare_atomic {S A} (P : S -> Prop) restore (body : M S A)
    (Q : Outcome A -> S -> Prop) :
  (forall s0, P s0 ->
     hoare (fun s => s = s0) body
       (fun o s => match o with
                   | Return a => Q (Return a) s
                   | Raise e => Q (Raise e) (restore s0 s)
                   end)) ->
  hoare P (atomic restore body) Q.
Proof.
  intros H s Hs. specialize (H s Hs s eq_refl). unfold atomic.
  by destruct (body s) as [[a|e] s'].
Qed.

Lemma hoare_transaction_atomic {A} (P : World -> Prop) (body : M World A)
    (Q : Outcome A -> World -> Prop) :
  (forall s0, P s0 ->
     hoare (fun s => s = set_connection
                          (mkConnection (vendor (connection s0)) false) s0)
       body
       (fun o s =>
          match o with
          | Return a => Q (Return a) (set_connection (connection s0) s)
          | Raise e =>
              Q (Raise e)
                (set_connection (connection s0)
                   (rollback
                      (set_connection
                         (mkConnection (vendor (connection s0)) false) s0)
                      s))
          end)) ->
  hoare P (transaction_atomic body) Q.
Proof.
  intros H s Hs. specialize (H s Hs _ eq_refl).
  unfold transaction_atomic, atomic.
  by destruct (body _) as [[a|e] s'].
Qed.

(** The validation loop leaves the world as it is. *)
Lemma validation_loop (rows : list (OrderItem.t * Product.t)) (w : World) :
  (for_each rows
     (fun '(item, product) =>
        if Product.stock_quantity product <? OrderItem.quantity item
        then raise (ValueError ("Insufficient stock for " +:+ Product.name product))
        else ret tt) w).2 = w.
Proof.
  induction rows as [|[item product] rows IH]; [done|]. simpl. unfold bind.
  destruct (_ <? _); simpl; [done|]. by destruct (for_each rows _ w) as [[[]|e] w'].
Qed.

Section OrderChain.
Variables (self : Request) (order_id : Z) (w : World).

#[local] Abbreviation unpublished := (unpublished w).
#[local] Abbreviation transaction_done := (transaction_done order_id w).
#[local] Abbreviation order_outcome := (order_outcome order_id w).

Lemma unpublished_refl : unpublished w.
Proof. split_and!; try done. exists []. by rewrite app_nil_r. Qed.

Lemma unpublished_update_state st meta :
  hoare unpublished (update_state self st meta) (fun _ s => unpublished s).
Proof.
  intros s (Hb & Hn & Hr & tevs & Ht & Hq). split_and!; try done.
  exists (tevs ++ [Ev_update_state (req_id self) st meta]). simpl.
  by rewrite Ht, app_assoc, worker_events_app, Hq.
Qed.

Lemma unpublished_save_stock pk product :
  hoare unpublished (Product_save_stock pk product) (fun _ s => unpublished s).
Proof.
  intros s Hs. unfold Product_save_stock.
  destruct (integers_error _ _); [done|]. by destruct (products s !! pk).
Qed.

Lemma unpublished_rollback s0 s :
  unpublished s -> unpublished (rollback s0 s).
Proof. done. Qed.

Lemma unpublished_connection c s :
  unpublished s -> unpublished (set_connection c s).
Proof. done. Qed.

Lemma transaction_spec (order : Order.t) :
  hoare unpublished
    (transaction_atomic
       (let! rows := order_items_select_related_product order_id in
        for_each rows
          (fun '(item, product) =>
             if Product.stock_quantity product <? OrderItem.quantity item
             then raise (ValueError
                           ("Insufficient stock for " +:+ Product.name product))
             else ret tt) >>
        update_state self "PROCESSING"
          (VDict [("step", VStr "updating_inventory")]) >>
        let! rows := order_items_select_related_product order_id in
        for_each rows
          (fun '(item, product) =>
             let product :=
               Product.set_stock_quantity
                 (Product.stock_quantity product - OrderItem.quantity item)
                 product in
             let product :=
               Product.set_sales_count
                 (Product.sales_count product + OrderItem.quantity item)
                 product in
             Product_save_stock (OrderItem.product item) product) >>
        update_state self "PROCESSING"
          (VDict [("step", VStr "updating_order")]) >>
        let order := Order.set_status Order.PROCESSING order in
        Order_save_status order_id order >>
        OrderStatusHistory_create
          (OrderStatusHistory.mk order_id Order.PROCESSING
             "Order processing started")))
    transaction_done.
Proof.
  apply hoare_transaction_atomic. intros s0 Hs0.
  eapply hoare_consequence with
    (P' := unpublished)
    (Q' := fun o s => unpublished s /\ match o with
                                       | Return _ => transaction_done o s
                                       | Raise _ => True
                                       end).
  2: { intros s ->. by apply unpublished_connection. }
  2: { intros [[]|e] s [Hs Ho].
       - destruct Ho as [_ Ho]. split; [by apply unpublished_connection|].
         done.
       - split; [|done].
         by apply unpublished_connection, unpublished_rollback. }
  assert (Hkeep : forall {A} (m : M World A),
             hoare unpublished m (fun _ s => unpublished s) ->
             hoare unpublished m
               (fun o s => match o with
                           | Return _ => unpublished s
                           | Raise _ => unpublished s /\ True
                           end)).
  { intros A m Hm. eapply hoare_consequence; [apply Hm | done |].
    by intros [a|e] s Hs. }
  eapply hoare_bind with (R := fun _ => unpublished).
  { apply Hkeep. by intros s Hs. }
  intros rows. eapply hoare_bind with (R := fun _ => unpublished).
  { apply Hkeep. apply hoare_for_each. intros [item product].
    destruct (_ <? _); by intros s Hs. }
  intros _. eapply hoare_bind with (R := fun _ => unpublished).
  { apply Hkeep, unpublished_update_state. }
  intros _. eapply hoare_bind with (R := fun _ => unpublished).
  { apply Hkeep. by intros s Hs. }
  intros rows'. eapply hoare_bind with (R := fun _ => unpublished).
  { apply Hkeep. apply hoare_for_each. intros [item product].
    apply unpublished_save_stock. }
  intros _. eapply hoare_bind with (R := fun _ => unpublished).
  { apply Hkeep, unpublished_update_state. }
  intros _.
  eapply hoare_bind with
    (R := fun _ s => transaction_done (Return tt) s).
  { intros s Hs. unfold Order_save_status.
    destruct (orders s !! order_id) as [row|]; simpl; [|done].
    split; [done|]. eexists. cbn. by rewrite lookup_insert_eq. }
  intros _ s [Hs Ho]. simpl. split; [|split]; try done.
Qed.

(** The queue after [process_order]: the follow-up chain is on it exactly
    when the task returned success, and then the order has been moved to
    processing; in any case the task has published at most this one
    message. *)
Lemma process_order_outcome :
  hoare (fun s => s = w) (process_order self order_id)
    (fun o s => order_outcome o s /\ published w s).
Proof.
  unfold process_order.
  apply hoare_try_except
    with (R := fun e s => broker s = broker w /\ published w s);
    [|by intros e s Hs].
  assert (Hsame : published w w).
  { split_and!; [done | exists []; by rewrite app_nil_r | by left]. }
  assert (Hkept : forall s, unpublished s -> published w s).
  { intros s (Hb & Hn & Hr & Ht). split_and!; [done | done | by left]. }
  eapply hoare_bind with (R := fun found s => s = w).
  { intros s ->.
    cbv [try_except bind Order_select_for_update_get select_for_update
         Order_get ret raise fst snd].
    destruct (refuses_select_for_update w); [by split|].
    by destruct (orders w !! order_id). }
  intros [o|]; [|by apply hoare_ret; intros s ->].
  destruct (already_processed (Order.status o));
    [by apply hoare_ret; intros s ->|].
  eapply hoare_bind with (R := fun _ => unpublished).
  { eapply hoare_consequence; [apply unpublished_update_state | |].
    - intros s ->. apply unpublished_refl.
    - intros [[]|e] s Hs; [done|]. split; [by destruct Hs | by apply Hkept]. }
  intros _. eapply hoare_bind with
    (R := fun _ s => transaction_done (Return tt) s).
  { eapply hoare_consequence; [apply transaction_spec | done |].
    intros [[]|e] s [Hs Ho]; [done|]. split; [by destruct Hs | by apply Hkept]. }
  intros _. eapply hoare_bind with
    (R := fun _ s => transaction_done (Return tt) s).
  { by intros s [Hs Ho]. }
  intros _. eapply hoare_bind with
    (R := fun _ s => order_outcome
                       (Return (VDict [("status", VStr "success")])) s
                     /\ published w s).
  { intros s [(Hb & Hn & Hr & Ht) Ho]. simpl. rewrite Hb, Hn.
    split; [by split|]. unfold published. cbn. rewrite ?Hb, ?Hn.
    split_and!; [done | done |]. right. by eexists. }
  intros _. by apply hoare_ret.
Qed.

End OrderChain.

(** ** What a task does to the queue *)

Lemma published_refl w : published w w.
Proof. split_and!; [done | exists []; by rewrite app_nil_r | by left]. Qed.

(** Every task body publishes at most one message, under the next id,
    revokes nothing and logs task events only. *)
Lemma run_task_published env m w : published w (run_task env m w).2.
Proof.
  unfold run_task.
  destruct (sig_task (msg_sig m)), (sig_args (msg_sig m)) as [|[] []];
    try apply published_refl.
  - (* process_order *)
    match goal with
    | |- context [process_order ?self ?order_id w] =>
        apply (process_order_outcome self order_id w w eq_refl)
    end.
  - (* send_order_confirmation *)
    cbv [send_order_confirmation try_except bind Order_get cache_set modify ret].
    destruct (orders w !! _); [|apply published_refl].
    split_and!; [done | exists []; by rewrite app_nil_r | by left].
  - (* notify_warehouse *)
    cbv [notify_warehouse try_except bind Order_get ret].
    destruct (orders w !! _); apply published_refl.
  - (* generate_report *)
    match goal with
    | |- context [generate_report env ?self ?pk] =>
        set (self0 := self); set (pk0 := pk)
    end.
    destruct (refuses_select_for_update w) eqn:Hsfu.
    { rewrite generate_report_refused by done. apply published_refl. }
    destruct (reports w !! pk0) as [r|] eqn:Hr.
    2: { rewrite generate_report_missing by done. apply published_refl. }
    destruct (generate_report_attempt env self0 pk0 w r Hsfu Hr)
      as (f2 & oh & f3 & r' & evs & ps & _ & _ & _ & _ & _ & Hout & Htr & Hwk
          & _ & _ & _ & Hend).
    split_and!.
    + unfold outside in Hout. by injection Hout.
    + by exists evs.
    + unfold ending in Hend.
      destruct (attempt_error _ _ _) as [e|].
      * left. by destruct Hend as (? & ? & _).
      * destruct oh as [result|]; [|done]. right.
        destruct Hend as (_ & _ & _ & _ & _ & _ & _ & Hb & Hn).
        by eexists.
  - (* post_process_report *)
    cbv [post_process_report try_except bind Report_get ret raise].
    destruct (reports w !! _); apply published_refl.
  - (* send_report_notification *)
    cbv [send_report_notification try_except bind Report_get ret raise].
    destruct (reports w !! _); apply published_refl.
Qed.

(** ** Chains in the log *)

Lemma finished_app tr1 tr2 : finished (tr1 ++ tr2) = finished tr1 ++ finished tr2.
Proof. unfold finished. by rewrite omap_app. Qed.

Lemma dispatches_app tr1 tr2 :
  dispatches (tr1 ++ tr2) = dispatches tr1 ++ dispatches tr2.
Proof. unfold dispatches. by rewrite omap_app. Qed.

Lemma finished_quiet tr : worker_events tr = [] -> finished tr = [].
Proof.
  induction tr as [|ev tr IH]; [done|].
  destruct ev; simpl; try done; intros H; by apply IH.
Qed.

(** One more event keeps the links after their successes, when it is not
    a link or follows the success of its task. *)
Lemma links_snoc tr ev :
  links_follow_success tr ->
  (forall tid next_id, ev = Ev_dispatched tid next_id -> tid ∈ (successes tr).*1) ->
  links_follow_success (tr ++ [ev]).
Proof.
  intros Htr Hev tr1 tr2 tid next_id Heq.
  destruct tr2 as [|x tr2 _] using rev_ind.
  - apply app_inj_tail in Heq as [-> ->]. by eapply Hev.
  - rewrite app_comm_cons, app_assoc in Heq.
    apply app_inj_tail in Heq as [-> _]. by eapply Htr.
Qed.

Lemma links_app_quiet tevs : forall tr,
  links_follow_success tr -> worker_events tevs = [] ->
  links_follow_success (tr ++ tevs).
Proof.
  induction tevs as [|ev tevs IH]; intros tr Htr Hq.
  - by rewrite app_nil_r.
  - replace (tr ++ ev :: tevs) with ((tr ++ [ev]) ++ tevs)
      by (by rewrite <- app_assoc).
    apply IH.
    + apply links_snoc; [done|]. intros tid next_id ->. done.
    + by destruct ev.
Qed.

Lemma fresh_ids_add t k1 k2 :
  fresh_ids t (k1 + k2)
  = fresh_ids t k1 ++ fresh_ids (t + N.of_nat k1)%N k2.
Proof.
  unfold fresh_ids. rewrite seq_app, fmap_app. f_equal. simpl.
  replace (seq k1 k2) with (Nat.add k1 <$> seq 0 k2)
    by (rewrite fmap_add_seq; f_equal; lia).
  rewrite <- list_fmap_compose.
  apply list_fmap_ext. intros _ i _. simpl. lia.
Qed.

Lemma elem_of_fresh_ids t k x :
  x ∈ fresh_ids t k <-> (t <= x < t + N.of_nat k)%N.
Proof.
  unfold fresh_ids. rewrite list_elem_of_fmap. split.
  - intros (i & -> & Hi). apply elem_of_seq in Hi. lia.
  - intros Hx. exists (N.to_nat (x - t)). split; [lia|].
    apply elem_of_seq. lia.
Qed.

Lemma NoDup_fresh_ids t k : NoDup (fresh_ids t k).
Proof.
  unfold fresh_ids. apply NoDup_fmap_2; [|apply NoDup_seq].
  intros i j Hij. lia.
Qed.

(** Ids in use stay distinct, and below the next id, when fresh ones are
    taken. *)
Lemma tasks_fresh (l l' : list TaskId) (t t' : TaskId) (k : nat) :
  l' ≡ₚ l ++ fresh_ids t k ->
  t' = (t + N.of_nat k)%N ->
  NoDup l -> Forall (fun x => (x < t)%N) l ->
  NoDup l' /\ Forall (fun x => (x < t')%N) l'.
Proof.
  intros Hp -> Hnd Hlt. rewrite Hp. split.
  - apply NoDup_app. split_and!; [done | | apply NoDup_fresh_ids].
    intros x Hx Hf. apply elem_of_fresh_ids in Hf.
    rewrite Forall_forall in Hlt. specialize (Hlt x Hx). lia.
  - apply Forall_app. split.
    + eapply Forall_impl; [done|]. intros x Hx. simpl in Hx. lia.
    + apply Forall_forall. intros x Hx. apply elem_of_fresh_ids in Hx. lia.
Qed.

Lemma perm_finish (x : TaskId) (A F : list TaskId) :
  A ++ F ++ [x] ≡ₚ x :: A ++ F.
Proof. rewrite (assoc_L (++)). symmetry. apply Permutation_cons_append. Qed.

Lemma perm_dispatch (x n : TaskId) (A F : list TaskId) :
  (A ++ [n]) ++ F ++ [x] ≡ₚ x :: (A ++ F) ++ [n].
Proof.
  rewrite <- !(assoc_L (++)). simpl.
  rewrite <- (Permutation_cons_append F x), <- (Permutation_cons_append F n).
  rewrite <- !Permutation_middle. apply perm_swap.
Qed.

Lemma perm_retry (x : TaskId) (A F : list TaskId) :
  (A ++ [x]) ++ F ≡ₚ x :: A ++ F.
Proof. rewrite <- !(assoc_L (++)). simpl. by rewrite <- Permutation_middle. Qed.

Lemma perm_publish (n : TaskId) (R F G : list TaskId) :
  ((R ++ [n]) ++ F) ++ G ≡ₚ (R ++ F) ++ n :: G.
Proof.
  rewrite <- !(assoc_L (++)). simpl. f_equiv. by rewrite Permutation_middle.
Qed.

Lemma fresh_ids_S t k : fresh_ids t (S k) = t :: fresh_ids (N.succ t) k.
Proof.
  change (S k) with (1 + k)%nat. rewrite fresh_ids_add. simpl.
  rewrite N.add_0_r. do 2 f_equal. lia.
Qed.

Section Turn.
Variable env : Environment.

(** What the worker does with the outcome of the task of message [m]:
    the id of [m] is queued again or finished, at most one id is taken
    for the next link, and a link is logged after the success. *)
Lemma settle_tasks m o w1 :
  exists k,
    tasks (settle m o w1).2
    ≡ₚ msg_id m :: tasks w1 ++ fresh_ids (next_task_id w1) k
    /\ next_task_id (settle m o w1).2 = (next_task_id w1 + N.of_nat k)%N
    /\ (links_follow_success (trace w1) ->
        links_follow_success (trace (settle m o w1).2)).
Proof.
  unfold settle, tasks.
  destruct o as [v|e].
  - destruct (msg_chain m) as [|next links].
    + exists 0%nat. cbv [log modify]. cbn.
      rewrite finished_app, N.add_0_r, app_nil_r. simpl.
      split_and!; [apply perm_finish | done |]. intros H. by apply links_snoc.
    + destruct (accepts _ _).
      * exists 1%nat. cbv [bind log modify publish ret]. cbn.
        rewrite !finished_app, fmap_app. simpl.
        rewrite N.add_0_r, !app_nil_r.
        split_and!; [apply perm_dispatch | lia |].
        intros H. apply links_snoc; [by apply links_snoc|].
        intros tid next_id [= <- <-]. rewrite successes_app, fmap_app.
        apply elem_of_app. right. simpl. by apply elem_of_cons; left.
      * exists 0%nat. cbv [log modify]. cbn.
        rewrite finished_app, N.add_0_r, app_nil_r. simpl.
        split_and!; [apply perm_finish | done |]. intros H. by apply links_snoc.
  - destruct (autoretry _) as [p|].
    + destruct (_ <? _)%nat.
      * exists 0%nat. cbv [bind log modify]. cbn.
        rewrite finished_app, fmap_app, N.add_0_r, !app_nil_r. simpl.
        split_and!; [apply perm_retry | done |]. intros H. by apply links_snoc.
      * exists 0%nat. cbv [log modify]. cbn.
        rewrite finished_app, N.add_0_r, app_nil_r. simpl.
        split_and!; [apply perm_finish | done |]. intros H. by apply links_snoc.
    + exists 0%nat. cbv [log modify]. cbn.
      rewrite finished_app, N.add_0_r, app_nil_r. simpl.
      split_and!; [apply perm_finish | done |]. intros H. by apply links_snoc.
Qed.

(** One turn of the worker: the ids in use are the same, with at most two
    fresh ones. *)
Lemma worker_step_tasks w :
  exists k,
    tasks (worker_step env w) ≡ₚ tasks w ++ fresh_ids (next_task_id w) k
    /\ next_task_id (worker_step env w) = (next_task_id w + N.of_nat k)%N
    /\ (links_follow_success (trace w) ->
        links_follow_success (trace (worker_step env w))).
Proof.
  destruct (broker w) as [|m rest] eqn:Hq.
  { exists 0%nat. rewrite worker_step_idle by done.
    by rewrite N.add_0_r, app_nil_r. }
  destruct (decide (msg_id m ∈ revoked w)) as [Hrev|Hrev].
  { exists 0%nat. unfold worker_step. rewrite Hq. cbn [revoked set_broker].
    rewrite decide_True by done. unfold tasks. cbv [log modify]. cbn.
    rewrite Hq, finished_app, N.add_0_r, app_nil_r. simpl.
    split_and!; [apply perm_finish | done |]. intros H. by apply links_snoc. }
  rewrite (worker_step_run env w m rest Hq Hrev).
  set (w0 := set_trace (trace w ++ [Ev_received m]) (set_broker rest w)).
  pose proof (run_task_published env m w0) as (_ & (tevs & Htr & Hquiet) & Hpub).
  destruct (run_task env m w0) as [o w1]. cbn [fst snd] in *.
  destruct (settle_tasks m o w1) as (k & Hp & Hn & Hl).
  assert (Hfin : finished (trace w1) = finished (trace w)).
  { rewrite Htr. subst w0. cbn. rewrite !finished_app, (finished_quiet tevs) by done.
    simpl. by rewrite !app_nil_r. }
  assert (Hlinks : links_follow_success (trace w) ->
                   links_follow_success (trace (settle m o w1).2)).
  { intros H. apply Hl. rewrite Htr. apply links_app_quiet; [|done].
    subst w0. cbn. by apply links_snoc. }
  destruct Hpub as [[Hb Hnx] | (x & Hb & Hx & Hnx)]; subst w0; cbn in Hb, Hnx.
  - exists k. rewrite Hp, Hn, Hnx. split_and!; [|done|done].
    unfold tasks. by rewrite Hb, Hfin, Hq.
  - exists (1 + k)%nat. rewrite Hp, Hn, Hnx. split_and!; [|lia|done].
    cbn in Hx. unfold tasks. rewrite Hb, Hfin, Hq, fmap_app. simpl. rewrite Hx.
    rewrite fresh_ids_S. f_equiv. apply perm_publish.
Qed.

Lemma worker_step_well_formed w :
  well_formed w -> well_formed (worker_step env w).
Proof.
  intros (Hnd & Hlt & Hl).
  destruct (worker_step_tasks w) as (k & Hp & Hn & Hlinks).
  destruct (tasks_fresh _ _ _ _ _ Hp Hn Hnd Hlt) as [Hnd' Hlt'].
  split_and!; [done | done | by apply Hlinks].
Qed.

Lemma run_worker_well_formed n w :
  well_formed w -> well_formed (run_worker env n w).
Proof.
  intros H. unfold run_worker. induction n as [|n IH]; [done|].
  simpl. by apply worker_step_well_formed.
Qed.

End Turn.

(** In a log of tasks that finish once, a task that succeeded has not
    failed. *)
Lemma succeeded_not_failed tr tid :
  NoDup (finished tr) -> tid ∈ (successes tr).*1 -> tid ∉ (failures tr).*1.
Proof.
  assert (Hs : forall tr t, t ∈ (successes tr).*1 -> t ∈ finished tr).
  { intros tr0 t. induction tr0 as [|ev tr0 IH]; [done|].
    destruct ev; simpl; try done; rewrite ?elem_of_cons; tauto. }
  assert (Hf : forall tr t, t ∈ (failures tr).*1 -> t ∈ finished tr).
  { intros tr0 t. induction tr0 as [|ev tr0 IH]; [done|].
    destruct ev; simpl; try done; rewrite ?elem_of_cons; tauto. }
  induction tr as [|ev tr IH]; [by rewrite elem_of_nil|].
  destruct ev; simpl; try done.
  - rewrite NoDup_cons. intros [Hn Hnd]. by apply IH.
  - rewrite NoDup_cons, !elem_of_cons. intros [Hn Hnd] [->|Hin]; [|by apply IH].
    intros Hin. by apply Hn, Hf.
  - rewrite NoDup_cons, !elem_of_cons. intros [Hn Hnd] Hin [->|Hin'].
    + by apply Hn, Hs.
    + by apply (IH Hnd Hin).
Qed.

(** ** Retries of a report whose generator always raises *)

Section NoTimeout.
Variable env : Environment.
Hypothesis broken :
  forall n, exists e, faults env n = Some e /\ e <> SoftTimeLimitExceeded.

Lemma integers_error_no_timeout v zs e :
  integers_error v zs = Some e -> e <> SoftTimeLimitExceeded.
Proof.
  induction zs as [|z zs IH]; [done|]. simpl.
  destruct (integer_error v z) as [e'|] eqn:He; [|done].
  intros [= <-]. unfold integer_error in He.
  by destruct v, (_ && _); simplify_eq.
Qed.

Lemma write_error_no_timeout v fields obj e :
  write_error v fields obj = Some e -> e <> SoftTimeLimitExceeded.
Proof.
  unfold write_error. destruct (_ && _); [by intros [= <-]|].
  apply integers_error_no_timeout.
Qed.

Lemma fails_bind {S A B} (m : M S A) (k : A -> M S B) :
  (forall s, no_timeout (m s).1) ->
  (forall a s, fails (k a s).1) ->
  forall s, fails (bind m k s).1.
Proof.
  intros Hm Hk s. specialize (Hm s). unfold bind.
  destruct (m s) as [[a|e] s']; [apply Hk | done].
Qed.

Lemma no_timeout_bind {S A B} (m : M S A) (k : A -> M S B) :
  (forall s, no_timeout (m s).1) ->
  (forall a s, no_timeout (k a s).1) ->
  forall s, no_timeout (bind m k s).1.
Proof.
  intros Hm Hk s. specialize (Hm s). unfold bind.
  destruct (m s) as [[a|e] s']; [apply Hk | done].
Qed.

Lemma no_timeout_update_state task st meta f :
  no_timeout (lift (update_state task st meta) f).1.
Proof. done. Qed.

Lemma no_timeout_set_attr upd f : no_timeout (set_attr upd f).1.
Proof. unfold set_attr. by destruct (report f) as [[]|]. Qed.

Lemma no_timeout_save fields f : no_timeout (save_update_fields fields f).1.
Proof.
  unfold save_update_fields, bind, the_report, lift, Report_save_update_fields.
  destruct (report f) as [[pk obj]|]; [|done]. simpl.
  destruct (write_error _ _ _) as [e|] eqn:He; simpl;
    [by eapply write_error_no_timeout|].
  by destruct (reports (world f) !! pk).
Qed.

Lemma no_timeout_the_report f : no_timeout (the_report f).1.
Proof. unfold the_report. by destruct (report f). Qed.

Lemma no_timeout_Report_save pk obj fields f :
  no_timeout (lift (Report_save_update_fields pk obj fields) f).1.
Proof.
  unfold lift, Report_save_update_fields.
  destruct (write_error _ _ _) as [e|] eqn:He; simpl;
    [by eapply write_error_no_timeout|].
  by destruct (reports (world f) !! pk).
Qed.

Lemma no_timeout_get_state f : no_timeout (lift get_state f).1.
Proof. done. Qed.

Lemma no_timeout_report_progress task p msg f :
  no_timeout (report_progress task p msg f).1.
Proof.
  unfold report_progress. revert f.
  repeat (apply no_timeout_bind; [|intros ?]); intros f;
    first [ apply no_timeout_update_state | apply no_timeout_set_attr
          | apply no_timeout_the_report | apply no_timeout_Report_save ].
Qed.

Lemma no_timeout_Order_filter s e f : no_timeout (lift (Order_filter s e) f).1.
Proof. by destruct s, e. Qed.

Lemma fails_db_query {A} (k : unit -> M Frame A) f :
  fails (bind (lift (db_query env)) k f).1.
Proof.
  unfold bind, lift, db_query.
  destruct (broken (clock (world f))) as (e & -> & He). done.
Qed.

Ltac fail_step :=
  first
    [ apply fails_db_query
    | apply fails_bind;
      [ first [ apply no_timeout_report_progress
              | apply no_timeout_update_state
              | apply no_timeout_set_attr
              | apply no_timeout_save
              | apply no_timeout_the_report
              | apply no_timeout_Report_save
              | apply no_timeout_get_state
              | apply no_timeout_Order_filter ]
      | intros ? ] ].

(** With a database that refuses every query, every generator raises. *)
Lemma broken_database_always_throws report_type parameters :
  always_throws env report_type parameters.
Proof.
  intros self f.
  assert (fails (generate_by_type env self report_type parameters f).1) as H.
  { destruct report_type; simpl; [..|done].
    - unfold _generate_sales_report. revert f. repeat fail_step.
    - unfold _generate_inventory_report. revert f. repeat fail_step.
    - unfold _generate_customers_report. revert f. repeat fail_step.
    - unfold _generate_orders_report. revert f. repeat fail_step.
    - unfold _generate_analytics_report. revert f. repeat fail_step. }
  destruct (generate_by_type env self report_type parameters f) as [[a|e] f'];
    [done|]. by exists e, f'.
Qed.
End NoTimeout.

Lemma offline_always_throws report_type parameters :
  always_throws offline report_type parameters.
Proof.
  apply broken_database_always_throws. intros n. by eexists.
Qed.

(** ** Status transitions *)

Lemma status_writes_other pk pk' evs :
  saves_only pk evs -> pk' <> pk -> status_writes pk' evs = [].
Proof.
  intros Hs Hne. induction Hs as [|ev evs Hev Hs IH]; [done|].
  destruct ev; simpl; try done. subst.
  destruct (String.eqb_spec pk pk'); [congruence|]. done.
Qed.

Lemma hoare_for_each_elem_of {S A} (I : S -> Prop) (xs : list A)
    (body : A -> M S unit) :
  (forall x, x ∈ xs -> hoare I (body x) (fun _ s => I s)) ->
  hoare I (for_each xs body) (fun _ s => I s).
Proof.
  induction xs as [|x xs IH]; intros Hbody; simpl.
  - by apply hoare_ret.
  - eapply hoare_bind with (R := fun _ => I).
    + eapply hoare_consequence; [apply Hbody; left | done |]. by intros [].
    + intros _. apply IH. intros y Hy. apply Hbody. by right.
Qed.

Lemma transitions_const op s X ws :
  Forall (fun s' => s' = X) ws ->
  (ws <> [] -> performed op s X = true) ->
  performed op X X = true ->
  Forall (fun t => performed op t.1 t.2 = true) (transitions s ws).
Proof.
  intros Hws. revert s. induction Hws as [|s' ws -> Hws IH]; intros s H1 H2;
    simpl; constructor.
  - by apply H1.
  - apply IH; [done | done].
Qed.

Section AdminLoops.
Variables (w : World) (pk : string) (X : Report.Status)
          (rows : list (string * Report.t)).

#[local] Abbreviation writing := (writing w pk X rows).

Lemma writing_start : writing w.
Proof. exists []. by rewrite app_nil_r. Qed.

Lemma writing_same_trace (s s' : World) :
  trace s' = trace s -> writing s -> writing s'.
Proof. intros Ht (evs & ? & ? & ?). exists evs. by rewrite Ht. Qed.

Lemma writing_save pk' obj fields :
  pk' ∈ rows.*1 ->
  Report.status obj = X ->
  (forall dst, Report.status (Report.copy_fields fields obj dst) = X) ->
  hoare writing (Report_save_update_fields pk' obj fields)
        (fun _ s => writing s).
Proof.
  intros Hin Hobj Hcopy s (evs & Htr & Hall & Hne).
  unfold Report_save_update_fields.
  destruct (write_error _ _ _); simpl; [by exists evs|].
  destruct (reports s !! pk') as [row|]; simpl; [|by exists evs].
  eexists (evs ++ [_]). split; [by rewrite Htr, app_assoc|].
  rewrite status_writes_app. simpl.
  destruct (String.eqb_spec pk' pk) as [->|Hpk]; simpl.
  - destruct (writes_status fields); simpl.
    + split; [|done]. apply Forall_app. split; [done|].
      constructor; [|done]. apply Hcopy.
    + rewrite app_nil_r. done.
  - rewrite app_nil_r. done.
Qed.
End AdminLoops.

Lemma selected_rows (queryset : list string) (keep : Report.t -> bool)
    (w : World) (rows : list (string * Report.t)) (pk : string) :
  rows = omap (fun pk : string => match reports w !! pk with
                         | Some r => if keep r then Some (pk, r) else None
                         | None => None
                         end) queryset ->
  pk ∈ rows.*1 ->
  exists r, reports w !! pk = Some r /\ keep r = true.
Proof.
  intros -> Hin. apply list_elem_of_fmap in Hin as ([pk' r] & -> & Hin).
  apply list_elem_of_omap in Hin as (pk'' & _ & Hsome).
  destruct (reports w !! pk'') as [r'|] eqn:Hr; [|done].
  destruct (keep r') eqn:Hk; [|done]. injection Hsome as -> ->. eauto.
Qed.

Section Transitions.
Variables (env : Environment) (w : World) (pk : string) (r : Report.t).
Hypothesis Hr : reports w !! pk = Some r.

(** A worker running [generate_report]: where the backend refuses its
    first query it writes no status; elsewhere it writes processing,
    whatever the status of the row, and then completed or failed, unless
    the handler cannot save the row. *)
Lemma worker_status_writes self pk0 :
  exists evs,
    trace (perform env (Op_worker self pk0) w) = trace w ++ evs
    /\ (status_writes pk evs = []
        \/ refuses_select_for_update w = false
           /\ pk0 = pk
           /\ (status_writes pk evs = [Report.PROCESSING]
               \/ status_writes pk evs = [Report.PROCESSING; Report.COMPLETED]
               \/ status_writes pk evs = [Report.PROCESSING; Report.FAILED])).
Proof.
  simpl.
  destruct (refuses_select_for_update w) eqn:Hsfu.
  { rewrite generate_report_refused by done. exists []. simpl.
    rewrite app_nil_r. by split; [|left]. }
  destruct (reports w !! pk0) as [r0|] eqn:Hr0.
  - destruct (generate_report_attempt env self pk0 w r0 Hsfu Hr0)
      as (f2 & oh & f3 & r' & evs & ps & _ & _ & _ & _ & _ & _ & Htr & _ & Hsv
          & _ & _ & Hoh).
    exists evs. split; [done|].
    destruct (decide (pk0 = pk)) as [->|Hne].
    + right. split_and!; [done | done |].
      unfold ending in Hoh.
      destruct (attempt_error _ _ _) as [e|].
      * destruct Hoh as (_ & _ & Hoh). destruct (is_timeout e).
        -- right. right. by destruct Hoh as (_ & _ & _ & _ & ?).
        -- destruct (integer_error _ _).
           ++ left. by destruct Hoh as (_ & _ & ?).
           ++ right. right. by destruct Hoh as (_ & _ & _ & _ & ?).
      * destruct oh; [|done]. right. left.
        by destruct Hoh as (_ & _ & _ & _ & _ & _ & ? & _).
    + left. by rewrite (status_writes_other pk0 pk evs).
  - rewrite generate_report_missing by done. exists []. simpl.
    rewrite app_nil_r. by split; [|left].
Qed.

Lemma worker_transitions self pk0 :
  exists evs,
    trace (perform env (Op_worker self pk0) w) = trace w ++ evs
    /\ Forall (fun t => performed (Op_worker self pk0) t.1 t.2 = true)
              (transitions (Report.status r) (status_writes pk evs)).
Proof.
  destruct (worker_status_writes self pk0) as (evs & Htr & Hsw).
  exists evs. split; [done|].
  destruct Hsw as [-> | (_ & _ & [-> | [-> | ->]])]; simpl;
    repeat constructor; simpl; by destruct (Report.status r).
Qed.

Lemma cancel_transitions pk0 :
  exists evs,
    trace (perform env (Op_cancel pk0) w) = trace w ++ evs
    /\ Forall (fun t => performed (Op_cancel pk0) t.1 t.2 = true)
              (transitions (Report.status r) (status_writes pk evs)).
Proof.
  simpl. unfold ReportViewSet.cancel, ReportViewSet.get_object, bind, Report_get.
  destruct (reports w !! pk0) as [r0|] eqn:Hr0;
    [|exists []; simpl; by rewrite app_nil_r].
  destruct (cancellable (Report.status r0)) eqn:Hc; simpl;
    [|exists []; simpl; by rewrite app_nil_r].
  unfold Report_save_update_fields, revoke, modify, ret.
  destruct (Report.celery_task_id r0); simpl; rewrite Hr0; simpl;
    (eexists [_]; split; [done|]); simpl;
    (destruct (String.eqb_spec pk0 pk) as [->|Hpk]; simpl; [|done]);
    rewrite Hr in Hr0; injection Hr0 as ->;
    destruct (Report.status r0); try done; by repeat constructor.
Qed.

Lemma admin_cancel_transitions queryset :
  exists evs,
    trace (perform env (Op_admin_cancel queryset) w) = trace w ++ evs
    /\ Forall (fun t => performed (Op_admin_cancel queryset) t.1 t.2 = true)
              (transitions (Report.status r) (status_writes pk evs)).
Proof.
  simpl. unfold ReportAdmin.cancel_reports, bind at 1, ReportAdmin.selected.
  set (rows := omap _ queryset).
  assert (hoare (writing w pk Report.CANCELLED rows)
            (for_each rows
               (fun '(pk, report) =>
                  match Report.celery_task_id report with
                  | Some task_id => revoke task_id
                  | None => ret tt
                  end >>
                  let report := Report.set_status Report.CANCELLED report in
                  Report_save_update_fields pk report [Report.F_status]))
            (fun _ s => writing w pk Report.CANCELLED rows s))
    as Hloop.
  { apply hoare_for_each_elem_of. intros [pk' r'] Hin.
    eapply hoare_bind with
      (R := fun _ => writing w pk Report.CANCELLED rows).
    - intros s Hs. destruct (Report.celery_task_id r'); simpl; [|done].
      by eapply writing_same_trace.
    - intros _. apply writing_save; [|done|done].
      apply list_elem_of_fmap. by exists (pk', r'). }
  specialize (Hloop w (writing_start _ _ _ _)).
  unfold bind at 1.
  destruct (for_each rows _ w) as [o w'] eqn:Hfe.
  destruct Hloop as (evs & Htr & Hall & Hin).
  exists evs. split; [by destruct o|].
  apply transitions_const with (X := Report.CANCELLED); [done| |done].
  intros Hne. destruct (selected_rows queryset _ w rows pk eq_refl (Hin Hne))
    as (r' & Hr' & Hk). rewrite Hr in Hr'. injection Hr' as <-.
  by destruct (Report.status r).
Qed.

Lemma manual_retry_transitions queryset :
  exists evs,
    trace (perform env (Op_manual_retry queryset) w) = trace w ++ evs
    /\ Forall (fun t => performed (Op_manual_retry queryset) t.1 t.2 = true)
              (transitions (Report.status r) (status_writes pk evs)).
Proof.
  simpl. unfold ReportAdmin.retry_failed_reports, bind at 1, ReportAdmin.selected.
  set (rows := omap _ queryset).
  assert (hoare (writing w pk Report.PENDING rows)
            (for_each rows
               (fun '(pk, report) =>
                  let report := Report.set_status Report.PENDING report in
                  let report := Report.set_error_message "" report in
                  Report_save_update_fields pk report
                    [Report.F_status; Report.F_error_message] >>
                  delay T_generate_report [VStr pk] >>
                  ret tt))
            (fun _ s => writing w pk Report.PENDING rows s))
    as Hloop.
  { apply hoare_for_each_elem_of. intros [pk' r'] Hin.
    eapply hoare_bind with
      (R := fun _ => writing w pk Report.PENDING rows).
    - eapply hoare_consequence;
        [apply writing_save with (pk' := pk') | done |].
      + apply list_elem_of_fmap. by exists (pk', r').
      + done.
      + done.
      + by intros [[]|e] s Hs.
    - intros _ s Hs. simpl. by eapply writing_same_trace. }
  specialize (Hloop w (writing_start _ _ _ _)).
  unfold bind at 1.
  destruct (for_each rows _ w) as [o w'] eqn:Hfe.
  destruct Hloop as (evs & Htr & Hall & Hin).
  exists evs. split; [by destruct o|].
  apply transitions_const with (X := Report.PENDING); [done| |done].
  intros Hne. destruct (selected_rows queryset _ w rows pk eq_refl (Hin Hne))
    as (r' & Hr' & Hk). rewrite Hr in Hr'. injection Hr' as <-.
  apply bool_decide_eq_true in Hk. by rewrite Hk.
Qed.

End Transitions.

(** ** The queue after a task *)

Lemma settle_broker m o w :
  broker (settle m o w).2
  = broker w ++ match o with
                | Return v => next_link m v (next_task_id w)
                | Raise _ => if will_retry m then retry_message m else []
                end.
Proof.
  unfold settle, next_link, will_retry, retry_message.
  destruct o as [v|e].
  - destruct (msg_chain m) as [|next rest]; simpl; [by rewrite app_nil_r|].
    destruct (accepts _ _); simpl; by rewrite ?app_nil_r.
  - destruct (autoretry _) as [p|]; simpl; [|by rewrite app_nil_r].
    destruct (_ <? _)%nat; simpl; by rewrite ?app_nil_r.
Qed.

(** The follow-up chain of [generate_report] is published only by a run
    that returns, after the report has been saved as completed. *)
Lemma generate_report_chain env self pk w :
  match (run_frame (generate_report env self pk) w).1 with
  | Return _ =>
      broker (run_frame (generate_report env self pk) w).2
      = broker w ++ [report_chain (next_task_id w) pk]
      /\ Report.status <$> reports (run_frame (generate_report env self pk) w).2 !! pk
         = Some Report.COMPLETED
  | Raise _ => broker (run_frame (generate_report env self pk) w).2 = broker w
  end.
Proof.
  destruct (refuses_select_for_update w) eqn:Hsfu.
  { by rewrite generate_report_refused. }
  destruct (reports w !! pk) as [r|] eqn:Hr.
  - destruct (generate_report_attempt env self pk w r Hsfu Hr)
      as (f2 & oh & f3 & r' & evs & ps & _ & _ & _ & Hrows & _ & _ & _ & _ & _
          & _ & _ & Hoh).
    unfold ending in Hoh.
    destruct (attempt_error _ _ _) as [e|].
    + destruct Hoh as (Hbr & _ & Hoh). destruct (is_timeout e).
      * by destruct Hoh as (-> & _).
      * destruct (integer_error _ _); by destruct Hoh as (-> & _).
    + destruct oh as [result|]; [|done].
      destruct Hoh as (-> & Hst & _ & _ & _ & _ & _ & Hbr & _).
      by rewrite Hbr, Hrows, lookup_insert_eq, <- Hst.
  - by rewrite generate_report_missing.
Qed.

(** ** Cancelling a report *)


(** ** Stock *)

Lemma validation_raises (rows : list (OrderItem.t * Product.t)) (w : World) :
  Exists (fun row => Product.stock_quantity row.2 < OrderItem.quantity row.1)
         rows ->
  exists msg,
    for_each rows
      (fun '(item, product) =>
         if Product.stock_quantity product <? OrderItem.quantity item
         then raise (ValueError ("Insufficient stock for " +:+ Product.name product))
         else ret tt) w
    = (Raise (ValueError msg), w).
Proof.
  induction rows as [|[item product] rows IH]; intros H; [by inversion H|].
  simpl. unfold bind.
  destruct (Z.ltb_spec (Product.stock_quantity product) (OrderItem.quantity item))
    as [Hlt|Hge]; simpl; [by eexists|].
  destruct IH as (msg & ->); [|by eexists].
  inversion H as [? ? Hhd|]; subst; [simpl in Hhd; lia | done].
Qed.


(** ** The sales report *)

Lemma in_range_in_period s e o : in_range s e o = true <-> in_period s e o.
Proof.
  unfold in_range, in_period.
  rewrite !andb_true_iff, !Z.leb_le, negb_true_iff. tauto.
Qed.

(** The rows the report reads are the orders of the period, in some
    order. *)
Lemma orders_in_range_period s e w :
  orders_in_range s e w ≡ₚ map_to_list (orders_in_period s e w).
Proof.
  unfold orders_in_range, orders_in_period. rewrite merge_sort_Permutation.
  apply NoDup_Permutation.
  - apply NoDup_filter, NoDup_map_to_list.
  - apply NoDup_map_to_list.
  - intros [k o]. rewrite list_elem_of_filter, !elem_of_map_to_list,
      map_lookup_filter_Some. simpl. rewrite in_range_in_period. tauto.
Qed.

Lemma length_orders_in_range s e w :
  Z.of_nat (length (orders_in_range s e w)) = order_count s e w.
Proof.
  unfold order_count.
  by rewrite (Permutation_length (orders_in_range_period s e w)),
    length_map_to_list.
Qed.

Lemma sum_total_permutation (l1 l2 : list (Z * Order.t)) :
  l1 ≡ₚ l2 -> sum_total l1 = sum_total l2.
Proof.
  induction 1 as [|x l1 l2 _ IH|x y l|l1 l2 l3 _ IH1 _ IH2]; simpl;
    [done | by rewrite IH | lia | congruence].
Qed.

Lemma sum_total_revenue s e w : sum_total (orders_in_range s e w) = revenue s e w.
Proof.
  unfold revenue. rewrite map_fold_foldr.
  rewrite (sum_total_permutation _ _ (orders_in_range_period s e w)).
  unfold sum_total. generalize (map_to_list (orders_in_period s e w)).
  induction l as [|[k o] l IH]; simpl; [done | by rewrite IH].
Qed.

Section Sales.
Variables (env : Environment).

Ltac run :=
  cbv [_generate_sales_report report_progress try_except bind lift
       set_attr save_update_fields the_report Order_filter db_query get_state
       Report_save_update_fields update_state log modify ret raise
       world report fst snd].

Lemma sales_report_run task parameters w0 pk obj row s e :
  reports w0 !! pk = Some row ->
  Report.start_date parameters = Some s ->
  Report.end_date parameters = Some e ->
  faults env (clock w0) = None ->
  faults env (S (clock w0)) = None ->
  exists f',
    _generate_sales_report env task parameters (mkFrame w0 (Some (pk, obj)))
    = (Return (sales_result s e w0), f').
Proof.
  intros Hrow Hs He H1 H2.
  do 8 (run; cbn [reports clock connection set_trace set_reports set_clock];
        rewrite ?write_error_milestone by (simpl; lia);
        rewrite ?Hrow, ?lookup_insert_eq, ?Hs, ?He, ?H1, ?H2).
  eexists. f_equal. f_equal.
  unfold sales_result, orders_in_range.
  cbn [orders set_trace set_reports set_clock].
  fold (orders_in_range s e w0).
  by rewrite length_orders_in_range, sum_total_revenue.
Qed.
End Sales.

Lemma sales_result_orders s e w1 w2 :
  orders w1 = orders w2 -> sales_result s e w1 = sales_result s e w2.
Proof.
  intros H.
  unfold sales_result, order_count, revenue, orders_in_period, orders_in_range.
  by rewrite H.
Qed.

Lemma sales_summary_json s e w :
  json_serializable (summary (sales_result s e w)) = true.
Proof. unfold sales_result. simpl. by destruct (_ =? _). Qed.

(** The final save of a sales report goes through: its summary holds
    an integer, floats and a string. *)
Lemma attempt_error_sales v r s e w :
  -2147483648 <= Report.retry_count r <= 2147483647 ->
  attempt_error v r (Return (sales_result s e w)) = None.
Proof.
  intros Hrc. unfold attempt_error, write_error.
  replace (Report.result_data _) with (summary (sales_result s e w)) by done.
  rewrite sales_summary_json.
  replace (integer_columns _ _) with [100; Report.retry_count r] by done.
  simpl. by rewrite !integer_error_small by lia.
Qed.

(** ** Jobs settled in one turn, and jobs that never get started *)

(** A turn on a message without chain whose task returns and leaves the
    world as it was: the result is recorded. *)
Lemma worker_step_returns env w m rest v :
  broker w = m :: rest ->
  msg_id m ∉ revoked w ->
  msg_chain m = [] ->
  run_task env m (set_trace (trace w ++ [Ev_received m]) (set_broker rest w))
  = (Return v, set_trace (trace w ++ [Ev_received m]) (set_broker rest w)) ->
  worker_step env w
  = set_trace (trace w ++ [Ev_received m; Ev_succeeded (msg_id m) v])
      (set_broker rest w).
Proof.
  intros Hq Hrev Hc Hrun.
  rewrite (worker_step_run env w m rest Hq Hrev), Hrun.
  unfold settle. rewrite Hc. cbv [log modify fst snd]. cbn.
  by rewrite <- app_assoc.
Qed.

Lemma refuses_at_rest w w' :
  at_rest w' = at_rest w ->
  refuses_select_for_update w' = refuses_select_for_update w.
Proof.
  intros H. unfold refuses_select_for_update.
  replace (connection w') with (connection w); [done|].
  unfold at_rest in H. by injection H.
Qed.

(** An order job on a connection that refuses [select_for_update()]:
    every attempt raises before it has read anything, the three retries
    are made, five seconds apart, and the task is given up. *)
Lemma process_order_stuck env w m order_id :
  broker w = [m] ->
  msg_sig m = mkSignature T_process_order [VInt order_id] ->
  msg_retries m = 0%nat ->
  msg_id m ∉ revoked w ->
  refuses_select_for_update w = true ->
  at_rest (run_worker env 4 w) = at_rest w
  /\ broker (run_worker env 4 w) = []
  /\ length (received (trace (run_worker env 4 w)))
     = (length (received (trace w)) + 4)%nat
  /\ retries_of (msg_id m) (trace (run_worker env 4 w))
     = retries_of (msg_id m) (trace w) ++ [(1%nat, 5); (2%nat, 5); (3%nat, 5)]
  /\ failures (trace (run_worker env 4 w))
     = failures (trace w) ++ [(msg_id m, not_in_transaction)]
  /\ successes (trace (run_worker env 4 w)) = successes (trace w).
Proof.
  intros Hq Hsig Hret Hrev Hsfu.
  destruct (stuck_attempts env (msg_id m)
              (mkSignature T_process_order [VInt order_id])
              (mkRetryPolicy 3 5 false) not_in_transaction
              (fun w => refuses_select_for_update w = true) eq_refl)
    with (d := 3%nat) (w := w) (m := m) as (H1 & H2 & H3 & H4 & H5 & H6);
    try done.
  - intros w0 w' Hr. by rewrite (refuses_at_rest w0 w').
  - intros m0 w0 HI _ Hsig0. exists w0, [].
    unfold run_task. rewrite Hsig0. cbn [sig_task sig_args].
    rewrite process_order_refused by done. by rewrite app_nil_r.
  - by rewrite Hret.
  - rewrite Hret in H4. by split_and!.
Qed.

(** A report job on a connection that refuses [select_for_update()], or
    for a row that does not exist: every attempt ends in the handler,
    which finds [report] unbound; nothing is written, the three retries
    are made, a minute apart, and the task is given up. *)
Lemma generate_report_stuck env w m pk :
  broker w = [m] ->
  msg_sig m = mkSignature T_generate_report [VStr pk] ->
  msg_retries m = 0%nat ->
  msg_id m ∉ revoked w ->
  refuses_select_for_update w = true \/ reports w !! pk = None ->
  at_rest (run_worker env 4 w) = at_rest w
  /\ broker (run_worker env 4 w) = []
  /\ length (received (trace (run_worker env 4 w)))
     = (length (received (trace w)) + 4)%nat
  /\ retries_of (msg_id m) (trace (run_worker env 4 w))
     = retries_of (msg_id m) (trace w)
         ++ [(1%nat, 60); (2%nat, 60); (3%nat, 60)]
  /\ failures (trace (run_worker env 4 w))
     = failures (trace w) ++ [(msg_id m, UnboundLocalError "report")]
  /\ successes (trace (run_worker env 4 w)) = successes (trace w).
Proof.
  intros Hq Hsig Hret Hrev Hstuck.
  destruct (stuck_attempts env (msg_id m)
              (mkSignature T_generate_report [VStr pk])
              (mkRetryPolicy 3 60 false) (UnboundLocalError "report")
              (fun w => refuses_select_for_update w = true
                        \/ reports w !! pk = None) eq_refl)
    with (d := 3%nat) (w := w) (m := m) as (H1 & H2 & H3 & H4 & H5 & H6);
    try done.
  - intros w0 w' Hr [HI | HI]; [left | right].
    + by rewrite (refuses_at_rest w0 w').
    + replace (reports w') with (reports w0); [done|].
      unfold at_rest in Hr. by injection Hr.
  - intros m0 w0 HI _ Hsig0. exists w0, [].
    unfold run_task. rewrite Hsig0. cbn [sig_task sig_args].
    destruct HI as [HI | HI];
      [rewrite generate_report_refused by done
      | rewrite generate_report_missing by done];
      by rewrite app_nil_r.
  - by rewrite Hret.
  - rewrite Hret in H4. by split_and!.
Qed.

(** ** The log only grows *)

Lemma settle_trace m o w :
  exists evs, trace (settle m o w).2 = trace w ++ evs.
Proof.
  unfold settle. destruct o as [v|e].
  - destruct (msg_chain m) as [|next rest]; [by eexists|].
    destruct (accepts _ _); cbv [bind log modify publish ret fst snd]; cbn;
      [rewrite <- app_assoc|]; by eexists.
  - destruct (autoretry _) as [p|]; [|by eexists].
    destruct (_ <? _)%nat; cbv [bind log modify fst snd]; cbn; by eexists.
Qed.

Lemma worker_step_trace env w :
  exists evs, trace (worker_step env w) = trace w ++ evs.
Proof.
  destruct (broker w) as [|m rest] eqn:Hq.
  { exists []. rewrite worker_step_idle by done. by rewrite app_nil_r. }
  destruct (decide (msg_id m ∈ revoked w)) as [Hrev|Hrev].
  { unfold worker_step. rewrite Hq. cbn [revoked set_broker].
    rewrite decide_True by done. by eexists. }
  rewrite (worker_step_run env w m rest Hq Hrev).
  set (w0 := set_trace (trace w ++ [Ev_received m]) (set_broker rest w)).
  pose proof (run_task_published env m w0) as (_ & (tevs & Htr & _) & _).
  destruct (settle_trace m (run_task env m w0).1 (run_task env m w0).2)
    as (evs & ->).
  rewrite Htr. subst w0. cbn. rewrite <- !app_assoc. by eexists.
Qed.

Lemma run_worker_trace env n w :
  exists evs, trace (run_worker env n w) = trace w ++ evs.
Proof.
  unfold run_worker. induction n as [|n (evs & IH)].
  - exists []. by rewrite app_nil_r.
  - simpl. destruct (worker_step_trace env (Nat.iter n (worker_step env) w))
      as (evs' & ->).
    rewrite IH, <- app_assoc. by eexists.
Qed.

(** ** Links and failures *)

Lemma links_follow_success_quiet tr :
  dispatches tr = [] -> links_follow_success tr.
Proof.
  intros H tr1 tr2 tid next_id ->.
  rewrite dispatches_app in H. simpl in H.
  by destruct (dispatches tr1).
Qed.

Lemma elem_of_dispatches tr tid next_id :
  (tid, next_id) ∈ dispatches tr ->
  exists tr1 tr2, tr = tr1 ++ Ev_dispatched tid next_id :: tr2.
Proof.
  induction tr as [|ev tr IH]; [by rewrite elem_of_nil|].
  intros H.
  assert (Hcases : ev = Ev_dispatched tid next_id
                   \/ (tid, next_id) ∈ dispatches tr).
  { destruct ev; simpl in H; try (by right).
    apply elem_of_cons in H as [[= <- <-] | H]; [by left | by right]. }
  destruct Hcases as [-> | Hin].
  - by exists [], tr.
  - destruct (IH Hin) as (tr1 & tr2 & ->). by exists (ev :: tr1), tr2.
Qed.

(** In a well-formed world no link has been sent for a task that
    failed. *)
Lemma failed_task_sends_nothing w tid :
  well_formed w ->
  tid ∈ (failures (trace w)).*1 ->
  tid ∉ (dispatches (trace w)).*1.
Proof.
  intros (Hnd & _ & Hl) Hf Hd.
  apply list_elem_of_fmap in Hd as ([t next_id] & -> & Hd). simpl in Hf.
  apply elem_of_dispatches in Hd as (tr1 & tr2 & Htr).
  pose proof (Hl tr1 tr2 t next_id Htr) as Hs.
  unfold tasks in Hnd. apply NoDup_app in Hnd as (_ & _ & Hnd).
  apply (succeeded_not_failed (trace w) t Hnd); [|done].
  rewrite Htr, successes_app, fmap_app. apply elem_of_app. by left.
Qed.

(** * The claims *)

(** ** Order jobs that have nothing to do *)

Lemma business_at_rest w w' : at_rest w' = at_rest w -> business w' = business w.
Proof.
  unfold at_rest, business. intros H. injection H. congruence.
Qed.

(** An order job whose handler, once its first query is accepted, returns
    [v] and touches nothing. Where the connection refuses the query the
    task raises on each of its four attempts; elsewhere it returns at the
    first, and the worker records the result and is done. *)
Lemma process_order_job env w m order_id v :
  broker w = [m] ->
  msg_sig m = mkSignature T_process_order [VInt order_id] ->
  msg_retries m = 0%nat ->
  msg_chain m = [] ->
  msg_id m ∉ revoked w ->
  (forall self w',
     orders w' = orders w ->
     refuses_select_for_update w' = false ->
     process_order self order_id w' = (Return v, w')) ->
  if refuses_select_for_update w
  then
    (forall self, process_order self order_id w = (Raise not_in_transaction, w))
    /\ business (run_worker env 4 w) = business w
    /\ broker (run_worker env 4 w) = []
    /\ retries_of (msg_id m) (trace (run_worker env 4 w))
       = retries_of (msg_id m) (trace w) ++ [(1%nat, 5); (2%nat, 5); (3%nat, 5)]
    /\ failures (trace (run_worker env 4 w))
       = failures (trace w) ++ [(msg_id m, not_in_transaction)]
    /\ successes (trace (run_worker env 4 w)) = successes (trace w)
  else
    (forall self, process_order self order_id w = (Return v, w))
    /\ business (worker_step env w) = business w
    /\ broker (worker_step env w) = []
    /\ retries_of (msg_id m) (trace (worker_step env w))
       = retries_of (msg_id m) (trace w)
    /\ failures (trace (worker_step env w)) = failures (trace w)
    /\ successes (trace (worker_step env w))
       = successes (trace w) ++ [(msg_id m, v)].
Proof.
  intros Hq Hsig Hret Hchain Hrev Hbody.
  destruct (refuses_select_for_update w) eqn:Hsfu.
  - destruct (process_order_stuck env w m order_id Hq Hsig Hret Hrev Hsfu)
      as (Hrest & Hb & _ & Hr & Hf & Hs).
    split_and!; try done.
    + intros self. by apply process_order_refused.
    + by apply business_at_rest.
  - split; [intros self; by apply Hbody|].
    rewrite (worker_step_returns env w m [] v Hq Hrev Hchain).
    + cbn [business products orders order_items order_status_history broker
           trace set_trace set_broker].
      rewrite retries_of_app, failures_app, successes_app. simpl.
      by rewrite !app_nil_r.
    + unfold run_task. rewrite Hsig. cbn [sig_task sig_args].
      by apply Hbody.
Qed.

(** C1. An order-processing job invoked on an order whose status is
    already processing, shipped or delivered mutates no business record,
    but it returns the 'skipped' result only on a connection that accepts
    [select_for_update()] outside a transaction. On a connection that
    refuses it, PostgreSQL in autocommit mode, the handler raises
    [TransactionManagementError] before it has read the order; the worker
    retries the job three times, five seconds apart, and records it as
    failed. *)
Theorem process_order_already_processed (env : Environment) (w : World)
    (m : Message) (order_id : Z) (order : Order.t) :
  orders w !! order_id = Some order ->
  Order.status order = Order.PROCESSING
  \/ Order.status order = Order.SHIPPED
  \/ Order.status order = Order.DELIVERED ->
  broker w = [m] ->
  msg_sig m = mkSignature T_process_order [VInt order_id] ->
  msg_retries m = 0%nat ->
  msg_chain m = [] ->
  msg_id m ∉ revoked w ->
  if refuses_select_for_update w
  then
    (forall self, process_order self order_id w = (Raise not_in_transaction, w))
    /\ business (run_worker env 4 w) = business w
    /\ broker (run_worker env 4 w) = []
    /\ retries_of (msg_id m) (trace (run_worker env 4 w))
       = retries_of (msg_id m) (trace w) ++ [(1%nat, 5); (2%nat, 5); (3%nat, 5)]
    /\ failures (trace (run_worker env 4 w))
       = failures (trace w) ++ [(msg_id m, not_in_transaction)]
    /\ successes (trace (run_worker env 4 w)) = successes (trace w)
  else
    (forall self, process_order self order_id w = (Return order_skipped, w))
    /\ business (worker_step env w) = business w
    /\ broker (worker_step env w) = []
    /\ retries_of (msg_id m) (trace (worker_step env w))
       = retries_of (msg_id m) (trace w)
    /\ failures (trace (worker_step env w)) = failures (trace w)
    /\ successes (trace (worker_step env w))
       = successes (trace w) ++ [(msg_id m, order_skipped)].
Proof.
  intros Ho Hs Hq Hsig Hret Hchain Hrev.
  apply process_order_job; try done.
  intros self w' Hw' Hsfu.
  apply (process_order_skipped self order_id order w' Hsfu).
  - by rewrite Hw'.
  - by destruct Hs as [-> | [-> | ->]].
Qed.

Lemma process_order_already_processed_witness :
  (forall self,
     process_order self 2 (on_postgresql shipped_order_job)
     = (Raise not_in_transaction, on_postgresql shipped_order_job))
  /\ business (run_worker online 4 (on_postgresql shipped_order_job))
     = business (on_postgresql shipped_order_job)
  /\ broker (run_worker online 4 (on_postgresql shipped_order_job)) = []
  /\ retries_of 0%N (trace (run_worker online 4 (on_postgresql shipped_order_job)))
     = retries_of 0%N (trace (on_postgresql shipped_order_job))
         ++ [(1%nat, 5); (2%nat, 5); (3%nat, 5)]
  /\ failures (trace (run_worker online 4 (on_postgresql shipped_order_job)))
     = failures (trace (on_postgresql shipped_order_job))
         ++ [(0%N, not_in_transaction)]
  /\ successes (trace (run_worker online 4 (on_postgresql shipped_order_job)))
     = successes (trace (on_postgresql shipped_order_job)).
Proof.
  apply (process_order_already_processed online
           (on_postgresql shipped_order_job) (process_order_message 0%N 2) 2
           (Order.mk "ORD-2" Order.SHIPPED 1000 "bob@example.com"
              "bob@example.com" 150 false)).
  - reflexivity.
  - right. left. reflexivity.
  - reflexivity.
  - reflexivity.
  - reflexivity.
  - reflexivity.
  - apply not_elem_of_empty.
Defined.

(** The same job on a connection that accepts the query: one turn, the
    'skipped' result, no retry, and the records as they were. *)
Lemma shipped_order_skipped_without_row_locks :
  process_order (mkRequest 0%N 0%nat) 2 shipped_order_job
  = (Return order_skipped, shipped_order_job)
  /\ successes (trace (worker_step online shipped_order_job))
     = [(0%N, order_skipped)]
  /\ broker (worker_step online shipped_order_job) = []
  /\ business (worker_step online shipped_order_job) = business shipped_order_job.
Proof. split_and!; by vm_compute. Qed.

(** C10. Invoked with an order id that matches no order, the
    order-processing handler mutates no record, but it returns the error
    result without raising only on a connection that accepts
    [select_for_update()] outside a transaction; there the job is not
    retried. On a connection that refuses it, PostgreSQL in autocommit
    mode, the query raises [TransactionManagementError], which the
    [except Order.DoesNotExist] clause does not catch: the handler raises,
    and the worker retries the job three times before it gives up. *)
Theorem process_order_missing_order (env : Environment) (w : World)
    (m : Message) (order_id : Z) :
  orders w !! order_id = None ->
  broker w = [m] ->
  msg_sig m = mkSignature T_process_order [VInt order_id] ->
  msg_retries m = 0%nat ->
  msg_chain m = [] ->
  msg_id m ∉ revoked w ->
  if refuses_select_for_update w
  then
    (forall self, process_order self order_id w = (Raise not_in_transaction, w))
    /\ business (run_worker env 4 w) = business w
    /\ broker (run_worker env 4 w) = []
    /\ retries_of (msg_id m) (trace (run_worker env 4 w))
       = retries_of (msg_id m) (trace w) ++ [(1%nat, 5); (2%nat, 5); (3%nat, 5)]
    /\ failures (trace (run_worker env 4 w))
       = failures (trace w) ++ [(msg_id m, not_in_transaction)]
    /\ successes (trace (run_worker env 4 w)) = successes (trace w)
  else
    (forall self, process_order self order_id w = (Return order_not_found, w))
    /\ business (worker_step env w) = business w
    /\ broker (worker_step env w) = []
    /\ retries_of (msg_id m) (trace (worker_step env w))
       = retries_of (msg_id m) (trace w)
    /\ failures (trace (worker_step env w)) = failures (trace w)
    /\ successes (trace (worker_step env w))
       = successes (trace w) ++ [(msg_id m, order_not_found)].
Proof.
  intros Ho Hq Hsig Hret Hchain Hrev.
  apply process_order_job; try done.
  intros self w' Hw' Hsfu.
  apply (process_order_not_found self order_id w' Hsfu). by rewrite Hw'.
Qed.

Lemma process_order_missing_order_witness :
  (forall self,
     process_order self 42 (on_postgresql lost_order_job)
     = (Raise not_in_transaction, on_postgresql lost_order_job))
  /\ business (run_worker online 4 (on_postgresql lost_order_job))
     = business (on_postgresql lost_order_job)
  /\ broker (run_worker online 4 (on_postgresql lost_order_job)) = []
  /\ retries_of 0%N (trace (run_worker online 4 (on_postgresql lost_order_job)))
     = retries_of 0%N (trace (on_postgresql lost_order_job))
         ++ [(1%nat, 5); (2%nat, 5); (3%nat, 5)]
  /\ failures (trace (run_worker online 4 (on_postgresql lost_order_job)))
     = failures (trace (on_postgresql lost_order_job))
         ++ [(0%N, not_in_transaction)]
  /\ successes (trace (run_worker online 4 (on_postgresql lost_order_job)))
     = successes (trace (on_postgresql lost_order_job)).
Proof.
  apply (process_order_missing_order online (on_postgresql lost_order_job)
           (process_order_message 0%N 42) 42).
  - reflexivity.
  - reflexivity.
  - reflexivity.
  - reflexivity.
  - reflexivity.
  - apply not_elem_of_empty.
Defined.

(** The same job on a connection that accepts the query: the error
    result at the first turn, and no retry. *)
Lemma missing_order_not_retried_without_row_locks :
  process_order (mkRequest 0%N 0%nat) 42 lost_order_job
  = (Return order_not_found, lost_order_job)
  /\ successes (trace (worker_step online lost_order_job))
     = [(0%N, order_not_found)]
  /\ retries_of 0%N (trace (worker_step online lost_order_job)) = []
  /\ broker (worker_step online lost_order_job) = [].
Proof. split_and!; by vm_compute. Qed.

(** C2, evaluated where the code and the claim part. Order 1 has two
    line items for the same product, 3 and 4 units of a product with 10 in
    stock, so every line item is sufficient. The job succeeds, the order
    is moved to processing, an audit row is added and the chain is
    queued; but each line wrote the stock from its own copy of the
    product, and the stock is 6, not 3: it went down by 4, the quantity of
    the last line, while 7 units were ordered. *)
Theorem duplicate_line_items_lose_stock :
  (fun row : OrderItem.t * Product.t =>
     (OrderItem.product row.1, OrderItem.quantity row.1,
      Product.stock_quantity row.2)) <$> order_lines 1 shop
  = [(7, 3, 10); (7, 4, 10)]
  /\ match (process_order (mkRequest 9%N 0%nat) 1 shop).1 with
     | Return v => is_success v = true
     | Raise _ => False
     end
  /\ Product.stock_quantity
       <$> products (process_order (mkRequest 9%N 0%nat) 1 shop).2 !! 7
     = Some 6
  /\ Product.sales_count
       <$> products (process_order (mkRequest 9%N 0%nat) 1 shop).2 !! 7
     = Some 4
  /\ Order.status <$> orders (process_order (mkRequest 9%N 0%nat) 1 shop).2 !! 1
     = Some Order.PROCESSING
  /\ length (order_status_history (process_order (mkRequest 9%N 0%nat) 1 shop).2)
     = 1%nat
  /\ broker (process_order (mkRequest 9%N 0%nat) 1 shop).2 = [order_chain 0%N 1].
Proof. split_and!; by vm_compute. Qed.

(** ** Retries *)

(** C3, amended. A report job whose generator raises on every attempt
    (not a timeout), on a connection that accepts the first query of the
    task, is retried exactly [max_retries = 3] times, each retry asked
    with the same delay, and then stays failed: the queue is empty and
    further turns of the worker change nothing. Every failed attempt, the
    first included, adds one to the persisted [retry_count], which has
    therefore grown by [max_retries + 1 = 4]; it is the number of retries,
    not [retry_count], that is bounded by the maximum. *)
Theorem generate_report_retries_exhausted (env : Environment) (w : World)
    (m : Message) (pk : string) (r : Report.t) :
  broker w = [m] ->
  msg_sig m = mkSignature T_generate_report [VStr pk] ->
  msg_retries m = 0%nat ->
  msg_id m ∉ revoked w ->
  refuses_select_for_update w = false ->
  reports w !! pk = Some r ->
  -2147483648 <= Report.retry_count r ->
  Report.retry_count r + 4 <= 2147483647 ->
  always_throws env (Report.report_type r) (Report.parameters r) ->
  max_retries <$> autoretry T_generate_report = Some 3%nat
  /\ (exists r',
        reports (run_worker env 4 w) !! pk = Some r'
        /\ Report.status r' = Report.FAILED
        /\ Report.retry_count r' = Report.retry_count r + 4)
  /\ broker (run_worker env 4 w) = []
  /\ retries_of (msg_id m) (trace (run_worker env 4 w))
     = retries_of (msg_id m) (trace w)
         ++ [(1%nat, 60); (2%nat, 60); (3%nat, 60)]
  /\ length (received (trace (run_worker env 4 w)))
     = (length (received (trace w)) + 4)%nat
  /\ forall n, run_worker env (n + 4) w = run_worker env 4 w.
Proof.
  intros Hq Hsig Hretries Hrev Hsfu Hr Hlo Hhi Hthrows. split; [done|].
  destruct (failed_attempts env 3 w m pk r)
    as (r' & Hr' & Hs & Hc & Hb & Ht & Hl);
    [by rewrite Hretries | done.. | simpl; lia | done |].
  rewrite Hretries in Ht. split_and!; [by exists r' | done | done | done |].
  intros n. rewrite run_worker_add. by apply run_worker_idle.
Qed.

Lemma generate_report_retries_exhausted_witness :
  max_retries <$> autoretry T_generate_report = Some 3%nat
  /\ (exists r',
        reports (run_worker offline 4 sales_job) !! "r1" = Some r'
        /\ Report.status r' = Report.FAILED
        /\ Report.retry_count r' = 0 + 4)
  /\ broker (run_worker offline 4 sales_job) = []
  /\ retries_of 0%N (trace (run_worker offline 4 sales_job))
     = retries_of 0%N (trace sales_job)
         ++ [(1%nat, 60); (2%nat, 60); (3%nat, 60)]
  /\ length (received (trace (run_worker offline 4 sales_job)))
     = (length (received (trace sales_job)) + 4)%nat
  /\ forall n, run_worker offline (n + 4) sales_job = run_worker offline 4 sales_job.
Proof.
  apply (generate_report_retries_exhausted offline sales_job
           (generate_report_message 0%N "r1") "r1"
           (ReportCreateSerializer.new_report "ann@example.com" Report.SALES
              period)).
  - reflexivity.
  - reflexivity.
  - reflexivity.
  - apply not_elem_of_empty.
  - reflexivity.
  - reflexivity.
  - simpl. lia.
  - simpl. lia.
  - apply offline_always_throws.
Defined.

(** C3 as stated fails: after the three retries of a sales report whose
    queries all fail, the job is failed and its [retry_count] is 4, which
    is neither equal to nor bounded by [max_retries = 3]. *)
Lemma retry_count_exceeds_max_retries :
  max_retries <$> autoretry T_generate_report = Some 3%nat
  /\ broker (run_worker offline 4 sales_job) = []
  /\ Report.status <$> reports (run_worker offline 4 sales_job) !! "r1"
     = Some Report.FAILED
  /\ Report.retry_count <$> reports (run_worker offline 4 sales_job) !! "r1"
     = Some 4
  /\ ~ (4 <= 3).
Proof. split_and!; [done | by vm_compute.. | lia]. Qed.


(** ** Status transitions *)


(** C5. A worker that runs [generate_report] on a row in a terminal
    status (completed, failed or cancelled) moves the row out of that
    status wherever its first query is accepted: the task reads no status
    and its first write sets processing. This is what happens at every
    automatic retry, which finds the row failed, and to a cancelled or
    completed report whose message is delivered. Where the query is
    refused, PostgreSQL in autocommit mode, the worker writes no status
    at all. *)
Theorem worker_leaves_terminal_status (env : Environment) (self : Request)
    (pk : string) (w : World) (s : Report.Status) :
  Report.status <$> reports w !! pk = Some s ->
  terminal s = true ->
  exists evs,
    trace (perform env (Op_worker self pk) w) = trace w ++ evs
    /\ if refuses_select_for_update w
       then status_writes pk evs = []
       else exists rest,
           transitions s (status_writes pk evs) = (s, Report.PROCESSING) :: rest
           /\ monotonic (Op_worker self pk) s Report.PROCESSING = false.
Proof.
  intros Hs Hterminal.
  destruct (reports w !! pk) as [r|] eqn:Hr; [|done].
  injection Hs as <-.
  simpl. destruct (refuses_select_for_update w) eqn:Hsfu.
  { rewrite generate_report_refused by done. exists []. simpl.
    by rewrite app_nil_r. }
  destruct (generate_report_attempt env self pk w r Hsfu Hr)
    as (f2 & oh & f3 & r' & evs & ps & _ & _ & _ & _ & _ & _ & Htr & _ & _
        & _ & _ & Hoh).
  exists evs. split; [done|].
  assert (Hw : exists ws, status_writes pk evs = Report.PROCESSING :: ws).
  { unfold ending in Hoh.
    destruct (attempt_error _ _ _) as [e|].
    - destruct Hoh as (_ & _ & Hoh). destruct (is_timeout e).
      + destruct Hoh as (_ & _ & _ & _ & ->). by eexists.
      + destruct (integer_error _ _).
        * destruct Hoh as (_ & _ & ->). by eexists.
        * destruct Hoh as (_ & _ & _ & _ & ->). by eexists.
    - destruct oh; [|done].
      destruct Hoh as (_ & _ & _ & _ & _ & _ & -> & _). by eexists. }
  destruct Hw as (ws & ->). simpl. eexists. split; [done|].
  by destruct (Report.status r).
Qed.

Lemma worker_leaves_terminal_status_witness :
  exists evs,
    trace (perform offline (Op_worker (mkRequest 0%N 1%nat) "r1")
             (run_worker offline 1 sales_job))
    = trace (run_worker offline 1 sales_job) ++ evs
    /\ exists rest,
        transitions Report.FAILED (status_writes "r1" evs)
        = (Report.FAILED, Report.PROCESSING) :: rest
        /\ monotonic (Op_worker (mkRequest 0%N 1%nat) "r1") Report.FAILED
             Report.PROCESSING = false.
Proof.
  apply (worker_leaves_terminal_status offline (mkRequest 0%N 1%nat) "r1"
           (run_worker offline 1 sales_job) Report.FAILED).
  - vm_compute. reflexivity.
  - reflexivity.
Defined.

(** The status writes of the failing sales job, turn by turn. Without row
    locks the first attempt leaves the row failed while a retry is on the
    queue, and the retry writes processing over failed; a cancelled report
    whose message is delivered is set to processing and completed. On
    PostgreSQL the four attempts write no status. *)
Lemma automatic_retry_leaves_failed :
  Report.status <$> reports (run_worker offline 1 sales_job) !! "r1"
  = Some Report.FAILED
  /\ msg_retries <$> broker (run_worker offline 1 sales_job) = [1%nat]
  /\ transitions Report.FAILED
       (status_writes "r1"
          (drop (length (trace (run_worker offline 1 sales_job)))
                (trace (run_worker offline 2 sales_job))))
     = [(Report.FAILED, Report.PROCESSING); (Report.PROCESSING, Report.FAILED)]
  /\ transitions Report.CANCELLED
       (status_writes "r1"
          (drop (length (trace (ReportViewSet.cancel "r1" sales_job).2))
                (trace (worker_step online
                          (ReportViewSet.cancel "r1" sales_job).2))))
     = [(Report.CANCELLED, Report.PROCESSING);
        (Report.PROCESSING, Report.COMPLETED)]
  /\ status_writes "r1" (trace (run_worker offline 4 (on_postgresql sales_job)))
     = [].
Proof. split_and!; by vm_compute. Qed.

(** C7, evaluated where the code and the claim part. A sales report whose
    queries all fail: the three retries are asked with delays 60, 60, 60
    (doubling from the base delay would give 60, 120, 240), whatever the
    attempt number the delay of the report and order tasks is their fixed
    [countdown]; and the row is already failed, with its error message,
    after the first attempt, when the retry count is 0 and a retry is on
    the queue. *)
Theorem retry_delay_is_constant :
  retries_of 0%N (trace (run_worker offline 4 sales_job))
  = [(1%nat, 60); (2%nat, 60); (3%nat, 60)]
  /\ (forall n, retry_countdown (mkRetryPolicy 3 60 false) n = 60)
  /\ autoretry T_generate_report = Some (mkRetryPolicy 3 60 false)
  /\ (forall n, retry_countdown (mkRetryPolicy 3 5 false) n = 5)
  /\ autoretry T_process_order = Some (mkRetryPolicy 3 5 false)
  /\ Report.status <$> reports (run_worker offline 1 sales_job) !! "r1"
     = Some Report.FAILED
  /\ Report.error_message <$> reports (run_worker offline 1 sales_job) !! "r1"
     = Some "server closed the connection unexpectedly"
  /\ msg_retries <$> broker (run_worker offline 1 sales_job) = [1%nat].
Proof. split_and!; try done; by vm_compute. Qed.

(** ** Progress *)

(** C8, amended. Within one execution attempt of [generate_report], a
    first attempt or a retry, the progress values written to the row are
    non-decreasing and none is below 10: no attempt resets the progress
    to 0. Where the first query of the attempt is accepted and finds the
    row, the first value written is 10, and until then the row keeps the
    progress left by the previous attempt; where the query is refused,
    PostgreSQL in autocommit mode, the attempt writes nothing. *)
Theorem progress_non_decreasing (env : Environment) (self : Request)
    (pk : string) (w : World) :
  exists evs,
    trace (run_frame (generate_report env self pk) w).2 = trace w ++ evs
    /\ StronglySorted Z.le (progress_writes pk evs)
    /\ Forall (fun p => 10 <= p) (progress_writes pk evs)
    /\ if refuses_select_for_update w
       then evs = []
       else match reports w !! pk with
            | Some _ => head (progress_writes pk evs) = Some 10
            | None => evs = []
            end.
Proof.
  assert (Hnone : forall o : Outcome Value,
             exists evs,
               trace (o, w).2 = trace w ++ evs
               /\ StronglySorted Z.le (progress_writes pk evs)
               /\ Forall (fun p => 10 <= p) (progress_writes pk evs)
               /\ evs = []).
  { intros o. exists []. simpl. rewrite app_nil_r.
    split_and!; [done | constructor | constructor | done]. }
  destruct (refuses_select_for_update w) eqn:Hsfu.
  { rewrite generate_report_refused by done. apply Hnone. }
  destruct (reports w !! pk) as [r|] eqn:Hr.
  - destruct (generate_report_attempt env self pk w r Hsfu Hr)
      as (f2 & oh & f3 & r' & evs & ps & _ & _ & _ & _ & _ & _ & Htr & _ & _
          & Hpw & Hso & _).
    exists evs. rewrite Hpw. split_and!; [done | done | | done].
    apply StronglySorted_inv in Hso as [_ Hle].
    constructor; [lia | done].
  - rewrite generate_report_missing by done. apply Hnone.
Qed.

(** C8 as stated fails: the retry of a sales report whose first attempt
    failed at progress 50 starts with the row at progress 50, writes 10,
    30, 50 and never 0. *)
Lemma retry_does_not_reset_progress :
  Report.progress <$> reports (run_worker offline 1 sales_job) !! "r1" = Some 50
  /\ progress_writes "r1"
       (drop (length (trace (run_worker offline 1 sales_job)))
             (trace (run_worker offline 2 sales_job)))
     = [10; 30; 50]
  /\ ~ 0 ∈ progress_writes "r1" (trace (run_worker offline 2 sales_job)).
Proof.
  split_and!; [by vm_compute | by vm_compute |].
  replace (progress_writes "r1" (trace (run_worker offline 2 sales_job)))
    with [10; 30; 50; 10; 30; 50] by (by vm_compute).
  rewrite !elem_of_cons, elem_of_nil. lia.
Qed.

(** ** The sales report *)

(** C6, amended. A sales report job over a period with K orders (not
    deleted, created within the period), run while the queries answer on
    a connection that accepts the first query of the task, returns and
    stores a summary with [total_orders = K] and [total_revenue] the sum
    of the totals of these orders, ends in status completed, and stores a
    table with a header row and one row per order for at most 1000
    orders: [min K 1000 + 1] rows. *)
Theorem sales_report_completed (env : Environment) (self : Request)
    (pk : string) (w : World) (r : Report.t) (s e : Z) :
  refuses_select_for_update w = false ->
  reports w !! pk = Some r ->
  Report.report_type r = Report.SALES ->
  Report.start_date (Report.parameters r) = Some s ->
  Report.end_date (Report.parameters r) = Some e ->
  -2147483648 <= Report.retry_count r <= 2147483647 ->
  faults env (clock w) = None ->
  faults env (S (clock w)) = None ->
  exists sm r',
    (run_frame (generate_report env self pk) w).1
    = Return (VDict [("status", VStr "success"); ("report_id", VStr pk);
                     ("summary", sm)])
    /\ value_get "total_orders" sm = Some (VInt (order_count s e w))
    /\ value_get "total_revenue" sm = Some (VFloat (revenue s e w) 100)
    /\ reports (run_frame (generate_report env self pk) w).2 !! pk = Some r'
    /\ Report.status r' = Report.COMPLETED
    /\ Report.result_data r' = sm
    /\ result_rows r'
       = Some (S (Nat.min (Z.to_nat (order_count s e w)) 1000)).
Proof.
  intros Hsfu Hr Hty Hs He Hrc H1 H2.
  destruct (generate_report_attempt env self pk w r Hsfu Hr)
    as (f2 & oh & f3 & r' & evs & ps & Hinv & Hclock & Hrun & Hrows & _ & _
        & _ & _ & _ & _ & _ & Hoh).
  destruct f2 as [w2 rep2]. destruct Hinv as [obj row evs' ps']. simpl in *.
  subst rep2. rewrite Hty in Hrun. simpl in Hrun.
  destruct (sales_report_run env self (Report.parameters r) w2 pk obj row s e)
    as (f' & Hsales); [by rewrite Hrows0, lookup_insert_eq | done | done
                      | by rewrite Hclock | by rewrite Hclock |].
  rewrite Hsales in Hrun. injection Hrun as <- <-.
  unfold ending in Hoh. rewrite attempt_error_sales in Hoh by done.
  destruct Hoh as (Ho & Hcompleted & _ & Hdata & _ & Hfile & _).
  assert (Hsame : sales_result s e w2 = sales_result s e w).
  { apply sales_result_orders. unfold outside in Houtside. by injection Houtside. }
  rewrite Hsame in *. clear Hsame.
  exists (summary (sales_result s e w)), r'.
  rewrite Ho, Hrows, lookup_insert_eq. split_and!; try done.
  unfold result_rows. rewrite (Hfile _ eq_refl). simpl.
  rewrite length_fmap, length_take, <- length_orders_in_range, Nat2Z.id.
  f_equal. f_equal. lia.
Qed.

Lemma sales_report_completed_witness :
  exists sm r',
    (run_frame (generate_report online (mkRequest 0%N 0%nat) "r1") sales_job).1
    = Return (VDict [("status", VStr "success"); ("report_id", VStr "r1");
                     ("summary", sm)])
    /\ value_get "total_orders" sm = Some (VInt (order_count 100 200 sales_job))
    /\ value_get "total_revenue" sm
       = Some (VFloat (revenue 100 200 sales_job) 100)
    /\ reports (run_frame (generate_report online (mkRequest 0%N 0%nat) "r1")
                  sales_job).2 !! "r1" = Some r'
    /\ Report.status r' = Report.COMPLETED
    /\ Report.result_data r' = sm
    /\ result_rows r'
       = Some (S (Nat.min (Z.to_nat (order_count 100 200 sales_job)) 1000)).
Proof.
  apply (sales_report_completed online (mkRequest 0%N 0%nat) "r1" sales_job
           (ReportCreateSerializer.new_report "ann@example.com" Report.SALES
              period) 100 200).
  - reflexivity.
  - reflexivity.
  - reflexivity.
  - reflexivity.
  - reflexivity.
  - simpl. lia.
  - reflexivity.
  - reflexivity.
Defined.


(** C6 as stated fails: with K = 1001 orders in the period the job ends
    completed with [total_orders = 1001], and the stored table has 1001
    rows, not K + 1 = 1002. *)
Lemma sales_report_table_capped :
  order_count 1 1001 (busy_sales_job 1001) = 1001
  /\ Report.status <$> reports (run_worker online 1 (busy_sales_job 1001)) !! "r1"
     = Some Report.COMPLETED
  /\ (reports (run_worker online 1 (busy_sales_job 1001)) !! "r1"
        ≫= fun r => value_get "total_orders" (Report.result_data r))
     = Some (VInt 1001)
  /\ (reports (run_worker online 1 (busy_sales_job 1001)) !! "r1"
        ≫= result_rows) = Some 1001%nat
  /\ 1001%nat <> (1001 + 1)%nat.
Proof. split_and!; [by vm_compute.. | lia]. Qed.

(** ** Chains *)

(** C4. In every run of the worker from a well-formed world, whatever
    the number of turns:
    - the world stays well-formed;
    - every link in the log was sent after the task before it had
      succeeded;
    - once a task has failed for good no link is ever sent for it, in
      this turn or in any later one, so the links behind it never get a
      message;
    - at each turn the queue is what the task body left, followed by the
      next link when the task returned and the link takes its result, or
      by a retry of the same message when the task raised and retries are
      left, and by nothing otherwise; the task body itself has published
      at most one message.
    The chains started by [process_order] and [generate_report] themselves
    are published only by a run that returns success, after the order has
    been moved to processing and the report to completed. *)
Theorem chain_link_waits_for_success (env : Environment) (w : World) (n : nat) :
  well_formed w ->
  well_formed (run_worker env n w)
  /\ (forall tr1 tr2 tid next_id,
        trace (run_worker env n w) = tr1 ++ Ev_dispatched tid next_id :: tr2 ->
        tid ∈ (successes tr1).*1)
  /\ (forall k tid,
        tid ∈ (failures (trace (run_worker env n w))).*1 ->
        tid ∉ (dispatches (trace (run_worker env (k + n) w))).*1)
  /\ (forall m rest,
        broker (run_worker env n w) = m :: rest ->
        msg_id m ∉ revoked (run_worker env n w) ->
        exists o w2,
          run_task env m
            (set_trace (trace (run_worker env n w) ++ [Ev_received m])
               (set_broker rest (run_worker env n w)))
          = (o, w2)
          /\ published
               (set_trace (trace (run_worker env n w) ++ [Ev_received m])
                  (set_broker rest (run_worker env n w)))
               w2
          /\ broker (worker_step env (run_worker env n w))
             = broker w2
                 ++ match o with
                    | Return v => next_link m v (next_task_id w2)
                    | Raise _ => if will_retry m then retry_message m else []
                    end)
  /\ (forall self order_id s,
        order_outcome order_id s (process_order self order_id s).1
          (process_order self order_id s).2)
  /\ (forall self pk s,
        match (run_frame (generate_report env self pk) s).1 with
        | Return _ =>
            broker (run_frame (generate_report env self pk) s).2
            = broker s ++ [report_chain (next_task_id s) pk]
            /\ Report.status
                 <$> reports (run_frame (generate_report env self pk) s).2 !! pk
               = Some Report.COMPLETED
        | Raise _ =>
            broker (run_frame (generate_report env self pk) s).2 = broker s
        end).
Proof.
  intros Hw.
  pose proof (run_worker_well_formed env n w Hw) as Hn.
  split_and!.
  - done.
  - by destruct Hn as (_ & _ & Hl).
  - intros k tid Hf.
    apply failed_task_sends_nothing; [by apply run_worker_well_formed|].
    rewrite run_worker_add.
    destruct (run_worker_trace env k (run_worker env n w)) as (evs & ->).
    rewrite failures_app, fmap_app. apply elem_of_app. by left.
  - intros m rest Hq Hrev.
    rewrite (worker_step_run env _ m rest Hq Hrev).
    pose proof (run_task_published env m
                  (set_trace (trace (run_worker env n w) ++ [Ev_received m])
                     (set_broker rest (run_worker env n w)))) as Hp.
    destruct (run_task env m _) as [o w2]. exists o, w2.
    split_and!; [done | done |].
    simpl. rewrite settle_broker. by destruct o.
  - intros self order_id s. by apply process_order_outcome.
  - intros self pk s. apply generate_report_chain.
Qed.

Lemma chain_link_waits_for_success_witness :
  well_formed (run_worker online 3 sales_job)
  /\ (forall tr1 tr2 tid next_id,
        trace (run_worker online 3 sales_job)
        = tr1 ++ Ev_dispatched tid next_id :: tr2 ->
        tid ∈ (successes tr1).*1)
  /\ (forall k tid,
        tid ∈ (failures (trace (run_worker online 3 sales_job))).*1 ->
        tid ∉ (dispatches (trace (run_worker online (k + 3) sales_job))).*1)
  /\ (forall m rest,
        broker (run_worker online 3 sales_job) = m :: rest ->
        msg_id m ∉ revoked (run_worker online 3 sales_job) ->
        exists o w2,
          run_task online m
            (set_trace (trace (run_worker online 3 sales_job) ++ [Ev_received m])
               (set_broker rest (run_worker online 3 sales_job)))
          = (o, w2)
          /\ published
               (set_trace
                  (trace (run_worker online 3 sales_job) ++ [Ev_received m])
                  (set_broker rest (run_worker online 3 sales_job)))
               w2
          /\ broker (worker_step online (run_worker online 3 sales_job))
             = broker w2
                 ++ match o with
                    | Return v => next_link m v (next_task_id w2)
                    | Raise _ => if will_retry m then retry_message m else []
                    end)
  /\ (forall self order_id s,
        order_outcome order_id s (process_order self order_id s).1
          (process_order self order_id s).2)
  /\ (forall self pk s,
        match (run_frame (generate_report online self pk) s).1 with
        | Return _ =>
            broker (run_frame (generate_report online self pk) s).2
            = broker s ++ [report_chain (next_task_id s) pk]
            /\ Report.status
                 <$> reports (run_frame (generate_report online self pk) s).2 !! pk
               = Some Report.COMPLETED
        | Raise _ =>
            broker (run_frame (generate_report online self pk) s).2 = broker s
        end).
Proof.
  apply (chain_link_waits_for_success online sales_job 3).
  split_and!.
  - vm_compute. apply NoDup_singleton.
  - vm_compute. repeat constructor.
  - apply links_follow_success_quiet. reflexivity.
Defined.



(** ** The approved evaluations on PostgreSQL *)

(** The order with two lines for one product, on PostgreSQL in autocommit
    mode: the task raises at its first query and no stock is written. *)
Lemma duplicate_line_items_on_postgresql :
  process_order (mkRequest 9%N 0%nat) 1 (on_postgresql shop)
  = (Raise not_in_transaction, on_postgresql shop).
Proof. by vm_compute. Qed.

(** The cancelled pending report on PostgreSQL in autocommit mode:
    nothing is revoked there either, and the worker still runs the
    handler, four times; the row stays cancelled. *)
Lemma cancelled_pending_report_on_postgresql :
  revoked (ReportViewSet.cancel "r1" (on_postgresql sales_job)).2 = ∅
  /\ msg_sig
       <$> received
             (trace (run_worker online 4
                       (ReportViewSet.cancel "r1" (on_postgresql sales_job)).2))
     = replicate 4 (mkSignature T_generate_report [VStr "r1"])
  /\ status_writes "r1"
       (trace (run_worker online 4
                 (ReportViewSet.cancel "r1" (on_postgresql sales_job)).2))
     = [Report.CANCELLED]
  /\ retries_of 0%N
       (trace (run_worker online 4
                 (ReportViewSet.cancel "r1" (on_postgresql sales_job)).2))
     = [(1%nat, 60); (2%nat, 60); (3%nat, 60)].
Proof. split_and!; by vm_compute. Qed.

(** C9, evaluated where the code and the claim part. A sales report is
    requested and cancelled while still pending. The endpoint answers 200
    and the row is cancelled; but the row does not know its task id yet
    (it is written by the task itself when it starts), so nothing is
    revoked and the message stays on the queue. At its next turn the
    worker runs the handler, which sets the row to processing and
    completes the report. *)
Theorem cancelled_pending_report_still_runs :
  (ReportViewSet.cancel "r1" sales_job).1
  = Return (HTTP_200_OK
              (VDict [("message", VStr "Report generation cancelled");
                      ("status", VStr "cancelled")]))
  /\ Report.status <$> reports (ReportViewSet.cancel "r1" sales_job).2 !! "r1"
     = Some Report.CANCELLED
  /\ revoked (ReportViewSet.cancel "r1" sales_job).2 = ∅
  /\ broker (ReportViewSet.cancel "r1" sales_job).2 = broker sales_job
  /\ msg_sig <$> received
       (trace (worker_step online (ReportViewSet.cancel "r1" sales_job).2))
     = [mkSignature T_generate_report [VStr "r1"]]
  /\ status_writes "r1"
       (trace (worker_step online (ReportViewSet.cancel "r1" sales_job).2))
     = [Report.CANCELLED; Report.PROCESSING; Report.COMPLETED]
  /\ Report.status
       <$> reports (worker_step online (ReportViewSet.cancel "r1" sales_job).2)
             !! "r1"
     = Some Report.COMPLETED.
Proof. split_and!; by vm_compute. Qed.

(** ** Further properties of the tasks and the endpoints *)






